(** * barcode-gen: the EAN-13 renderer, the preview endpoint and the batch list

    A shallow embedding of the preview route (POST, addSVGDimensions,
    getFontBase64, addFontStyle, generateEAN13Barcode, processEAN13) and of
    the list handlers of BarcodeMultiGenerator (handleAddBarcode,
    handleDeleteBarcode, handleDownloadZip), with the properties the
    specification states about them.

    Strings are [string] (sequences of 8-bit characters); on ASCII text a
    character is a JavaScript code unit, and [String.length] is [.length].
    JavaScript numbers that reach the renderer are modelled as integers. *)

From stdpp Require Import base strings pretty list gmap.
From Stdlib Require Import ZArith Ascii.

(** ** JavaScript values *)

(** What a [throw] carries. [JsError] and [JsTypeError] are instances of
    [Error] and have a message; [JsThrown] is any other thrown value. *)
Inductive exn : Type :=
| JsError (message : string)
| JsTypeError (message : string)
| JsThrown.

(** The outcome of an expression that may throw. *)
Inductive result (A : Type) : Type :=
| Ok (a : A)
| Throw (e : exn).
Arguments Ok {A} a.
Arguments Throw {A} e.

#[global] Instance result_ret : MRet result := fun A a => Ok a.
#[global] Instance result_bind : MBind result := fun A B f m =>
  match m with
  | Ok a => f a
  | Throw e => Throw e
  end.

(** [s[i]]: a one-character string, or undefined ([None]) out of range. *)
Definition char_at (s : string) (i : nat) : option ascii := String.get i s.

(** [c] is one of the characters 0 to 9. *)
Definition is_digit (c : ascii) : bool :=
  (48 <=? nat_of_ascii c) && (nat_of_ascii c <=? 57).

Definition digit_chars : list ascii :=
  [ "0"; "1"; "2"; "3"; "4"; "5"; "6"; "7"; "8"; "9" ]%char.

(** [parseInt] applied to [s[i]]: the value of a decimal digit, and NaN
    ([None]) for every other one-character string and for undefined. *)
Definition parseInt (c : option ascii) : option nat :=
  match c with
  | Some c => if is_digit c then Some (nat_of_ascii c - 48) else None
  | None => None
  end.

(** [table[index]] for a number index: undefined when the index is NaN or
    past the end of the array. *)
Definition array_at {A : Type} (table : list A) (index : option nat) : option A :=
  match index with
  | Some i => table !! i
  | None => None
  end.

(** The text a value contributes to a string concatenation or a template. *)
Definition to_text (v : option string) : string :=
  match v with
  | Some s => s
  | None => "undefined"
  end.

(** Truthiness of a string: every string but the empty one. *)
Definition truthy (s : string) : bool :=
  match s with
  | EmptyString => false
  | String _ _ => true
  end.

(** [for (let i = start; i < start + count; i++) body], threading the
    variables the body assigns. *)
Fixpoint for_loop {S : Type} (body : nat -> S -> result S)
    (start count : nat) (s : S) : result S :=
  match count with
  | O => Ok s
  | Datatypes.S count' =>
      match body start s with
      | Ok s' => for_loop body (Datatypes.S start) count' s'
      | Throw e => Throw e
      end
  end.

(** [parts.join(sep)]. *)
Fixpoint join (sep : string) (parts : list string) : string :=
  match parts with
  | [] => EmptyString
  | [p] => p
  | p :: rest => p +:+ sep +:+ join sep rest
  end.

(** ** The EAN-13 tables *)

Definition EAN13_L_CODES : list string :=
  [ "0001101"; "0011001"; "0010011"; "0111101"; "0100011";
    "0110001"; "0101111"; "0111011"; "0110111"; "0001011" ].

Definition EAN13_G_CODES : list string :=
  [ "0100111"; "0110011"; "0011011"; "0100001"; "0011101";
    "0111001"; "0000101"; "0010001"; "0001001"; "0010111" ].

Definition EAN13_R_CODES : list string :=
  [ "1110010"; "1100110"; "1101100"; "1000010"; "1011100";
    "1001110"; "1010000"; "1000100"; "1001000"; "1110100" ].

Definition EAN13_FIRST_DIGIT_PATTERNS : list string :=
  [ "LLLLLL"; "LLGLGG"; "LLGGLG"; "LLGGGL"; "LGLLGG";
    "LGGLLG"; "LGGGLL"; "LGLGLG"; "LGLGGL"; "LGGLGL" ].

(** ** The bit string of generateEAN13Barcode *)

(** The message of the TypeError V8 raises for [pattern[i]] when [pattern]
    is undefined. *)
Definition undefined_read (i : nat) : string :=
  "Cannot read properties of undefined (reading '" +:+ pretty i +:+ "')".

(** The body of the left-group loop. *)
Definition left_group_step (text : string) (pattern : option string)
    (i : nat) (barcodeBits : string) : result string :=
  let digit := parseInt (char_at text (i + 1)) in
  match pattern with
  | None => Throw (JsTypeError (undefined_read i))
  | Some p =>
      if decide (char_at p i = Some "L"%char)
      then Ok (barcodeBits +:+ to_text (array_at EAN13_L_CODES digit))
      else Ok (barcodeBits +:+ to_text (array_at EAN13_G_CODES digit))
  end.

(** The body of the right-group loop. *)
Definition right_group_step (text : string)
    (i : nat) (barcodeBits : string) : result string :=
  let digit := parseInt (char_at text (i + 7)) in
  Ok (barcodeBits +:+ to_text (array_at EAN13_R_CODES digit)).

(** The value of [barcodeBits] when the path loop starts. *)
Definition barcodeBits (text : string) : result string :=
  let firstDigit := parseInt (char_at text 0) in
  let pattern := array_at EAN13_FIRST_DIGIT_PATTERNS firstDigit in
  bits ← for_loop (left_group_step text pattern) 0 6 "101";
  let bits := bits +:+ "01010" in
  bits ← for_loop (right_group_step text) 0 6 bits;
  Ok (bits +:+ "101").

(** ** The path of generateEAN13Barcode *)

Definition SVG_WIDTH : Z := 346.
Definition SVG_HEIGHT : Z := 220.
Definition BAR_WIDTH : Z := 3.
Definition GUARD_BAR_HEIGHT : Z := 200.
Definition DATA_BAR_HEIGHT : Z := 165.
Definition TEXT_Y : Z := 185.
Definition START_X : Z := 30.

(** [(i >= 0 && i <= 2) || (i >= 42 && i <= 46) || (i >= 92 && i <= 94)]. *)
Definition isGuard (i : nat) : bool :=
  (0 <=? i) && (i <=? 2) || (42 <=? i) && (i <=? 46) || (92 <=? i) && (i <=? 94).

(** The body of the path loop; its variables are [pathSegments] and
    [currentX]. *)
Definition path_step (barcodeBits : string) (i : nat)
    (vars : list string * Z) : result (list string * Z) :=
  let '(pathSegments, currentX) := vars in
  let pathSegments :=
    if decide (char_at barcodeBits i = Some "1"%char) then
      let barBottom := if isGuard i then GUARD_BAR_HEIGHT else DATA_BAR_HEIGHT in
      pathSegments ++
        ["M" +:+ pretty currentX +:+ " 0L" +:+ pretty currentX +:+ " " +:+ pretty barBottom]
    else pathSegments in
  Ok (pathSegments, (currentX + BAR_WIDTH)%Z).

(** The value of [pathSegments] when the path loop ends. *)
Definition pathSegments (barcodeBits : string) : result (list string) :=
  vars ← for_loop (path_step barcodeBits) 0 (String.length barcodeBits) ([], START_X);
  Ok vars.1.

(** ** The process: font cache, font file and what the code did *)

(** What the code does to its surroundings, newest first in a trace.
    [Generate text] is a ghost event: it marks that generateEAN13Barcode
    was entered with [text]. *)
Inductive event : Type :=
| ConsoleError (label : string)
| ReadFontFile
| ToSVG (text : string)
| Generate (text : string).

Fixpoint font_reads (t : list event) : nat :=
  match t with
  | [] => 0
  | ReadFontFile :: t' => S (font_reads t')
  | _ :: t' => font_reads t'
  end.

(** [cachedFontBase64] is the module variable ([None] is null).
    [font_file k] is what the [k]-th evaluation of
    [fs.readFileSync(fontPath).toString('base64')] gives: the base64 text of
    the file, or an exception. *)
Record world : Type := World {
  cachedFontBase64 : option string;
  font_file : nat -> result string;
  trace : list event
}.

Definition initial_world (font_file : nat -> result string) : world :=
  World None font_file [].

(** Code that reads and writes the process and may throw. *)
Definition M (A : Type) : Type := world -> result A * world.

#[global] Instance M_ret : MRet M := fun A a w => (Ok a, w).
#[global] Instance M_bind : MBind M := fun A B f m w =>
  match m w with
  | (Ok a, w') => f a w'
  | (Throw e, w') => (Throw e, w')
  end.

Definition throw {A : Type} (e : exn) : M A := fun w => (Throw e, w).

Definition lift {A : Type} (r : result A) : M A := fun w => (r, w).

Definition try_catch {A : Type} (body : M A) (handler : exn -> M A) : M A :=
  fun w =>
    match body w with
    | (Ok a, w') => (Ok a, w')
    | (Throw e, w') => handler e w'
    end.

(** The process after one more event. *)
Definition record (e : event) (w : world) : world :=
  World (cachedFontBase64 w) (font_file w) (e :: trace w).

Definition emit (e : event) : M unit := fun w => (Ok tt, record e w).

Definition set_cachedFontBase64 (s : string) : M unit := fun w =>
  (Ok tt, World (Some s) (font_file w) (trace w)).

(** [fs.readFileSync(fontPath).toString('base64')]. *)
Definition readFontFile : M string := fun w =>
  (font_file w (font_reads (trace w)), record ReadFontFile w).

Definition getFontBase64 : M string := fun w =>
  let load :=
    try_catch
      (fontBase64 ← readFontFile;
       set_cachedFontBase64 fontBase64;;
       mret fontBase64)
      (fun error => emit (ConsoleError "Error loading font:");; mret EmptyString) in
  match cachedFontBase64 w with
  | Some cached => if truthy cached then (Ok cached, w) else load w
  | None => load w
  end.

(** [n] calls of getFontBase64 in a row: what each returns, and the
    process after the last. *)
Fixpoint getFontBase64_calls (n : nat) (w : world) : list (result string) * world :=
  match n with
  | O => ([], w)
  | S n' =>
      let '(r, w1) := getFontBase64 w in
      let '(rs, w2) := getFontBase64_calls n' w1 in
      (r :: rs, w2)
  end.

(** ** Text search and String.prototype.replace *)

Definition dq : string := String (ascii_of_nat 34) EmptyString.
Definition nl : string := String (ascii_of_nat 10) EmptyString.

(** [s] in double quotes. *)
Definition q (s : string) : string := dq +:+ s +:+ dq.

(** [s] without its prefix [p]. *)
Fixpoint strip_prefix (p s : string) : option string :=
  match p, s with
  | EmptyString, _ => Some s
  | String a p', String b s' => if decide (a = b) then strip_prefix p' s' else None
  | String _ _, EmptyString => None
  end.

(** The text before and after the first occurrence of [pat] in [s]. *)
Fixpoint split_at_first (pat s : string) : option (string * string) :=
  match strip_prefix pat s with
  | Some after => Some (EmptyString, after)
  | None =>
      match s with
      | EmptyString => None
      | String c s' =>
          match split_at_first pat s' with
          | Some (before, after) => Some (String c before, after)
          | None => None
          end
      end
  end.

(** [s.split(sep)] for a one-character separator. *)
Fixpoint split_on (sep : ascii) (s : string) : list string :=
  match s with
  | EmptyString => [EmptyString]
  | String c s' =>
      if decide (c = sep) then EmptyString :: split_on sep s'
      else
        match split_on sep s' with
        | piece :: pieces => String c piece :: pieces
        | [] => [String c EmptyString]
        end
  end.

Definition digit_value (c : ascii) : nat := nat_of_ascii c - 48.

(** What one match of a regular expression gives [replace]: the captures,
    the matched text and the text on both sides. *)
Record regexp_match : Type := RegexpMatch {
  captures : list string;
  matched : string;
  preceding : string;
  following : string
}.

(** GetSubstitution of ECMAScript without named captures: the text the
    replacement string [template] stands for at match [m]. *)
Fixpoint substitution (m : regexp_match) (template : string) : string :=
  match template with
  | EmptyString => EmptyString
  | String c tail =>
      if decide (c = "$"%char) then
        match tail with
        | EmptyString => "$"
        | String d tail1 =>
            if decide (d = "$"%char) then "$" +:+ substitution m tail1
            else if decide (d = "&"%char) then matched m +:+ substitution m tail1
            else if decide (d = "`"%char) then preceding m +:+ substitution m tail1
            else if decide (d = "'"%char) then following m +:+ substitution m tail1
            else if is_digit d then
              let one :=
                match captures m !! (digit_value d - 1) with
                | Some capture =>
                    if decide (1 <= digit_value d) then capture +:+ substitution m tail1
                    else String c (String d (substitution m tail1))
                | None => String c (String d (substitution m tail1))
                end in
              match tail1 with
              | String e tail2 =>
                  if is_digit e then
                    let index := 10 * digit_value d + digit_value e in
                    match captures m !! (index - 1) with
                    | Some capture =>
                        if decide (1 <= index) then capture +:+ substitution m tail2
                        else one
                    | None => one
                    end
                  else one
              | EmptyString => one
              end
            else String c (substitution m tail)
        end
      else String c (substitution m tail)
  end.

(** The first match of [/<svg /]. *)
Definition match_svg_open (svg : string) : option regexp_match :=
  match split_at_first "<svg " svg with
  | Some (before, after) => Some (RegexpMatch [] "<svg " before after)
  | None => None
  end.

(** The first match of the tag regular expression of addFontStyle: the
    opening text of [match_svg_open], a capture of characters other than
    [>], and a [>]. An occurrence of the opening text matches when a [>]
    follows it somewhere; when none follows the first occurrence, none
    follows a later one. *)
Definition match_svg_tag (svg : string) : option regexp_match :=
  match split_at_first "<svg " svg with
  | Some (before, rest) =>
      match split_at_first ">" rest with
      | Some (attrs, after) =>
          Some (RegexpMatch [attrs] ("<svg " +:+ attrs +:+ ">") before after)
      | None => None
      end
  | None => None
  end.

(** The capture of the first match of the viewBox regular expression of
    addSVGDimensions and addCenterText: the leftmost place where the
    attribute name, an equals sign and a double quote are followed by at
    least one character other than a double quote and then a double quote. *)
Fixpoint match_viewBox (svg : string) : option string :=
  let here :=
    match strip_prefix ("viewBox=" +:+ dq) svg with
    | Some rest =>
        match split_at_first dq rest with
        | Some (capture, _) => if truthy capture then Some capture else None
        | None => None
        end
    | None => None
    end in
  match here with
  | Some capture => Some capture
  | None =>
      match svg with
      | EmptyString => None
      | String _ svg' => match_viewBox svg'
      end
  end.

(** [svg.replace(regexp, template)] given the first match of [regexp]. *)
Definition replace_match (svg : string) (m : option regexp_match)
    (template : string) : string :=
  match m with
  | Some m => preceding m +:+ substitution m template +:+ following m
  | None => svg
  end.

(** ** addSVGDimensions and addFontStyle *)

(** No operation of the try block throws on a string, so the catch branch
    of addSVGDimensions is never taken. *)
Definition addSVGDimensions (svg : string) : string :=
  match match_viewBox svg with
  | Some capture =>
      let viewBoxValues := split_on " " capture in
      let width := to_text (viewBoxValues !! 2) in
      let height := to_text (viewBoxValues !! 3) in
      replace_match svg (match_svg_open svg)
        ("<svg width=" +:+ q width +:+ " height=" +:+ q height +:+ " ")
  | None => svg
  end.

Definition font_url : string := "/fonts/ocrb/ocr-b-10-bt.ttf".

Definition font_data_uri (fontBase64 : string) : string :=
  "data:font/truetype;charset=utf-8;base64," +:+ fontBase64.

(** The [src] line of a font-face rule. *)
Definition font_face_src (src : string) : string :=
  "        src: url(" +:+ src +:+ ") format('truetype');".

(** The two templates of [fontStyle]; they differ in the [src] line. *)
Definition fontStyle_block (src : string) : string :=
  join nl
    [ EmptyString;
      "  <defs>";
      "    <style type=" +:+ q "text/css" +:+ ">";
      "      @font-face {";
      "        font-family: 'OCR-B';";
      font_face_src src;
      "        font-weight: normal;";
      "        font-style: normal;";
      "      }";
      "    </style>";
      "  </defs>" ].

Definition addFontStyle (svg : string) : M string :=
  try_catch
    (fontBase64 ← getFontBase64;
     let fontStyle :=
       if truthy fontBase64
       then fontStyle_block (font_data_uri fontBase64)
       else fontStyle_block ("'" +:+ font_url +:+ "'") in
     mret (replace_match svg (match_svg_tag svg) ("<svg $1>" +:+ fontStyle)))
    (fun error => emit (ConsoleError "Error adding font style:");; mret svg).

(** ** generateEAN13Barcode and processEAN13 *)

Definition font_family : string := "OCR-B, OCRB, 'OCR B', monospace".

(** The line of the document that draws the bars. *)
Definition bars_path (pathSegments : list string) : string :=
  "    <path stroke=" +:+ q "#000000" +:+ " stroke-width=" +:+ q (pretty BAR_WIDTH)
    +:+ " d=" +:+ q (join " " pathSegments) +:+ " />".

(** The template of the SVG document. *)
Definition svg_document (fontDataUrl : string) (pathSegments : list string)
    (text : string) (fontSize offsetLeft offsetMiddle offsetRight : Z) : string :=
  join nl
    [ "<svg width=" +:+ q (pretty SVG_WIDTH) +:+ " height=" +:+ q (pretty SVG_HEIGHT)
        +:+ " viewBox=" +:+ q ("0 0 " +:+ pretty SVG_WIDTH +:+ " " +:+ pretty SVG_HEIGHT)
        +:+ " xmlns=" +:+ q "http://www.w3.org/2000/svg" +:+ ">";
      "  <defs>";
      "    <style type=" +:+ q "text/css" +:+ ">";
      "      @font-face {";
      "        font-family: 'OCR-B';";
      font_face_src fontDataUrl;
      "        font-weight: normal;";
      "        font-style: normal;";
      "      }";
      "    </style>";
      "  </defs>";
      "  <rect width=" +:+ q (pretty SVG_WIDTH) +:+ " height=" +:+ q (pretty SVG_HEIGHT)
        +:+ " fill=" +:+ q "#FFFFFF" +:+ "/>";
      "  <g id=" +:+ q "barcode-bars" +:+ ">";
      bars_path pathSegments;
      "  </g>";
      "  <g id=" +:+ q "first-digit" +:+ ">";
      "    <text x=" +:+ q (pretty (START_X - 16 - 5 + offsetLeft)%Z)
        +:+ " y=" +:+ q (pretty (TEXT_Y + 10)%Z)
        +:+ " font-family=" +:+ q font_family
        +:+ " font-size=" +:+ q (pretty (fontSize - 1)%Z)
        +:+ " text-anchor=" +:+ q "start" +:+ " fill=" +:+ q "#000000" +:+ ">"
        +:+ to_text ((fun c => String c EmptyString) <$> char_at text 0) +:+ "</text>";
      "  </g>";
      "  <g id=" +:+ q "left-group" +:+ ">";
      "    <text x=" +:+ q (pretty (START_X + 27 - 17 + offsetMiddle)%Z)
        +:+ " y=" +:+ q (pretty (TEXT_Y + 10)%Z)
        +:+ " font-family=" +:+ q font_family
        +:+ " font-size=" +:+ q (pretty fontSize)
        +:+ " letter-spacing=" +:+ q "-0.025em" +:+ " fill=" +:+ q "#000000" +:+ ">"
        +:+ String.substring 1 6 text +:+ "</text>";
      "  </g>";
      "  <g id=" +:+ q "right-group" +:+ ">";
      "    <text x=" +:+ q (pretty (START_X + 174 - 25 + 3 + offsetRight)%Z)
        +:+ " y=" +:+ q (pretty (TEXT_Y + 10)%Z)
        +:+ " font-family=" +:+ q font_family
        +:+ " font-size=" +:+ q (pretty fontSize)
        +:+ " letter-spacing=" +:+ q "-0.025em" +:+ " fill=" +:+ q "#000000" +:+ ">"
        +:+ String.substring 7 6 text +:+ "</text>";
      "  </g>";
      "</svg>" ].

(** A number parameter is [None] when the caller passes undefined; the
    parameter then takes its default value. *)
Definition generateEAN13Barcode (text : string)
    (fontSize offsetLeft offsetMiddle offsetRight : option Z) : M string :=
  let fontSize := default 31%Z fontSize in
  let offsetLeft := default 0%Z offsetLeft in
  let offsetMiddle := default 0%Z offsetMiddle in
  let offsetRight := default 0%Z offsetRight in
  emit (Generate text);;
  try_catch
    (if decide (String.length text ≠ 13)
     then throw (JsError "EAN-13 must be 13 digits")
     else
       barcodeBits ← lift (barcodeBits text);
       pathSegments ← lift (pathSegments barcodeBits);
       fontBase64 ← getFontBase64;
       let fontDataUrl :=
         if truthy fontBase64 then font_data_uri fontBase64 else font_url in
       mret (svg_document fontDataUrl pathSegments text
               fontSize offsetLeft offsetMiddle offsetRight))
    (fun error => emit (ConsoleError "Error generating EAN13:");; throw error).

Definition processEAN13 (svg text : string)
    (fontSize offsetLeft offsetMiddle offsetRight : option Z) : M string :=
  let fontSize := Some (default 31%Z fontSize) in
  let offsetLeft := Some (default 0%Z offsetLeft) in
  let offsetMiddle := Some (default 0%Z offsetMiddle) in
  let offsetRight := Some (default 0%Z offsetRight) in
  generateEAN13Barcode text fontSize offsetLeft offsetMiddle offsetRight.

(** ** The preview endpoint *)

(** Modelled from the spec: the Symbology type of the barcode-utils module,
    which is not among the sources; the specification lists its values. *)
Inductive Symbology : Type := ean13 | code128 | code39 | ean8 | upca.

#[global] Instance Symbology_eq_dec : EqDecision Symbology.
Proof. solve_decision. Defined.

(** The text of a symbology in a template. *)
Definition symbology_text (s : Symbology) : string :=
  match s with
  | ean13 => "ean13"
  | code128 => "code128"
  | code39 => "code39"
  | ean8 => "ean8"
  | upca => "upca"
  end.

(** What BarcodeRequestSchema.parse returns. *)
Record BarcodeRenderRequest : Type := {
  contents : string;
  symbology : Symbology;
  quietZone : option Z;
  fontSize : option Z;
  offsetLeft : option Z;
  offsetMiddle : option Z;
  offsetRight : option Z
}.

(** What the handler answers: the SVG text with content type
    image/svg+xml, or the JSON object with the error field and a status. *)
Inductive response : Type :=
| SvgResponse (body : string)
| JsonErrorResponse (error : string) (status : Z).

Definition default_error_message : string := "바코드 생성에 실패했습니다.".

(** [error instanceof Error ? error.message : default]. *)
Definition error_message (error : exn) : string :=
  match error with
  | JsError message => message
  | JsTypeError message => message
  | JsThrown => default_error_message
  end.

Section Endpoint.

(** The collaborators of the handler that are not among the sources: the
    body reader of the request, the schema, the option table and the
    bwip-js renderer; each returns or throws. addCenterText is among the
    sources; it computes with floating-point numbers, never throws (its
    body is a try block whose catch branch returns) and is taken as a
    function here. *)
Context {NextRequest Json Options : Type}.
Variable request_json : NextRequest -> result Json.
Variable BarcodeRequestSchema_parse : Json -> result BarcodeRenderRequest.
Variable getBarcodeOptions : Symbology -> option Z -> result Options.
Variable bwipjs_toSVG : Options -> string -> result string.
Variable addCenterText : string -> string -> option Z -> string.

(** The try block of the handler. *)
Definition POST_try (request : NextRequest) : M response :=
  body ← lift (request_json request);
  r ← lift (BarcodeRequestSchema_parse body);
  options ← lift (getBarcodeOptions (symbology r) (quietZone r));
  emit (ToSVG (contents r));;
  svg ← lift (bwipjs_toSVG options (contents r));
  let svg := addSVGDimensions svg in
  svg ← addFontStyle svg;
  svg ← (if decide (symbology r = ean13)
         then processEAN13 svg (contents r) (fontSize r)
                (offsetLeft r) (offsetMiddle r) (offsetRight r)
         else mret (addCenterText svg (contents r) (fontSize r)));
  mret (SvgResponse svg).

Definition POST (request : NextRequest) : world -> response * world := fun w =>
  match POST_try request w with
  | (Ok answer, w') => (answer, w')
  | (Throw error, w') =>
      (JsonErrorResponse (error_message error) 400,
       record (ConsoleError "Preview error:") w')
  end.

End Endpoint.

(** ** The batch list of BarcodeMultiGenerator *)

Module Item.

Record BarcodeItem : Type := {
  id : string;
  contents : string;
  symbology : Symbology;
  svgData : option string;
  error : option string;
  isSelected : bool;
  processedContents : option string
}.

(** A Partial of BarcodeItem: [None] for a key the object does not have. *)
Record Partial : Type := {
  new_id : option string;
  new_contents : option string;
  new_symbology : option Symbology;
  new_svgData : option (option string);
  new_error : option (option string);
  new_isSelected : option bool;
  new_processedContents : option (option string)
}.

(** What generateBarcode resolves to. *)
Record Generated : Type := {
  result_svgData : option string;
  result_error : option string;
  result_processedContents : option string
}.

End Item.

Abbreviation BarcodeItem := Item.BarcodeItem.

Definition MAX_BARCODES : nat := 50.

(** The initial state of [barcodes]. *)
Definition initial_barcodes : list BarcodeItem :=
  [ {| Item.id := "1"; Item.contents := "8809560223070"; Item.symbology := ean13;
       Item.svgData := None; Item.error := None; Item.isSelected := false;
       Item.processedContents := None |} ].

(** Truthiness of an optional string: defined and not empty. *)
Definition truthy_opt (v : option string) : bool :=
  match v with
  | Some s => truthy s
  | None => false
  end.

(** [now] is the value of [Date.now()]. The alert of the refusal is not
    modelled. *)
Definition handleAddBarcode (now : Z) (barcodes : list BarcodeItem) : list BarcodeItem :=
  if decide (MAX_BARCODES <= length barcodes) then barcodes
  else
    let newId := pretty now in
    barcodes ++
      [ {| Item.id := newId; Item.contents := EmptyString; Item.symbology := ean13;
           Item.svgData := None; Item.error := None; Item.isSelected := false;
           Item.processedContents := None |} ].

Definition handleDeleteBarcode (id : string) (barcodes : list BarcodeItem) : list BarcodeItem :=
  if decide (length barcodes <= 1) then barcodes
  else filter (fun b => Item.id b ≠ id) barcodes.

(** The object made of the keys of [b] overridden by those of [updates]. *)
Definition spread (b : BarcodeItem) (updates : Item.Partial) : BarcodeItem :=
  {| Item.id := default (Item.id b) (Item.new_id updates);
     Item.contents := default (Item.contents b) (Item.new_contents updates);
     Item.symbology := default (Item.symbology b) (Item.new_symbology updates);
     Item.svgData := default (Item.svgData b) (Item.new_svgData updates);
     Item.error := default (Item.error b) (Item.new_error updates);
     Item.isSelected := default (Item.isSelected b) (Item.new_isSelected updates);
     Item.processedContents :=
       default (Item.processedContents b) (Item.new_processedContents updates) |}.

Definition handleUpdateBarcode (id : string) (updates : Item.Partial)
    (barcodes : list BarcodeItem) : list BarcodeItem :=
  (fun b => if decide (Item.id b = id) then spread b updates else b) <$> barcodes.

Definition with_isSelected (b : BarcodeItem) (v : bool) : BarcodeItem :=
  {| Item.id := Item.id b; Item.contents := Item.contents b;
     Item.symbology := Item.symbology b; Item.svgData := Item.svgData b;
     Item.error := Item.error b; Item.isSelected := v;
     Item.processedContents := Item.processedContents b |}.

Definition handleToggleSelect (id : string) (barcodes : list BarcodeItem) : list BarcodeItem :=
  (fun b => if decide (Item.id b = id) then with_isSelected b (negb (Item.isSelected b)) else b)
    <$> barcodes.

Definition handleSelectAll (barcodes : list BarcodeItem) : list BarcodeItem :=
  let allSelected :=
    forallb (fun b => Item.isSelected b && truthy_opt (Item.svgData b)) barcodes in
  (fun b => with_isSelected b (if truthy_opt (Item.svgData b) then negb allSelected else false))
    <$> barcodes.

Definition with_generated (b : BarcodeItem) (r : Item.Generated) : BarcodeItem :=
  {| Item.id := Item.id b; Item.contents := Item.contents b;
     Item.symbology := Item.symbology b; Item.svgData := Item.result_svgData r;
     Item.error := Item.result_error r; Item.isSelected := Item.isSelected b;
     Item.processedContents := Item.result_processedContents r |}.

Definition no_result : Item.Generated :=
  {| Item.result_svgData := None; Item.result_error := None;
     Item.result_processedContents := None |}.

(** The state update of handleGenerateOne once generateBarcode has
    resolved to [r]; nothing happens when no item has the id. *)
Definition handleGenerateOne (id : string) (r : Item.Generated)
    (barcodes : list BarcodeItem) : list BarcodeItem :=
  match list_find (fun b => Item.id b = id) barcodes with
  | None => barcodes
  | Some _ => (fun b => if decide (Item.id b = id) then with_generated b r else b) <$> barcodes
  end.

(** The state update of handleGenerateAll; [results] pairs each id with
    what generateBarcode resolved to. *)
Definition handleGenerateAll (results : list (string * Item.Generated))
    (barcodes : list BarcodeItem) : list BarcodeItem :=
  (fun b =>
     match list_find (fun r => r.1 = Item.id b) results with
     | Some (_, (_, r)) => with_generated b r
     | None => with_generated b no_result
     end) <$> barcodes.

(** What the user and the clock can do to the list. *)
Inductive action : Type :=
| AddBarcode (now : Z)
| DeleteBarcode (id : string)
| UpdateBarcode (id : string) (updates : Item.Partial)
| ToggleSelect (id : string)
| SelectAll
| GenerateOne (id : string) (r : Item.Generated)
| GenerateAll (results : list (string * Item.Generated)).

Definition step (barcodes : list BarcodeItem) (a : action) : list BarcodeItem :=
  match a with
  | AddBarcode now => handleAddBarcode now barcodes
  | DeleteBarcode id => handleDeleteBarcode id barcodes
  | UpdateBarcode id updates => handleUpdateBarcode id updates barcodes
  | ToggleSelect id => handleToggleSelect id barcodes
  | SelectAll => handleSelectAll barcodes
  | GenerateOne id r => handleGenerateOne id r barcodes
  | GenerateAll results => handleGenerateAll results barcodes
  end.

(** The list after a sequence of actions from the initial state. *)
Definition run (actions : list action) : list BarcodeItem :=
  foldl step initial_barcodes actions.

(** An action that keeps the ids of the list distinct: an added item gets
    an id (the text of the clock value) that no item has, and an update
    does not set the id. *)
Definition keeps_ids_distinct (barcodes : list BarcodeItem) (a : action) : Prop :=
  match a with
  | AddBarcode now => pretty now ∉ (Item.id <$> barcodes)
  | UpdateBarcode _ updates => Item.new_id updates = None
  | _ => True
  end.

Fixpoint all_keep_ids_distinct (barcodes : list BarcodeItem) (actions : list action)
    : Prop :=
  match actions with
  | [] => True
  | a :: rest =>
      keeps_ids_distinct barcodes a /\ all_keep_ids_distinct (step barcodes a) rest
  end.

(** ** handleDownloadZip *)

(** The characters [trim] removes, among the 8-bit ones. *)
Definition js_whitespace (c : ascii) : bool :=
  bool_decide (nat_of_ascii c ∈ [9; 10; 11; 12; 13; 32; 160]).

Fixpoint blank (s : string) : bool :=
  match s with
  | EmptyString => true
  | String c s' => js_whitespace c && blank s'
  end.

(** [b.svgData && b.svgData.trim().length > 0]. *)
Definition has_svgData (b : BarcodeItem) : bool :=
  match Item.svgData b with
  | Some s => truthy s && negb (blank s)
  | None => false
  end.

(** [a || b] on an optional string and a string. *)
Definition or_else (a : option string) (b : string) : string :=
  match a with
  | Some s => if truthy s then s else b
  | None => b
  end.

(** ** zip.file of JSZip *)

(** JSZip is a library the component imports. What [zip.file(name, data)]
    does to [zip.files] follows its functions fileAdd, folderAdd,
    parentFolder and forceTrailingSlash, with the option createFolders at
    its default of version 3, true: the file is stored under [name], in
    place of a file that has the name, and for every folder on the path of
    [name] that [zip.files] does not have a folder entry is stored, under
    the path of the folder with a slash at its end. *)

(** [path.slice(-1) === c]. *)
Fixpoint ends_with (c : ascii) (path : string) : bool :=
  match path with
  | EmptyString => false
  | String a EmptyString => bool_decide (a = c)
  | String _ rest => ends_with c rest
  end.

(** [path.lastIndexOf(c)], with [None] for -1. *)
Fixpoint lastIndexOf (c : ascii) (path : string) : option nat :=
  match path with
  | EmptyString => None
  | String a rest =>
      match lastIndexOf c rest with
      | Some i => Some (S i)
      | None => if bool_decide (a = c) then Some 0 else None
      end
  end.

Definition forceTrailingSlash (path : string) : string :=
  if ends_with "/" path then path else path +:+ "/".

Definition parentFolder (path : string) : string :=
  let path :=
    if ends_with "/" path then String.substring 0 (String.length path - 1) path
    else path in
  match lastIndexOf "/" path with
  | Some lastSlash =>
      if decide (0 < lastSlash) then String.substring 0 lastSlash path else EmptyString
  | None => EmptyString
  end.

(** The folder entries of [zip.files] after [folderAdd(name, true)], which
    calls fileAdd for a folder that has no entry, and fileAdd calls
    folderAdd for the parent folder when there is one. The parent of a
    path is shorter than the path, so the recursion ends: [fuel] bounds its
    depth, and the length of [name] is enough of it. *)
Fixpoint folderAdd (fuel : nat) (name : string) (folders : gset string) : gset string :=
  let name := forceTrailingSlash name in
  if decide (name ∈ folders) then folders
  else
    let parent := parentFolder name in
    match fuel with
    | S fuel' =>
        {[ name ]} ∪ (if truthy parent then folderAdd fuel' parent folders else folders)
    | O => {[ name ]} ∪ folders
    end.

(** The folder entries of [zip.files] after [zip.file(name, data)]. *)
Definition file_folders (name : string) (folders : gset string) : gset string :=
  let parent := parentFolder name in
  if truthy parent then folderAdd (String.length parent) parent folders else folders.

(** The variables of the loop: the map [filenameCount]; the entries of
    [zip.files], which are the files by name with their contents
    ([zip.file] with a name the archive has replaces the file) and the
    folders; and the filenames the loop logs, oldest first. *)
Record zip_vars : Type := ZipVars {
  filenameCount : gmap string nat;
  zip_files : gmap string string;
  zip_folders : gset string;
  added : list string
}.

Definition zip_step (vars : zip_vars) (item : BarcodeItem) : zip_vars :=
  match Item.svgData item with
  | Some data =>
      if has_svgData item then
        let baseFilename :=
          symbology_text (Item.symbology item) +:+ "_"
            +:+ or_else (Item.processedContents item) (Item.contents item) in
        let filename := baseFilename +:+ ".svg" in
        match filenameCount vars !! filename with
        | Some n =>
            let count := n + 1 in
            let filename' := baseFilename +:+ "_" +:+ pretty count +:+ ".svg" in
            ZipVars (<[filename := count]> (filenameCount vars))
                    (<[filename' := data]> (zip_files vars))
                    (file_folders filename' (zip_folders vars))
                    (added vars ++ [filename'])
        | None =>
            ZipVars (<[filename := 0]> (filenameCount vars))
                    (<[filename := data]> (zip_files vars))
                    (file_folders filename (zip_folders vars))
                    (added vars ++ [filename])
        end
      else vars
  | None => vars
  end.

Definition itemsToDownload (selectedOnly : bool) (barcodes : list BarcodeItem)
    : list BarcodeItem :=
  if selectedOnly
  then filter (fun b => Item.isSelected b && has_svgData b = true) barcodes
  else filter (fun b => has_svgData b = true) barcodes.

(** The loop over [items]. *)
Definition zip_loop (items : list BarcodeItem) : zip_vars :=
  foldl zip_step (ZipVars ∅ ∅ ∅ []) items.

(** [Object.keys(zip.files).length]: the name of a file ends in .svg and
    the name of a folder in a slash, so that no key is both (lemma
    zip_entries_disjoint). *)
Definition fileCount (vars : zip_vars) : nat :=
  size (zip_files vars) + size (zip_folders vars).

(** The file entries of the archive that is downloaded (its folder
    entries are [zip_folders] of the loop), or [None] when the handler
    alerts and downloads nothing. *)
Definition handleDownloadZip (selectedOnly : bool) (barcodes : list BarcodeItem)
    : option (gmap string string) :=
  let items := itemsToDownload selectedOnly barcodes in
  if decide (length items = 0) then None
  else
    let vars := zip_loop items in
    if decide (fileCount vars = 0) then None
    else Some (zip_files vars).

(** ** The bit string as the specification words it *)

Module Spec.

Definition L_codes : list string :=
  [ "0001101"; "0011001"; "0010011"; "0111101"; "0100011";
    "0110001"; "0101111"; "0111011"; "0110111"; "0001011" ].

Definition G_codes : list string :=
  [ "0100111"; "0110011"; "0011011"; "0100001"; "0011101";
    "0111001"; "0000101"; "0010001"; "0001001"; "0010111" ].

Definition R_codes : list string :=
  [ "1110010"; "1100110"; "1101100"; "1000010"; "1011100";
    "1001110"; "1010000"; "1000100"; "1001000"; "1110100" ].

Definition parity_patterns : list string :=
  [ "LLLLLL"; "LLGLGG"; "LLGGLG"; "LLGGGL"; "LGLLGG";
    "LGGLLG"; "LGGGLL"; "LGLGLG"; "LGLGGL"; "LGGLGL" ].

(** The digit written at position [i] of [text]. *)
Definition digit (text : string) (i : nat) : nat :=
  match String.get i text with
  | Some c => nat_of_ascii c - nat_of_ascii "0"
  | None => 0
  end.

Definition code (table : list string) (d : nat) : string :=
  nth d table EmptyString.

(** The parity character of left-group position [i]. *)
Definition parity (text : string) (i : nat) : option ascii :=
  String.get i (code parity_patterns (digit text 0)).

(** The seven bits of left-group position [i], which holds [text[i+1]]. *)
Definition left_code (text : string) (i : nat) : string :=
  match parity text i with
  | Some "L"%char => code L_codes (digit text (i + 1))
  | Some "G"%char => code G_codes (digit text (i + 1))
  | _ => EmptyString
  end.

Definition right_code (text : string) (i : nat) : string :=
  code R_codes (digit text i).

Definition concat (parts : list string) : string :=
  foldr String.append EmptyString parts.

Definition bits (text : string) : string :=
  "101"
  +:+ concat (left_code text <$> [0; 1; 2; 3; 4; 5])
  +:+ "01010"
  +:+ concat (right_code text <$> [7; 8; 9; 10; 11; 12])
  +:+ "101".

(** A vertical bar: a line from [(bar_x, bar_top)] to [(bar_x, bar_bottom)]. *)
Record bar : Type := Bar { bar_x : Z; bar_top : Z; bar_bottom : Z }.

(** Bit index [i] lies in one of the guard ranges. *)
Definition guard (i : nat) : Prop :=
  i <= 2 \/ (42 <= i /\ i <= 46) \/ (92 <= i /\ i <= 94).

#[global] Instance guard_dec (i : nat) : Decision (guard i).
Proof. unfold guard. apply _. Defined.

Definition bar_at (i : nat) : bar :=
  Bar (30 + 3 * Z.of_nat i) 0 (if decide (guard i) then 200 else 165).

(** The bit indices that hold a 1, in increasing order. *)
Definition ones (bits : string) : list nat :=
  filter (fun i => String.get i bits = Some "1"%char) (seq 0 (String.length bits)).

Definition bars (bits : string) : list bar := bar_at <$> ones bits.

(** The path data of a bar: move to its top, line to its bottom. *)
Definition segment (b : bar) : string :=
  "M" +:+ pretty (bar_x b) +:+ " " +:+ pretty (bar_top b)
    +:+ "L" +:+ pretty (bar_x b) +:+ " " +:+ pretty (bar_bottom b).

(** The base name of an item, symbology and processed contents joined by
    an underscore, and the filenames of the items that have SVG data: the
    first occurrence of a base name keeps it, and its [k]-th later
    occurrence gets the suffix [_k]. [seen] holds the base names of the
    items before, one entry per occurrence. *)
Definition base_name (item : BarcodeItem) : string :=
  symbology_text (Item.symbology item) +:+ "_"
    +:+ or_else (Item.processedContents item) (Item.contents item).

Definition occurrences (name : string) (seen : list string) : nat :=
  length (filter (fun n => n = name) seen).

Fixpoint filenames (seen : list string) (items : list BarcodeItem) : list string :=
  match items with
  | [] => []
  | item :: rest =>
      if has_svgData item then
        (match occurrences (base_name item) seen with
         | O => base_name item +:+ ".svg"
         | S k => base_name item +:+ "_" +:+ pretty (S k) +:+ ".svg"
         end) :: filenames (base_name item :: seen) rest
      else filenames seen rest
  end.

End Spec.

(** Every character of [s] is a decimal digit. *)
Fixpoint all_digits (s : string) : bool :=
  match s with
  | EmptyString => true
  | String c rest => is_digit c && all_digits rest
  end.


(** [part] occurs in [doc]. *)
Definition occurs_in (part doc : string) : Prop :=
  exists before after, doc = before +:+ part +:+ after.

(** A process whose font file cannot be read, and one whose font file
    holds four bytes. *)
Definition unreadable_font : world :=
  initial_world (fun _ => Throw (JsError "ENOENT: no such file or directory")).

Definition readable_font : world := initial_world (fun _ => Ok "AAEAAA==").

(** ** Example collaborators and inputs *)

(** A body reader that rejects the empty body, a schema that reads the
    body as the contents of an EAN-13 request, an option table, a library
    that rejects a wrong check digit, and one that draws. *)
Definition example_request_json (request : string) : result string :=
  if truthy request then Ok request
  else Throw (JsError "Unexpected end of JSON input").

Definition example_parse (body : string) : result BarcodeRenderRequest :=
  Ok {| contents := body; symbology := ean13; quietZone := Some 10%Z;
        fontSize := Some 31%Z; offsetLeft := Some 0%Z; offsetMiddle := Some 0%Z;
        offsetRight := Some 0%Z |}.

Definition example_options (s : Symbology) (quietZone : option Z) : result unit := Ok tt.

Definition rejecting_library (options : unit) (text : string) : result string :=
  Throw (JsError "bwipp.ean13badCheckDigit: Incorrect EAN-13 check digit provided").

Definition drawing_library (options : unit) (text : string) : result string :=
  Ok ("<svg viewBox=" +:+ q "0 0 190 72" +:+ " xmlns=" +:+ q "http://www.w3.org/2000/svg"
        +:+ "><path d=" +:+ q "M0 0L0 72" +:+ " /></svg>").

Definition example_addCenterText (svg text : string) (fontSize : option Z) : string := svg.

(** A generated item of the batch list. *)
Definition generated_item (id : string) (s : Symbology) (contents svg : string)
    : BarcodeItem :=
  {| Item.id := id; Item.contents := contents; Item.symbology := s;
     Item.svgData := Some svg; Item.error := None; Item.isSelected := false;
     Item.processedContents := Some contents |}.

(** Three generated Code 128 items: two with contents A, one with A_1. *)
Definition colliding_items : list BarcodeItem :=
  [ generated_item "1" code128 "A" "<svg>first</svg>";
    generated_item "2" code128 "A" "<svg>second</svg>";
    generated_item "3" code128 "A_1" "<svg>third</svg>" ].

(** Two items added at the same value of the clock, then the first item and
    the added ones deleted. *)
Definition emptying_actions : list action :=
  [ AddBarcode 1700000000000; AddBarcode 1700000000000;
    DeleteBarcode "1"; DeleteBarcode "1700000000000" ].

(** ** Reading a bit string back *)

(** The position of [s] in [table]. *)
Fixpoint index_of (s : string) (table : list string) : option nat :=
  match table with
  | [] => None
  | entry :: rest =>
      if decide (entry = s) then Some 0
      else match index_of s rest with
           | Some i => Some (S i)
           | None => None
           end
  end.

(** The first seven characters of [s] and what follows them. *)
Definition take7 (s : string) : option (string * string) :=
  match s with
  | String a (String b (String c (String d (String e (String f (String g rest)))))) =>
      Some (String a (String b (String c (String d (String e (String f
              (String g EmptyString)))))), rest)
  | _ => None
  end.

(** A left-group code read back: the table it is in and the digit. *)
Definition decode_left (code : string) : option (ascii * nat) :=
  match index_of code EAN13_L_CODES with
  | Some d => Some ("L"%char, d)
  | None =>
      match index_of code EAN13_G_CODES with
      | Some d => Some ("G"%char, d)
      | None => None
      end
  end.

Definition decode_right (code : string) : option nat := index_of code EAN13_R_CODES.

(** [n] codes of seven bits read back one after the other. *)
Fixpoint decode_group {X : Type} (decode : string -> option X) (n : nat) (s : string)
    : option (list X * string) :=
  match n with
  | O => Some ([], s)
  | S n' =>
      match take7 s with
      | Some (code, rest) =>
          match decode code with
          | Some x =>
              match decode_group decode n' rest with
              | Some (xs, rest') => Some (x :: xs, rest')
              | None => None
              end
          | None => None
          end
      | None => None
      end
  end.

Fixpoint string_of_chars (l : list ascii) : string :=
  match l with
  | [] => EmptyString
  | c :: rest => String c (string_of_chars rest)
  end.

Definition digit_char (d : nat) : ascii := ascii_of_nat (48 + d).

(** The thirteen digits a bit string stands for: the guards are checked,
    the twelve codes are looked up in the tables, and the leading digit is
    the one whose parity pattern the left group shows. *)
Definition decode_bits (bits : string) : option string :=
  match strip_prefix "101" bits with
  | Some rest =>
      match decode_group decode_left 6 rest with
      | Some (lefts, rest) =>
          match strip_prefix "01010" rest with
          | Some rest =>
              match decode_group decode_right 6 rest with
              | Some (rights, rest) =>
                  if decide (rest = "101") then
                    match index_of (string_of_chars (fst <$> lefts))
                            EAN13_FIRST_DIGIT_PATTERNS with
                    | Some first =>
                        Some (string_of_chars
                                (digit_char <$> first :: (snd <$> lefts) ++ rights))
                    | None => None
                    end
                  else None
              | None => None
              end
          | None => None
          end
      | None => None
      end
  | None => None
  end.

(** The number of characters of [s] that are no decimal digits. *)
Definition non_digit (c : ascii) : nat := if is_digit c then 0 else 1.

Fixpoint non_digits (s : string) : nat :=
  match s with
  | EmptyString => 0
  | String c rest => non_digit c + non_digits rest
  end.

(** The text of a 13-character string after its first character. *)
Definition after_first (text : string) : string := String.substring 1 12 text.

(** [c] occurs in [s]. *)
Fixpoint has_char (c : ascii) (s : string) : bool :=
  match s with
  | EmptyString => false
  | String a rest => bool_decide (a = c) || has_char c rest
  end.

(** ** addCenterText *)

(** The first match of the string pattern of addCenterText, the closing
    tag of the document. *)
Definition match_svg_close (svg : string) : option regexp_match :=
  match split_at_first "</svg>" svg with
  | Some (before, after) => Some (RegexpMatch [] "</svg>" before after)
  | None => None
  end.

Section CenterText.

(** The two numbers of the label are floating-point numbers: [half_text v]
    is the text of [parseFloat(v) / 2] and [less_two_text v] the text of
    [parseFloat(v) - 2] in a template, for a value [v] of the viewBox
    ([None] is undefined). *)
Variable half_text : option string -> string.
Variable less_two_text : option string -> string.

(** No operation of the try block throws, so the catch branch is never
    taken. *)
Definition addCenterText (svg text : string) (fontSize : option Z) : string :=
  let fontSize := default 16%Z fontSize in
  match match_viewBox svg with
  | None => svg
  | Some capture =>
      let viewBoxValues := split_on " " capture in
      let textElement :=
        nl +:+ "  <text x=" +:+ q (half_text (viewBoxValues !! 2))
          +:+ " y=" +:+ q (less_two_text (viewBoxValues !! 3))
          +:+ " font-family=" +:+ q font_family
          +:+ " font-size=" +:+ q (pretty fontSize)
          +:+ " text-anchor=" +:+ q "middle" +:+ " fill=" +:+ q "#000000" +:+ ">"
          +:+ text +:+ "</text>" in
      replace_match svg (match_svg_close svg) (textElement +:+ nl +:+ "</svg>")
  end.

End CenterText.

(** What a piece of code did to the font between two states of the
    process: it read the file at most [k] times, and when the font was in
    the cache it read nothing and left the cache as it was. *)
Definition font_effect (k : nat) (w w' : world) : Prop :=
  font_reads (trace w) <= font_reads (trace w')
  /\ font_reads (trace w') <= font_reads (trace w) + k
  /\ (truthy_opt (cachedFontBase64 w) = true ->
      cachedFontBase64 w' = cachedFontBase64 w
      /\ font_reads (trace w') = font_reads (trace w)).

(** A schema that reads the body as the contents of a Code 128 request,
    and a process that holds the font in its cache and whose font file is
    gone. *)
Definition code128_request (body : string) : BarcodeRenderRequest :=
  {| contents := body; symbology := code128; quietZone := Some 10%Z;
     fontSize := Some 16%Z; offsetLeft := None; offsetMiddle := None;
     offsetRight := None |}.

Definition example_parse_code128 (body : string) : result BarcodeRenderRequest :=
  Ok (code128_request body).

Definition cached_font : world :=
  World (Some "AAEAAA==") (fun _ => Throw (JsError "ENOENT: no such file or directory")) [].

(** ** generateBarcode *)

(** What validateBarcodeInput, of lib/barcode-utils, returns. *)
Record Validation : Type := {
  valid : bool;
  message : option string;
  validated_contents : option string   (* the key processedContents *)
}.

Record BarcodeSettings : Type := {
  settings_quietZone : Z;
  settings_fontSize : Z;
  settings_offsetLeft : Z;
  settings_offsetMiddle : Z;
  settings_offsetRight : Z
}.

(** The object that is sent as the body of the request. *)
Record PreviewBody : Type := {
  body_contents : string;
  body_symbology : Symbology;
  body_settings : BarcodeSettings
}.

(** The value a JSON error body parses to: null, or a value whose key
    error is read, with [None] for a value without the key. A key that
    holds something else than a string is not modelled. *)
Inductive json_value : Type :=
| JsonNull
| JsonValue (error : option string).

(** What the fetch of the preview does: it rejects, or it resolves to a
    response that is not ok and whose json() resolves or rejects, or to a
    response that is ok and whose text() resolves or rejects. *)
Inductive fetched : Type :=
| FetchRejected (err : exn)
| ResponseNotOk (json : result json_value)
| ResponseOk (text : result string).

Definition generated_error (error : string) : Item.Generated :=
  {| Item.result_svgData := None; Item.result_error := Some error;
     Item.result_processedContents := None |}.

Section GenerateBarcode.

Variable validateBarcodeInput : string -> Symbology -> Validation.
Variable settings : BarcodeSettings.
Variable fetch_preview : PreviewBody -> fetched.

Definition generateBarcode (item : BarcodeItem) : Item.Generated :=
  let validation := validateBarcodeInput (Item.contents item) (Item.symbology item) in
  if negb (valid validation) then
    generated_error (or_else (message validation) "입력값이 올바르지 않습니다.")
  else
    let finalContents := or_else (validated_contents validation) (Item.contents item) in
    match fetch_preview {| body_contents := finalContents;
                           body_symbology := Item.symbology item;
                           body_settings := settings |} with
    | FetchRejected err => generated_error (error_message err)
    | ResponseNotOk (Throw _) =>
        generated_error (or_else (Some default_error_message) default_error_message)
    | ResponseNotOk (Ok JsonNull) =>
        generated_error
          (error_message (JsTypeError "Cannot read properties of null (reading 'error')"))
    | ResponseNotOk (Ok (JsonValue error)) =>
        generated_error (or_else error default_error_message)
    | ResponseOk (Throw err) => generated_error (error_message err)
    | ResponseOk (Ok svgText) =>
        if negb (truthy svgText) || blank svgText then
          generated_error "서버로부터 빈 SVG를 받았습니다."
        else
          {| Item.result_svgData := Some svgText; Item.result_error := None;
             Item.result_processedContents := Some finalContents |}
    end.

End GenerateBarcode.

(** An action of the page: the result of a generation is what
    generateBarcode resolved to for some item, settings and answer of the
    server, and an edit sets the contents or the symbology and leaves the
    image alone. *)
Definition made_by_generateBarcode (validateBarcodeInput : string -> Symbology -> Validation)
    (r : Item.Generated) : Prop :=
  exists settings fetch_preview item,
    r = generateBarcode validateBarcodeInput settings fetch_preview item.

Definition page_action (validateBarcodeInput : string -> Symbology -> Validation)
    (a : action) : Prop :=
  match a with
  | GenerateOne _ r => made_by_generateBarcode validateBarcodeInput r
  | GenerateAll results =>
      Forall (fun p => made_by_generateBarcode validateBarcodeInput p.2) results
  | UpdateBarcode _ updates => Item.new_svgData updates = None
  | _ => True
  end.

(** The counts on the two ZIP buttons. *)
Definition selectedCount (barcodes : list BarcodeItem) : nat :=
  length (filter (fun b => Item.isSelected b && truthy_opt (Item.svgData b) = true) barcodes).

Definition validCount (barcodes : list BarcodeItem) : nat :=
  length (filter (fun b => truthy_opt (Item.svgData b) = true) barcodes).

(** ** handleDownloadSVG *)

(** The name and the contents of the file that is downloaded, or [None]
    when the handler alerts. *)
Definition handleDownloadSVG (item : BarcodeItem) : option (string * string) :=
  match Item.svgData item with
  | Some svgData =>
      if truthy svgData then
        Some (symbology_text (Item.symbology item) +:+ "_"
                +:+ or_else (Item.processedContents item) (Item.contents item) +:+ ".svg",
              svgData)
      else None
  | None => None
  end.

(** The edits of the page: the contents or the symbology of an item. *)
Definition no_update : Item.Partial :=
  {| Item.new_id := None; Item.new_contents := None; Item.new_symbology := None;
     Item.new_svgData := None; Item.new_error := None; Item.new_isSelected := None;
     Item.new_processedContents := None |}.

Definition contents_update (contents : string) : Item.Partial :=
  {| Item.new_id := None; Item.new_contents := Some contents; Item.new_symbology := None;
     Item.new_svgData := None; Item.new_error := None; Item.new_isSelected := None;
     Item.new_processedContents := None |}.

Definition symbology_update (s : Symbology) : Item.Partial :=
  {| Item.new_id := None; Item.new_contents := None; Item.new_symbology := Some s;
     Item.new_svgData := None; Item.new_error := None; Item.new_isSelected := None;
     Item.new_processedContents := None |}.

(** Example collaborators: a validation that accepts thirteen characters,
    and a server that draws. *)
Definition example_validate (contents : string) (s : Symbology) : Validation :=
  if decide (String.length contents = 13)
  then {| valid := true; message := None; validated_contents := Some contents |}
  else {| valid := false; message := Some "13 digits"; validated_contents := None |}.

Definition example_settings : BarcodeSettings :=
  {| settings_quietZone := 10; settings_fontSize := 31; settings_offsetLeft := 0;
     settings_offsetMiddle := 0; settings_offsetRight := 0 |}.

Definition example_fetch (body : PreviewBody) : fetched :=
  ResponseOk (Ok ("<svg>" +:+ body_contents body +:+ "</svg>")).

(** The image of an item that has one. *)
Definition image (b : BarcodeItem) : string := default EmptyString (Item.svgData b).

(** The filename of the [k]-th later occurrence of a base name. *)
Definition numbered_name (base : string) (k : nat) : string :=
  match k with
  | O => base +:+ ".svg"
  | S _ => base +:+ "_" +:+ pretty k +:+ ".svg"
  end.

(** ** The bit string of contents that are not all digits *)

(** What position [i] of [text] puts in the bit string when its code is
    looked up in [table]: the code of the digit there, or the text
    undefined when the character there is no digit. *)
Definition code_or_undefined (table : list string) (text : string) (i : nat) : string :=
  match char_at text i with
  | Some c => if is_digit c then Spec.code table (Spec.digit text i) else "undefined"
  | None => "undefined"
  end.

(** The table of left-group position [i]: the L codes where the parity
    pattern of the leading digit has an L, the G codes elsewhere. *)
Definition left_table (text : string) (i : nat) : list string :=
  if decide (Spec.parity text i = Some "L"%char) then Spec.L_codes else Spec.G_codes.

Definition bits_with_undefined (text : string) : string :=
  "101"
  +:+ Spec.concat ((fun i => code_or_undefined (left_table text i) text (i + 1))
                     <$> [0; 1; 2; 3; 4; 5])
  +:+ "01010"
  +:+ Spec.concat (code_or_undefined Spec.R_codes text <$> [7; 8; 9; 10; 11; 12])
  +:+ "101".

(** A document whose opening tag comes after a declaration and whose
    viewBox comes after another attribute, and one whose viewBox has three
    values. *)
Definition example_document : string :=
  "<?xml version='1.0'?>" +:+ nl +:+ "<svg xmlns=" +:+ q "http://www.w3.org/2000/svg"
    +:+ " viewBox=" +:+ q "0 0 190 72" +:+ "><path /></svg>".

Definition example_document_three : string :=
  "<?xml version='1.0'?>" +:+ nl +:+ "<svg xmlns=" +:+ q "http://www.w3.org/2000/svg"
    +:+ " viewBox=" +:+ q "0 0 190" +:+ "><path /></svg>".

(** * Properties *)

(** ** Strings *)

Lemma append_cons (c : ascii) (s t : string) :
  String c s +:+ t = String c (s +:+ t).
Proof. reflexivity. Qed.

Lemma length_append (s t : string) :
  String.length (s +:+ t) = String.length s + String.length t.
Proof.
  induction s as [|c s IH]; [reflexivity |].
  rewrite append_cons. simpl. now rewrite IH.
Qed.

Lemma append_assoc (s t u : string) : (s +:+ t) +:+ u = s +:+ (t +:+ u).
Proof.
  induction s as [|c s IH]; [reflexivity |].
  rewrite !append_cons. now rewrite IH.
Qed.

Lemma append_empty_r (s : string) : s +:+ EmptyString = s.
Proof.
  induction s as [|c s IH]; [reflexivity |].
  rewrite append_cons. now rewrite IH.
Qed.

Lemma append_inj_r (s s' t : string) : s +:+ t = s' +:+ t -> s = s'.
Proof.
  intros E.
  assert (Hlen : String.length s = String.length s').
  { apply (f_equal String.length) in E. rewrite !length_append in E. lia. }
  revert s' E Hlen. induction s as [|c s IH]; intros [|c' s'] E Hlen;
    simpl in Hlen; try discriminate Hlen; [reflexivity |].
  rewrite !append_cons in E. inversion E; subst. f_equal. apply IH; [assumption | lia].
Qed.

(** ** Digits and table lookups *)

Lemma is_digit_cases (c : ascii) : is_digit c = true -> c ∈ digit_chars.
Proof.
  destruct c as [[] [] [] [] [] [] [] []]; vm_compute; intros H;
    try discriminate H; clear H; unfold digit_chars;
    repeat first [ apply list_elem_of_here | apply list_elem_of_further ].
Qed.

Lemma digit_chars_inv (P : ascii -> Prop) :
  P "0"%char -> P "1"%char -> P "2"%char -> P "3"%char -> P "4"%char ->
  P "5"%char -> P "6"%char -> P "7"%char -> P "8"%char -> P "9"%char ->
  forall c, is_digit c = true -> P c.
Proof.
  intros H0 H1 H2 H3 H4 H5 H6 H7 H8 H9 c Hc.
  apply is_digit_cases in Hc. unfold digit_chars in Hc.
  repeat (apply elem_of_cons in Hc as [-> | Hc]; [assumption |]).
  now apply elem_of_nil in Hc.
Qed.

Lemma all_digits_get (s : string) (i : nat) :
  all_digits s = true -> i < String.length s ->
  exists c, char_at s i = Some c /\ is_digit c = true.
Proof.
  revert i. induction s as [|c s IH]; intros i Hall Hi; simpl in *; [lia |].
  apply andb_true_iff in Hall as [Hc Hs].
  destruct i as [|i]; [now exists c |].
  apply IH; [assumption | lia].
Qed.

(** The code of a digit character, as the loops read it and as the
    specification indexes it. *)
Lemma code_of_digit (table : list string) (c : ascii) :
  length table = 10 -> is_digit c = true ->
  to_text (array_at table (parseInt (Some c)))
  = Spec.code table (nat_of_ascii c - nat_of_ascii "0").
Proof.
  intros Hlen Hc. unfold parseInt. rewrite Hc. simpl array_at.
  revert c Hc. apply digit_chars_inv;
    do 10 (destruct table as [|? table]; [discriminate Hlen |]); reflexivity.
Qed.

Lemma code_length (table : list string) (c : ascii) :
  Forall (fun s => String.length s = 7) table -> length table = 10 ->
  is_digit c = true ->
  String.length (Spec.code table (nat_of_ascii c - nat_of_ascii "0")) = 7.
Proof.
  intros Hall Hlen Hc. unfold Spec.code.
  assert (Hlt : nat_of_ascii c - nat_of_ascii "0" < length table).
  { rewrite Hlen. revert c Hc. apply digit_chars_inv; vm_compute; lia. }
  destruct (nth_lookup_or_length table (nat_of_ascii c - nat_of_ascii "0") EmptyString)
    as [Hnth | Hge]; [| lia].
  eapply Forall_lookup_1 in Hall; [exact Hall | exact Hnth].
Qed.

Lemma tables_seven :
  Forall (fun s => String.length s = 7) Spec.L_codes /\
  Forall (fun s => String.length s = 7) Spec.G_codes /\
  Forall (fun s => String.length s = 7) Spec.R_codes.
Proof. repeat split; repeat constructor. Qed.

(** ** The bit string *)

Lemma tables_as_specified :
  EAN13_L_CODES = Spec.L_codes /\ EAN13_G_CODES = Spec.G_codes /\
  EAN13_R_CODES = Spec.R_codes /\ EAN13_FIRST_DIGIT_PATTERNS = Spec.parity_patterns.
Proof. repeat split. Qed.

Lemma left_group_step_spec (text : string) (i : nat) (bits : string) (c0 c : ascii) :
  char_at text 0 = Some c0 -> is_digit c0 = true ->
  char_at text (i + 1) = Some c -> is_digit c = true -> i < 6 ->
  left_group_step text
    (array_at EAN13_FIRST_DIGIT_PATTERNS (parseInt (char_at text 0))) i bits
  = Ok (bits +:+ Spec.left_code text i)
  /\ String.length (Spec.left_code text i) = 7.
Proof.
  intros H0 Hc0 Hi Hc Hlt.
  destruct tables_seven as (HL & HG & _).
  unfold left_group_step, Spec.left_code, Spec.parity, Spec.digit.
  change (String.get 0 text) with (char_at text 0).
  change (String.get (i + 1) text) with (char_at text (i + 1)).
  rewrite H0, Hi.
  rewrite !code_of_digit by (assumption || reflexivity).
  change EAN13_L_CODES with Spec.L_codes. change EAN13_G_CODES with Spec.G_codes.
  pose proof (code_length Spec.L_codes c HL eq_refl Hc) as HlenL.
  pose proof (code_length Spec.G_codes c HG eq_refl Hc) as HlenG.
  generalize dependent (Spec.code Spec.L_codes (nat_of_ascii c - nat_of_ascii "0")).
  generalize dependent (Spec.code Spec.G_codes (nat_of_ascii c - nat_of_ascii "0")).
  intros g Hg l Hl. clear H0 Hi Hc c text.
  revert c0 Hc0. apply digit_chars_inv;
    (do 6 (destruct i as [|i]; [split; [reflexivity | assumption] |])); lia.
Qed.

Lemma right_group_step_spec (text : string) (i : nat) (bits : string) (c : ascii) :
  char_at text (i + 7) = Some c -> is_digit c = true ->
  right_group_step text i bits = Ok (bits +:+ Spec.right_code text (i + 7))
  /\ String.length (Spec.right_code text (i + 7)) = 7.
Proof.
  intros Hi Hc. destruct tables_seven as (_ & _ & HR).
  unfold right_group_step, Spec.right_code, Spec.digit.
  unfold char_at in Hi |- *. rewrite Hi.
  rewrite code_of_digit by (assumption || reflexivity).
  split; [reflexivity |]. now apply code_length.
Qed.

(** The encoder's bit string on thirteen digits is the specified one. *)
Lemma barcodeBits_spec (text : string) :
  String.length text = 13 -> all_digits text = true ->
  barcodeBits text = Ok (Spec.bits text) /\ String.length (Spec.bits text) = 95.
Proof.
  intros Hlen Hall.
  assert (Hget : forall i, i < 13 -> exists c, char_at text i = Some c /\ is_digit c = true).
  { intros i Hi. apply all_digits_get; [assumption | lia]. }
  destruct (Hget 0 ltac:(lia)) as (c0 & H0 & Hc0).
  assert (HL : forall i bits, i < 6 ->
    left_group_step text
      (array_at EAN13_FIRST_DIGIT_PATTERNS (parseInt (char_at text 0))) i bits
    = Ok (bits +:+ Spec.left_code text i)
    /\ String.length (Spec.left_code text i) = 7).
  { intros i bits Hi. destruct (Hget (i + 1) ltac:(lia)) as (c & Hc & Hd).
    now apply (left_group_step_spec text i bits c0 c). }
  assert (HR : forall i bits, i < 6 ->
    right_group_step text i bits = Ok (bits +:+ Spec.right_code text (i + 7))
    /\ String.length (Spec.right_code text (i + 7)) = 7).
  { intros i bits Hi. destruct (Hget (i + 7) ltac:(lia)) as (c & Hc & Hd).
    now apply (right_group_step_spec text i bits c). }
  split.
  - unfold barcodeBits. cbv zeta. unfold for_loop, mbind, result_bind.
    do 6 (match goal with
          | |- context [left_group_step text _ ?i ?b] =>
              rewrite (proj1 (HL i b ltac:(lia))); cbv beta iota
          end).
    do 6 (match goal with
          | |- context [right_group_step text ?i ?b] =>
              rewrite (proj1 (HR i b ltac:(lia))); cbv beta iota
          end).
    unfold Spec.bits, Spec.concat. simpl fmap. simpl foldr.
    rewrite !append_assoc. reflexivity.
  - unfold Spec.bits, Spec.concat. simpl fmap. simpl foldr.
    rewrite !length_append.
    pose proof (fun i H => proj2 (HL i EmptyString H)) as HlenL.
    pose proof (fun i H => proj2 (HR i EmptyString H)) as HlenR.
    rewrite (HlenL 0), (HlenL 1), (HlenL 2), (HlenL 3), (HlenL 4), (HlenL 5) by lia.
    rewrite (HlenR 0 ltac:(lia) : String.length (Spec.right_code text 7) = 7),
      (HlenR 1 ltac:(lia) : String.length (Spec.right_code text 8) = 7),
      (HlenR 2 ltac:(lia) : String.length (Spec.right_code text 9) = 7),
      (HlenR 3 ltac:(lia) : String.length (Spec.right_code text 10) = 7),
      (HlenR 4 ltac:(lia) : String.length (Spec.right_code text 11) = 7),
      (HlenR 5 ltac:(lia) : String.length (Spec.right_code text 12) = 7).
    reflexivity.
Qed.

Lemma for_loop_ok {S : Type} (body : nat -> S -> result S) :
  (forall i s, exists s', body i s = Ok s') ->
  forall count start s, exists s', for_loop body start count s = Ok s'.
Proof.
  intros Hbody count. induction count as [|count IH]; intros start s; simpl.
  - now exists s.
  - destruct (Hbody start s) as [s' ->]. apply IH.
Qed.

(** The bit string is built whenever the leading character is a digit. *)
Lemma barcodeBits_leading_digit (text : string) (c0 : ascii) :
  char_at text 0 = Some c0 -> is_digit c0 = true ->
  exists bits, barcodeBits text = Ok bits.
Proof.
  intros H0 Hc0. unfold barcodeBits. cbv zeta. rewrite H0.
  assert (Hp : exists p, array_at EAN13_FIRST_DIGIT_PATTERNS (parseInt (Some c0)) = Some p).
  { clear H0. revert c0 Hc0. apply digit_chars_inv; eexists; reflexivity. }
  destruct Hp as [p ->].
  destruct (for_loop_ok (left_group_step text (Some p))) with (count := 6) (start := 0)
    (s := "101") as [bits ->].
  { intros i s. unfold left_group_step. destruct (decide _); eexists; reflexivity. }
  unfold mbind at 1, result_bind at 1.
  destruct (for_loop_ok (right_group_step text)) with (count := 6) (start := 0)
    (s := bits +:+ "01010") as [bits' ->].
  { intros i s. eexists; reflexivity. }
  eexists; reflexivity.
Qed.

(** The bit string is not built when the leading character is no digit:
    reading the parity pattern throws at the first left-group position. *)
Lemma barcodeBits_leading_other (text : string) :
  parseInt (char_at text 0) = None ->
  barcodeBits text = Throw (JsTypeError (undefined_read 0)).
Proof. intros H. unfold barcodeBits. cbv zeta. rewrite H. reflexivity. Qed.

(** ** The path *)

Lemma isGuard_spec (i : nat) : isGuard i = bool_decide (Spec.guard i).
Proof.
  destruct (isGuard i) eqn:E; symmetry;
    [apply bool_decide_eq_true | apply bool_decide_eq_false];
    unfold isGuard, Spec.guard in *.
  - rewrite !orb_true_iff, !andb_true_iff, !Nat.leb_le in E. lia.
  - rewrite !orb_false_iff, !andb_false_iff, !Nat.leb_gt in E. lia.
Qed.

Lemma segment_bar_at (i : nat) :
  "M" +:+ pretty (START_X + BAR_WIDTH * Z.of_nat i)%Z
    +:+ " 0L" +:+ pretty (START_X + BAR_WIDTH * Z.of_nat i)%Z
    +:+ " " +:+ pretty (if isGuard i then GUARD_BAR_HEIGHT else DATA_BAR_HEIGHT)
  = Spec.segment (Spec.bar_at i).
Proof.
  unfold Spec.segment, Spec.bar_at.
  cbn [Spec.bar_x Spec.bar_top Spec.bar_bottom].
  rewrite isGuard_spec.
  change (START_X + BAR_WIDTH * Z.of_nat i)%Z with (30 + 3 * Z.of_nat i)%Z.
  change (pretty 0%Z) with "0".
  case_bool_decide; case_decide; try contradiction; reflexivity.
Qed.

Lemma path_loop (bits : string) (count start : nat) (segs : list string) :
  for_loop (path_step bits) start count
    (segs, (START_X + BAR_WIDTH * Z.of_nat start)%Z)
  = Ok (segs ++ (Spec.segment <$> (Spec.bar_at <$>
          filter (fun i => String.get i bits = Some "1"%char) (seq start count))),
        (START_X + BAR_WIDTH * Z.of_nat (start + count))%Z).
Proof.
  revert start segs. induction count as [|count IH]; intros start segs.
  - simpl. rewrite app_nil_r, Nat.add_0_r. reflexivity.
  - cbn [for_loop seq]. unfold path_step at 1.
    replace (START_X + BAR_WIDTH * Z.of_nat start + BAR_WIDTH)%Z
      with (START_X + BAR_WIDTH * Z.of_nat (S start))%Z by (unfold BAR_WIDTH; lia).
    rewrite IH. rewrite filter_cons. unfold char_at.
    replace (start + S count) with (S start + count) by lia.
    destruct (decide (String.get start bits = Some "1"%char)) as [H1 | H1].
    + rewrite segment_bar_at, <- app_assoc. reflexivity.
    + reflexivity.
Qed.

(** The path segments are those of the specified bars. *)
Lemma pathSegments_spec (bits : string) :
  pathSegments bits = Ok (Spec.segment <$> Spec.bars bits).
Proof.
  unfold pathSegments.
  pose proof (path_loop bits (String.length bits) 0 []) as H.
  change (START_X + BAR_WIDTH * Z.of_nat 0)%Z with START_X in H.
  rewrite H. reflexivity.
Qed.

(** ** The font cache *)

Lemma getFontBase64_cached (w : world) (s : string) :
  cachedFontBase64 w = Some s -> truthy s = true -> getFontBase64 w = (Ok s, w).
Proof. intros Hc Ht. unfold getFontBase64. now rewrite Hc, Ht. Qed.

Lemma getFontBase64_loads (w : world) (s : string) :
  truthy_opt (cachedFontBase64 w) = false ->
  font_file w (font_reads (trace w)) = Ok s ->
  getFontBase64 w = (Ok s, World (Some s) (font_file w) (ReadFontFile :: trace w)).
Proof.
  intros Hc Hf. unfold getFontBase64, try_catch, readFontFile.
  unfold mbind, M_bind. rewrite Hf.
  destruct (cachedFontBase64 w) as [c|]; [simpl in Hc; rewrite Hc |]; reflexivity.
Qed.

Lemma getFontBase64_fails (w : world) (e : exn) :
  truthy_opt (cachedFontBase64 w) = false ->
  font_file w (font_reads (trace w)) = Throw e ->
  getFontBase64 w
  = (Ok EmptyString, record (ConsoleError "Error loading font:") (record ReadFontFile w)).
Proof.
  intros Hc Hf. unfold getFontBase64, try_catch, readFontFile.
  unfold mbind, M_bind. rewrite Hf.
  destruct (cachedFontBase64 w) as [c|]; [simpl in Hc; rewrite Hc |]; reflexivity.
Qed.

(** getFontBase64 returns on every path. *)
Lemma getFontBase64_returns (w : world) :
  exists s w', getFontBase64 w = (Ok s, w').
Proof.
  destruct (truthy_opt (cachedFontBase64 w)) eqn:Hc.
  - destruct (cachedFontBase64 w) as [c|] eqn:Hw; [| discriminate Hc].
    exists c, w. now apply getFontBase64_cached.
  - destruct (font_file w (font_reads (trace w))) as [s | e] eqn:Hf.
    + eexists _, _. exact (getFontBase64_loads w s Hc Hf).
    + eexists _, _. exact (getFontBase64_fails w e Hc Hf).
Qed.

(** A call that returns a non-empty string leaves it in the cache. *)
Lemma getFontBase64_caches (w w1 : world) (s : string) :
  getFontBase64 w = (Ok s, w1) -> truthy s = true -> cachedFontBase64 w1 = Some s.
Proof.
  intros Hcall Ht.
  destruct (truthy_opt (cachedFontBase64 w)) eqn:Hc.
  - destruct (cachedFontBase64 w) as [c|] eqn:Hw; [| discriminate Hc].
    rewrite (getFontBase64_cached w c Hw Hc) in Hcall.
    inversion Hcall; subst. assumption.
  - destruct (font_file w (font_reads (trace w))) as [s' | e] eqn:Hf.
    + rewrite (getFontBase64_loads w s' Hc Hf) in Hcall.
      inversion Hcall; subst. reflexivity.
    + rewrite (getFontBase64_fails w e Hc Hf) in Hcall.
      inversion Hcall; subst. discriminate Ht.
Qed.

Lemma getFontBase64_calls_cached (n : nat) (w : world) (s : string) :
  cachedFontBase64 w = Some s -> truthy s = true ->
  getFontBase64_calls n w = (replicate n (Ok s), w).
Proof.
  intros Hc Ht. induction n as [|n IH]; [reflexivity |].
  simpl. rewrite (getFontBase64_cached w s Hc Ht), IH. reflexivity.
Qed.

(** ** The encoder *)

Lemma generateEAN13Barcode_length_error (text : string)
    (fontSize offsetLeft offsetMiddle offsetRight : option Z) (w : world) :
  String.length text ≠ 13 ->
  generateEAN13Barcode text fontSize offsetLeft offsetMiddle offsetRight w
  = (Throw (JsError "EAN-13 must be 13 digits"),
     record (ConsoleError "Error generating EAN13:") (record (Generate text) w)).
Proof.
  intros Hlen. unfold generateEAN13Barcode. cbv zeta.
  unfold mbind, M_bind, emit, try_catch.
  destruct (decide (String.length text ≠ 13)); [reflexivity | contradiction].
Qed.

Lemma generateEAN13Barcode_bits_error (text : string)
    (fontSize offsetLeft offsetMiddle offsetRight : option Z) (w : world) (e : exn) :
  String.length text = 13 -> barcodeBits text = Throw e ->
  generateEAN13Barcode text fontSize offsetLeft offsetMiddle offsetRight w
  = (Throw e, record (ConsoleError "Error generating EAN13:") (record (Generate text) w)).
Proof.
  intros Hlen Hbits. unfold generateEAN13Barcode. cbv zeta.
  unfold mbind, M_bind, emit, try_catch, lift.
  destruct (decide (String.length text ≠ 13)); [contradiction |].
  rewrite Hbits. reflexivity.
Qed.

Lemma generateEAN13Barcode_returns (text : string)
    (fontSize offsetLeft offsetMiddle offsetRight : option Z) (w w' : world)
    (bits fontBase64 : string) :
  String.length text = 13 -> barcodeBits text = Ok bits ->
  getFontBase64 (record (Generate text) w) = (Ok fontBase64, w') ->
  generateEAN13Barcode text fontSize offsetLeft offsetMiddle offsetRight w
  = (Ok (svg_document
           (if truthy fontBase64 then font_data_uri fontBase64 else font_url)
           (Spec.segment <$> Spec.bars bits) text
           (default 31%Z fontSize) (default 0%Z offsetLeft)
           (default 0%Z offsetMiddle) (default 0%Z offsetRight)),
     w').
Proof.
  intros Hlen Hbits Hfont. unfold generateEAN13Barcode. cbv zeta.
  unfold mbind, M_bind, emit, try_catch, lift.
  destruct (decide (String.length text ≠ 13)); [contradiction |].
  rewrite Hbits, pathSegments_spec, Hfont. reflexivity.
Qed.

Lemma occurs_in_join (sep part : string) (lines : list string) :
  part ∈ lines -> occurs_in part (join sep lines).
Proof.
  induction lines as [|line lines IH]; intros Hin; [now apply elem_of_nil in Hin |].
  apply elem_of_cons in Hin as [-> | Hin].
  - exists EmptyString. destruct lines as [|l lines].
    + exists EmptyString. cbn [join]. now rewrite append_empty_r.
    + eexists. cbn [join]. reflexivity.
  - destruct (IH Hin) as (before & after & Hjoin).
    destruct lines as [|l lines]; [now apply elem_of_nil in Hin |].
    exists (line +:+ sep +:+ before), after.
    change (join sep (line :: l :: lines)) with (line +:+ sep +:+ join sep (l :: lines)).
    rewrite Hjoin, !append_assoc. reflexivity.
Qed.

(** The document has the path line, and its font-face rule has the given
    source. *)
Lemma svg_document_lines (fontDataUrl : string) (segs : list string) (text : string)
    (fontSize offsetLeft offsetMiddle offsetRight : Z) :
  occurs_in (bars_path segs)
    (svg_document fontDataUrl segs text fontSize offsetLeft offsetMiddle offsetRight)
  /\ occurs_in (font_face_src fontDataUrl)
    (svg_document fontDataUrl segs text fontSize offsetLeft offsetMiddle offsetRight).
Proof.
  split; apply occurs_in_join;
    repeat first [ apply list_elem_of_here | apply list_elem_of_further ].
Qed.

(** ** What the claims say of the encoder *)

(** C1. For every 13-character string of digits the encoder's bit string
    has exactly 95 characters and is the start guard 101, the L-code or
    G-code of [text[i+1]] for the left positions 0 to 5 as the parity
    pattern of the leading digit says, the center guard 01010, the R-codes
    of [text[7]] to [text[12]], and the end guard 101; the encoder returns
    the document drawn from that bit string; the four tables are the
    specified ones. *)
Theorem ean13_bits_as_specified (text : string) :
  String.length text = 13 -> all_digits text = true ->
  barcodeBits text = Ok (Spec.bits text)
  /\ String.length (Spec.bits text) = 95
  /\ (forall fontSize offsetLeft offsetMiddle offsetRight w,
        exists src w',
          generateEAN13Barcode text fontSize offsetLeft offsetMiddle offsetRight w
          = (Ok (svg_document src (Spec.segment <$> Spec.bars (Spec.bits text)) text
                   (default 31%Z fontSize) (default 0%Z offsetLeft)
                   (default 0%Z offsetMiddle) (default 0%Z offsetRight)), w'))
  /\ EAN13_L_CODES = Spec.L_codes /\ EAN13_G_CODES = Spec.G_codes
  /\ EAN13_R_CODES = Spec.R_codes
  /\ EAN13_FIRST_DIGIT_PATTERNS = Spec.parity_patterns.
Proof.
  intros Hlen Hall. destruct (barcodeBits_spec text Hlen Hall) as [Hbits H95].
  split; [exact Hbits |]. split; [exact H95 |]. split; [| exact tables_as_specified].
  intros fontSize offsetLeft offsetMiddle offsetRight w.
  destruct (getFontBase64_returns (record (Generate text) w)) as (f & w' & Hfont).
  eexists _, w'. now apply (generateEAN13Barcode_returns text _ _ _ _ w w' _ f).
Qed.

Lemma ean13_bits_as_specified_witness :
  String.length "8809560223070" = 13 /\ all_digits "8809560223070" = true
  /\ barcodeBits "8809560223070" = Ok (Spec.bits "8809560223070")
  /\ String.length (Spec.bits "8809560223070") = 95.
Proof.
  split; [reflexivity |]. split; [reflexivity |].
  pose proof (ean13_bits_as_specified "8809560223070" eq_refl eq_refl) as H.
  split; [exact (proj1 H) | exact (proj1 (proj2 H))].
Defined.

(** The bars of a bit string are those of its 1 characters. *)
Lemma bars_spec (bits : string) (b : Spec.bar) :
  b ∈ Spec.bars bits
  <-> exists i, char_at bits i = Some "1"%char
        /\ b = Spec.Bar (30 + 3 * Z.of_nat i) 0 (if decide (Spec.guard i) then 200 else 165).
Proof.
  unfold Spec.bars, Spec.ones. rewrite list_elem_of_fmap. split.
  - intros (i & -> & Hin). apply list_elem_of_filter in Hin as [H1 _]. now exists i.
  - intros (i & H1 & ->). exists i. split; [reflexivity |].
    apply list_elem_of_filter. split; [exact H1 |].
    apply elem_of_seq. split; [lia |]. simpl.
    destruct (Nat.lt_ge_cases i (String.length bits)) as [Hlt | Hge]; [exact Hlt |].
    exfalso. unfold char_at in H1. revert i H1 Hge.
    induction bits as [|c bits IH]; intros i H1 Hge; [destruct i; discriminate H1 |].
    destruct i as [|i]; simpl in *; [lia |]. apply (IH i H1). lia.
Qed.

(** X29. The bars by bit index. For every 13-character input whose first
    character is a decimal digit the encoder returns a document whose path,
    of stroke width 3, has one segment per 1 character of the bit string
    and none for another character: the bar of bit index [i] is at
    x = 30 + 3 i, starts at y = 0, and ends at 200 exactly when [i] lies in
    [0,2], [42,46] or [92,94], at 165 otherwise, whether or not the bit of
    that index belongs to a guard. The bit string has 95 characters when
    all thirteen characters are digits. *)
Theorem ean13_bars (text : string) (c0 : ascii)
    (fontSize offsetLeft offsetMiddle offsetRight : option Z) (w : world) :
  String.length text = 13 -> char_at text 0 = Some c0 -> is_digit c0 = true ->
  exists bits src w',
    barcodeBits text = Ok bits
    /\ (all_digits text = true -> String.length bits = 95)
    /\ generateEAN13Barcode text fontSize offsetLeft offsetMiddle offsetRight w
       = (Ok (svg_document src (Spec.segment <$> Spec.bars bits) text
                (default 31%Z fontSize) (default 0%Z offsetLeft)
                (default 0%Z offsetMiddle) (default 0%Z offsetRight)), w')
    /\ occurs_in
         ("    <path stroke=" +:+ q "#000000" +:+ " stroke-width=" +:+ q "3" +:+ " d="
            +:+ q (join " " (Spec.segment <$> Spec.bars bits)) +:+ " />")
         (svg_document src (Spec.segment <$> Spec.bars bits) text
            (default 31%Z fontSize) (default 0%Z offsetLeft)
            (default 0%Z offsetMiddle) (default 0%Z offsetRight))
    /\ (forall b, b ∈ Spec.bars bits
          <-> exists i, char_at bits i = Some "1"%char
                /\ b = Spec.Bar (30 + 3 * Z.of_nat i) 0
                         (if decide (i <= 2 \/ (42 <= i /\ i <= 46) \/ (92 <= i /\ i <= 94))
                          then 200 else 165)).
Proof.
  intros Hlen H0 Hc0.
  destruct (barcodeBits_leading_digit text c0 H0 Hc0) as [bits Hbits].
  destruct (getFontBase64_returns (record (Generate text) w)) as (f & w' & Hfont).
  exists bits, (if truthy f then font_data_uri f else font_url), w'.
  split; [exact Hbits |]. split.
  { intros Hall. destruct (barcodeBits_spec text Hlen Hall) as [Hspec H95].
    rewrite Hspec in Hbits. inversion Hbits; subst. exact H95. }
  split; [now apply generateEAN13Barcode_returns |].
  split; [apply svg_document_lines |].
  intros b. apply bars_spec.
Qed.

Lemma ean13_bars_witness :
  String.length "1A34567890123" = 13 /\ char_at "1A34567890123" 0 = Some "1"%char
  /\ is_digit "1" = true
  /\ exists bits src w',
       barcodeBits "1A34567890123" = Ok bits
       /\ (all_digits "1A34567890123" = true -> String.length bits = 95)
       /\ generateEAN13Barcode "1A34567890123" None None None None unreadable_font
          = (Ok (svg_document src (Spec.segment <$> Spec.bars bits) "1A34567890123"
                   31 0 0 0), w')
       /\ occurs_in
            ("    <path stroke=" +:+ q "#000000" +:+ " stroke-width=" +:+ q "3" +:+ " d="
               +:+ q (join " " (Spec.segment <$> Spec.bars bits)) +:+ " />")
            (svg_document src (Spec.segment <$> Spec.bars bits) "1A34567890123" 31 0 0 0)
       /\ (forall b, b ∈ Spec.bars bits
             <-> exists i, char_at bits i = Some "1"%char
                   /\ b = Spec.Bar (30 + 3 * Z.of_nat i) 0
                            (if decide (i <= 2 \/ (42 <= i /\ i <= 46) \/ (92 <= i /\ i <= 94))
                             then 200 else 165)).
Proof.
  split; [reflexivity |]. split; [reflexivity |]. split; [reflexivity |].
  exact (ean13_bars "1A34567890123" "1" None None None None unreadable_font
           eq_refl eq_refl eq_refl).
Defined.

(** On thirteen digits the five bits of the center guard are at the
    indices 45 to 49; of its two bars the one at index 46 ends at 200 and
    the one at index 48 at 165, the range of the path loop being 42 to
    46. *)
Lemma center_guard_bars (text : string) :
  String.length text = 13 -> all_digits text = true ->
  char_at (Spec.bits text) 45 = Some "0"%char
  /\ char_at (Spec.bits text) 46 = Some "1"%char
  /\ char_at (Spec.bits text) 47 = Some "0"%char
  /\ char_at (Spec.bits text) 48 = Some "1"%char
  /\ char_at (Spec.bits text) 49 = Some "0"%char
  /\ Spec.bar_bottom (Spec.bar_at 46) = 200%Z
  /\ Spec.bar_bottom (Spec.bar_at 48) = 165%Z.
Proof.
  intros Hlen Hall.
  assert (Hget : forall i, i < 13 -> exists c, char_at text i = Some c /\ is_digit c = true).
  { intros i Hi. apply all_digits_get; [assumption | lia]. }
  destruct (Hget 0 ltac:(lia)) as (c0 & H0 & Hc0).
  assert (H7 : forall i, i < 6 -> String.length (Spec.left_code text i) = 7).
  { intros i Hi. destruct (Hget (i + 1) ltac:(lia)) as (c & Hc & Hd).
    exact (proj2 (left_group_step_spec text i EmptyString c0 c H0 Hc0 Hc Hd Hi)). }
  unfold Spec.bits, Spec.concat. simpl fmap. simpl foldr.
  repeat match goal with
         | |- context [Spec.left_code text ?i] =>
             let l := fresh "l" in
             let Hl := fresh "Hl" in
             pose proof (H7 i ltac:(lia)) as Hl;
             generalize dependent (Spec.left_code text i); intros l Hl
         end.
  repeat match goal with
         | H : String.length ?l = 7 |- _ =>
             destruct l as [|? [|? [|? [|? [|? [|? [|? [|? ?]]]]]]]];
             try discriminate H; clear H
         end.
  repeat split; reflexivity.
Qed.

(** A 13-character input whose first character is no digit makes the
    encoder throw, so that no bar is drawn, and one with another character
    that is no digit has a bit string of 97 characters. *)
Lemma ean13_bars_counterexample :
  String.length "A234567890123" = 13
  /\ (generateEAN13Barcode "A234567890123" None None None None unreadable_font).1
     = Throw (JsTypeError "Cannot read properties of undefined (reading '0')")
  /\ String.length "1A34567890123" = 13
  /\ exists bits, barcodeBits "1A34567890123" = Ok bits /\ String.length bits = 97.
Proof.
  split; [reflexivity |]. split; [vm_compute; reflexivity |]. split; [reflexivity |].
  eexists. split; vm_compute; reflexivity.
Qed.


(** C3. For every input whose length is not 13 the encoder throws the
    length error at once: nothing is returned, and the process shows the
    entry and the log of the error only (no bit string, path or font was
    made). For a 13-character input the length error is never thrown,
    whatever the characters are. *)
Theorem ean13_length_error (text : string)
    (fontSize offsetLeft offsetMiddle offsetRight : option Z) (w : world) :
  (String.length text ≠ 13 ->
     generateEAN13Barcode text fontSize offsetLeft offsetMiddle offsetRight w
     = (Throw (JsError "EAN-13 must be 13 digits"),
        record (ConsoleError "Error generating EAN13:") (record (Generate text) w)))
  /\ (String.length text = 13 ->
        (generateEAN13Barcode text fontSize offsetLeft offsetMiddle offsetRight w).1
        ≠ Throw (JsError "EAN-13 must be 13 digits")).
Proof.
  split; [apply generateEAN13Barcode_length_error |].
  intros Hlen.
  destruct (parseInt (char_at text 0)) as [d|] eqn:Hd.
  - destruct (char_at text 0) as [c0|] eqn:H0; [| discriminate Hd].
    assert (Hc0 : is_digit c0 = true).
    { unfold parseInt in Hd. destruct (is_digit c0); [reflexivity | discriminate Hd]. }
    destruct (barcodeBits_leading_digit text c0 H0 Hc0) as [bits Hbits].
    destruct (getFontBase64_returns (record (Generate text) w)) as (f & w' & Hfont).
    rewrite (generateEAN13Barcode_returns text _ _ _ _ w w' bits f Hlen Hbits Hfont).
    discriminate.
  - rewrite (generateEAN13Barcode_bits_error text _ _ _ _ w _ Hlen
               (barcodeBits_leading_other text Hd)).
    discriminate.
Qed.

Lemma ean13_length_error_witness :
  String.length "123" ≠ 13
  /\ generateEAN13Barcode "123" None None None None unreadable_font
     = (Throw (JsError "EAN-13 must be 13 digits"),
        record (ConsoleError "Error generating EAN13:")
          (record (Generate "123") unreadable_font))
  /\ String.length "12345X7890 23" = 13
  /\ (generateEAN13Barcode "12345X7890 23" None None None None unreadable_font).1
     ≠ Throw (JsError "EAN-13 must be 13 digits").
Proof.
  assert (H3 : String.length "123" ≠ 13) by (simpl; lia).
  split; [exact H3 |].
  split; [exact (proj1 (ean13_length_error "123" None None None None unreadable_font) H3) |].
  split; [reflexivity |].
  exact (proj2 (ean13_length_error "12345X7890 23" None None None None unreadable_font)
           eq_refl).
Defined.

(** ** What the claims say of the font *)

(** C6, amended. Once a call of the font loader has returned a non-empty
    base64 string (read just then, or cached before), every later call
    returns that same string and leaves the process as it is: the file is
    not read again. Until then nothing is cached for use: a call whose read
    fails, or whose read gives the empty string, returns the empty string
    and reads the file, so that each such call adds one read. *)
Theorem font_read_once_loaded (w w1 : world) (s : string) :
  (getFontBase64 w = (Ok s, w1) -> truthy s = true ->
     forall n, getFontBase64_calls n w1 = (replicate n (Ok s), w1))
  /\ (forall e, truthy_opt (cachedFontBase64 w) = false ->
        font_file w (font_reads (trace w)) = Throw e ->
        exists w2, getFontBase64 w = (Ok EmptyString, w2)
          /\ cachedFontBase64 w2 = cachedFontBase64 w
          /\ font_reads (trace w2) = S (font_reads (trace w)))
  /\ (truthy_opt (cachedFontBase64 w) = false ->
      font_file w (font_reads (trace w)) = Ok EmptyString ->
      exists w2, getFontBase64 w = (Ok EmptyString, w2)
        /\ truthy_opt (cachedFontBase64 w2) = false
        /\ font_reads (trace w2) = S (font_reads (trace w))).
Proof.
  split; [| split].
  - intros Hcall Ht n. apply getFontBase64_calls_cached; [| exact Ht].
    now apply (getFontBase64_caches w w1 s).
  - intros e Hc Hf. eexists. split; [exact (getFontBase64_fails w e Hc Hf) |].
    split; reflexivity.
  - intros Hc Hf. eexists. split; [exact (getFontBase64_loads w EmptyString Hc Hf) |].
    split; reflexivity.
Qed.

Lemma font_read_once_loaded_witness :
  getFontBase64 readable_font
  = (Ok "AAEAAA==", World (Some "AAEAAA==") (font_file readable_font) [ReadFontFile])
  /\ truthy "AAEAAA==" = true
  /\ getFontBase64_calls 3 (World (Some "AAEAAA==") (font_file readable_font) [ReadFontFile])
     = (replicate 3 (Ok "AAEAAA=="),
        World (Some "AAEAAA==") (font_file readable_font) [ReadFontFile])
  /\ truthy_opt (cachedFontBase64 unreadable_font) = false
  /\ font_file unreadable_font (font_reads (trace unreadable_font))
     = Throw (JsError "ENOENT: no such file or directory")
  /\ exists w2, getFontBase64 unreadable_font = (Ok EmptyString, w2)
       /\ cachedFontBase64 w2 = cachedFontBase64 unreadable_font
       /\ font_reads (trace w2) = S (font_reads (trace unreadable_font)).
Proof.
  split; [reflexivity |]. split; [reflexivity |].
  split;
    [exact (proj1 (font_read_once_loaded readable_font _ "AAEAAA==") eq_refl eq_refl 3) |].
  split; [reflexivity |]. split; [reflexivity |].
  exact (proj1 (proj2 (font_read_once_loaded unreadable_font unreadable_font EmptyString))
           _ eq_refl eq_refl).
Defined.

(** C6 as stated fails: when the file cannot be read, two calls of the
    font loader read it twice; and when the file is empty, the first call
    loads it without an error and the second call reads the file again. *)
Lemma font_read_once_counterexample :
  font_reads (trace (getFontBase64_calls 2 unreadable_font).2) = 2
  /\ ~ font_reads (trace (getFontBase64_calls 2 unreadable_font).2) <= 1
  /\ (getFontBase64_calls 2 (initial_world (fun _ => Ok EmptyString))).1
     = [Ok EmptyString; Ok EmptyString]
  /\ font_reads (trace (getFontBase64_calls 2 (initial_world (fun _ => Ok EmptyString))).2)
     = 2.
Proof.
  split; [reflexivity |]. split; [vm_compute; lia |]. split; reflexivity.
Qed.

(** ** addFontStyle *)

Lemma strip_prefix_app (p s : string) : strip_prefix p (p +:+ s) = Some s.
Proof.
  induction p as [|c p IH]; [reflexivity |].
  rewrite append_cons. simpl. rewrite decide_True by reflexivity. exact IH.
Qed.

Lemma split_at_first_here (pat s : string) :
  split_at_first pat (pat +:+ s) = Some (EmptyString, s).
Proof.
  destruct (pat +:+ s) eqn:E; simpl; rewrite <- E, strip_prefix_app; reflexivity.
Qed.

(** The first [>] of a text that starts with [attrs], which has none. *)
Lemma split_at_first_gt (attrs rest : string) :
  split_at_first ">" attrs = None ->
  split_at_first ">" (attrs +:+ ">" +:+ rest) = Some (attrs, rest).
Proof.
  induction attrs as [|c attrs IH]; intros Hnone; [reflexivity |].
  rewrite append_cons. simpl in Hnone |- *.
  destruct (decide ("062"%char = c)) as [<- | Hne]; [discriminate Hnone |].
  destruct (split_at_first ">" attrs) as [[b a]|] eqn:Hs; [discriminate Hnone |].
  rewrite IH by reflexivity. reflexivity.
Qed.

Lemma match_svg_tag_leading (attrs rest : string) :
  split_at_first ">" attrs = None ->
  match_svg_tag ("<svg " +:+ attrs +:+ ">" +:+ rest)
  = Some (RegexpMatch [attrs] ("<svg " +:+ attrs +:+ ">") EmptyString rest).
Proof.
  intros Hnone. unfold match_svg_tag.
  rewrite split_at_first_here, split_at_first_gt by exact Hnone. reflexivity.
Qed.

(** addFontStyle returns on every path. *)
Lemma addFontStyle_returns (svg : string) (w : world) :
  exists s w', addFontStyle svg w = (Ok s, w')
    /\ exists f, getFontBase64 w = (Ok f, w').
Proof.
  destruct (getFontBase64_returns w) as (f & w' & Hf).
  unfold addFontStyle, try_catch, mbind, M_bind. rewrite Hf.
  eexists _, w'. split; [reflexivity | now exists f].
Qed.

(** The replacement of addFontStyle with the linked font: the tag, as it
    was, and the style block after it. *)
Lemma substitution_linked_style (attrs matched before after : string) :
  substitution (RegexpMatch [attrs] matched before after)
    ("<svg $1>" +:+ fontStyle_block ("'" +:+ font_url +:+ "'"))
  = "<svg " +:+ attrs +:+ ">" +:+ fontStyle_block ("'" +:+ font_url +:+ "'").
Proof. vm_compute. reflexivity. Qed.

(** C7. When the font file cannot be read the font loader returns the
    empty string and does not throw; the encoder then returns its
    document, whose font-face rule has the relative URL of the font as its
    source; addFontStyle returns too, and puts after the opening tag the
    style block whose font-face rule has that URL as its source. *)
Theorem font_failure_degrades (w : world) (e : exn) :
  truthy_opt (cachedFontBase64 w) = false ->
  font_file w (font_reads (trace w)) = Throw e ->
  (exists w', getFontBase64 w = (Ok EmptyString, w'))
  /\ (forall text fontSize offsetLeft offsetMiddle offsetRight bits,
        String.length text = 13 -> barcodeBits text = Ok bits ->
        exists doc w',
          generateEAN13Barcode text fontSize offsetLeft offsetMiddle offsetRight w
          = (Ok doc, w')
          /\ doc = svg_document font_url (Spec.segment <$> Spec.bars bits) text
                     (default 31%Z fontSize) (default 0%Z offsetLeft)
                     (default 0%Z offsetMiddle) (default 0%Z offsetRight)
          /\ occurs_in "        src: url(/fonts/ocrb/ocr-b-10-bt.ttf) format('truetype');" doc)
  /\ (forall svg, exists w',
        addFontStyle svg w
        = (Ok (replace_match svg (match_svg_tag svg)
                 ("<svg $1>" +:+ fontStyle_block ("'" +:+ font_url +:+ "'"))), w'))
  /\ (forall attrs rest, split_at_first ">" attrs = None ->
        exists w',
          addFontStyle ("<svg " +:+ attrs +:+ ">" +:+ rest) w
          = (Ok ("<svg " +:+ attrs +:+ ">"
                   +:+ fontStyle_block ("'" +:+ font_url +:+ "'") +:+ rest), w'))
  /\ occurs_in "        src: url('/fonts/ocrb/ocr-b-10-bt.ttf') format('truetype');"
       (fontStyle_block ("'" +:+ font_url +:+ "'")).
Proof.
  intros Hc Hf.
  pose proof (getFontBase64_fails w e Hc Hf) as Hfont.
  assert (Hstyle : forall svg,
    addFontStyle svg w
    = (Ok (replace_match svg (match_svg_tag svg)
             ("<svg $1>" +:+ fontStyle_block ("'" +:+ font_url +:+ "'"))),
       record (ConsoleError "Error loading font:") (record ReadFontFile w))).
  { intros svg. unfold addFontStyle, try_catch, mbind, M_bind. rewrite Hfont. reflexivity. }
  split; [eexists; exact Hfont |]. split; [| split; [| split]].
  - intros text fontSize offsetLeft offsetMiddle offsetRight bits Hlen Hbits.
    assert (Hfont' : getFontBase64 (record (Generate text) w)
                     = (Ok EmptyString,
                        record (ConsoleError "Error loading font:")
                          (record ReadFontFile (record (Generate text) w))))
      by (now apply (getFontBase64_fails _ e)).
    eexists _, _. split;
      [exact (generateEAN13Barcode_returns text _ _ _ _ w _ bits _ Hlen Hbits Hfont') |].
    split; [reflexivity |]. apply svg_document_lines.
  - intros svg. eexists. apply Hstyle.
  - intros attrs rest Hnone. eexists. rewrite Hstyle.
    rewrite (match_svg_tag_leading attrs rest Hnone). unfold replace_match.
    cbn [preceding following]. rewrite substitution_linked_style.
    rewrite !append_assoc. reflexivity.
  - apply occurs_in_join.
    repeat first [ apply list_elem_of_here | apply list_elem_of_further ].
Qed.

Lemma font_failure_degrades_witness :
  truthy_opt (cachedFontBase64 unreadable_font) = false
  /\ font_file unreadable_font (font_reads (trace unreadable_font))
     = Throw (JsError "ENOENT: no such file or directory")
  /\ (exists w', getFontBase64 unreadable_font = (Ok EmptyString, w'))
  /\ (exists doc w',
        generateEAN13Barcode "8809560223070" None None None None unreadable_font
        = (Ok doc, w')
        /\ occurs_in "        src: url(/fonts/ocrb/ocr-b-10-bt.ttf) format('truetype');" doc)
  /\ (exists w',
        addFontStyle ("<svg viewBox=" +:+ q "0 0 190 72" +:+ ">" +:+ "</svg>") unreadable_font
        = (Ok ("<svg viewBox=" +:+ q "0 0 190 72" +:+ ">"
                 +:+ fontStyle_block ("'" +:+ font_url +:+ "'") +:+ "</svg>"), w')).
Proof.
  pose proof (font_failure_degrades unreadable_font _ eq_refl eq_refl) as (H1 & H2 & _ & H4 & _).
  split; [reflexivity |]. split; [reflexivity |]. split; [exact H1 |]. split.
  - destruct (H2 "8809560223070" None None None None _ eq_refl eq_refl)
      as (doc & w' & Hg & _ & Hocc).
    exists doc, w'. split; [exact Hg | exact Hocc].
  - exact (H4 ("viewBox=" +:+ q "0 0 190 72") "</svg>" eq_refl).
Defined.

(** ** The trace only grows *)

Lemma getFontBase64_trace (w w' : world) (r : result string) :
  getFontBase64 w = (r, w') ->
  exists t, trace w' = t ++ trace w /\ forall text, Generate text ∉ t.
Proof.
  intros Hcall.
  destruct (truthy_opt (cachedFontBase64 w)) eqn:Hc.
  - destruct (cachedFontBase64 w) as [c|] eqn:Hw; [| discriminate Hc].
    rewrite (getFontBase64_cached w c Hw Hc) in Hcall. inversion Hcall; subst.
    exists []. split; [reflexivity |]. intros text H. now apply elem_of_nil in H.
  - destruct (font_file w (font_reads (trace w))) as [s | e] eqn:Hf.
    + rewrite (getFontBase64_loads w s Hc Hf) in Hcall. inversion Hcall; subst.
      exists [ReadFontFile]. split; [reflexivity |]. intros text H.
      apply list_elem_of_singleton in H. discriminate H.
    + rewrite (getFontBase64_fails w e Hc Hf) in Hcall. inversion Hcall; subst.
      exists [ConsoleError "Error loading font:"; ReadFontFile]. split; [reflexivity |].
      intros text H. repeat (apply elem_of_cons in H as [H | H]; [discriminate H |]).
      now apply elem_of_nil in H.
Qed.

Lemma generateEAN13Barcode_trace (text : string)
    (fontSize offsetLeft offsetMiddle offsetRight : option Z) (w w' : world)
    (r : result string) :
  generateEAN13Barcode text fontSize offsetLeft offsetMiddle offsetRight w = (r, w') ->
  exists t, trace w' = t ++ Generate text :: trace w.
Proof.
  intros Hcall.
  destruct (decide (String.length text = 13)) as [Hlen | Hlen].
  - destruct (barcodeBits text) as [bits | e] eqn:Hbits.
    + destruct (getFontBase64 (record (Generate text) w)) as [rf wf] eqn:Hfont.
      destruct (getFontBase64_returns (record (Generate text) w)) as (f & w1 & Hf).
      rewrite Hf in Hfont. inversion Hfont; subst.
      rewrite (generateEAN13Barcode_returns text _ _ _ _ w wf bits f Hlen Hbits Hf) in Hcall.
      inversion Hcall; subst.
      destruct (getFontBase64_trace _ _ _ Hf) as (t & Ht & _). now exists t.
    + rewrite (generateEAN13Barcode_bits_error text _ _ _ _ w e Hlen Hbits) in Hcall.
      inversion Hcall; subst. now exists [ConsoleError "Error generating EAN13:"].
  - rewrite (generateEAN13Barcode_length_error text _ _ _ _ w Hlen) in Hcall.
    inversion Hcall; subst. now exists [ConsoleError "Error generating EAN13:"].
Qed.

(** ** What the claims say of the endpoint *)

Section EndpointProperties.

Context {NextRequest Json Options : Type}.
Variable request_json : NextRequest -> result Json.
Variable BarcodeRequestSchema_parse : Json -> result BarcodeRenderRequest.
Variable getBarcodeOptions : Symbology -> option Z -> result Options.
Variable bwipjs_toSVG : Options -> string -> result string.
Variable addCenterText : string -> string -> option Z -> string.

Local Abbreviation handler library :=
  (POST request_json BarcodeRequestSchema_parse getBarcodeOptions library addCenterText).

(** The handler on an EAN-13 request once the library has returned: the
    font is looked up for the style block, and the answer is the
    encoder's. *)
Lemma POST_ean13 (library : Options -> string -> result string)
    (request : NextRequest) (w : world) (body : Json) (r : BarcodeRenderRequest)
    (options : Options) (out : string) :
  request_json request = Ok body -> BarcodeRequestSchema_parse body = Ok r ->
  getBarcodeOptions (symbology r) (quietZone r) = Ok options ->
  library options (contents r) = Ok out -> symbology r = ean13 ->
  exists f w1,
    getFontBase64 (record (ToSVG (contents r)) w) = (Ok f, w1)
    /\ handler library request w
       = match generateEAN13Barcode (contents r) (fontSize r) (offsetLeft r)
                 (offsetMiddle r) (offsetRight r) w1 with
         | (Ok svg, w2) => (SvgResponse svg, w2)
         | (Throw e, w2) =>
             (JsonErrorResponse (error_message e) 400,
              record (ConsoleError "Preview error:") w2)
         end.
Proof.
  intros Hjson Hparse Hopt Hlib Hsym.
  destruct (addFontStyle_returns (addSVGDimensions out) (record (ToSVG (contents r)) w))
    as (s & w1 & Hstyle & f & Hfont).
  exists f, w1. split; [exact Hfont |].
  unfold POST, POST_try, mbind, M_bind, lift, emit.
  rewrite Hjson, Hparse, Hopt, Hlib, Hstyle.
  destruct (decide (symbology r = ean13)); [| contradiction].
  unfold processEAN13.
  change (generateEAN13Barcode (contents r) (Some (default 31%Z (fontSize r)))
            (Some (default 0%Z (offsetLeft r))) (Some (default 0%Z (offsetMiddle r)))
            (Some (default 0%Z (offsetRight r))) w1)
    with (generateEAN13Barcode (contents r) (fontSize r) (offsetLeft r)
            (offsetMiddle r) (offsetRight r) w1).
  destruct (generateEAN13Barcode _ _ _ _ _ w1) as [[doc | err] w2]; reflexivity.
Qed.

(** A request the handler answers with SVG text passed every step. *)
Lemma POST_svg_inv (request : NextRequest) (w w' : world) (svg : string) :
  handler bwipjs_toSVG request w = (SvgResponse svg, w') ->
  exists body r options out,
    request_json request = Ok body /\ BarcodeRequestSchema_parse body = Ok r
    /\ getBarcodeOptions (symbology r) (quietZone r) = Ok options
    /\ bwipjs_toSVG options (contents r) = Ok out.
Proof.
  unfold POST, POST_try, mbind, M_bind, lift, emit. intros H.
  destruct (request_json request) as [body | e] eqn:Hjson; [| discriminate H].
  destruct (BarcodeRequestSchema_parse body) as [r | e] eqn:Hparse; [| discriminate H].
  destruct (getBarcodeOptions (symbology r) (quietZone r)) as [options | e] eqn:Hopt;
    [| discriminate H].
  destruct (bwipjs_toSVG options (contents r)) as [out | e] eqn:Hlib; [| discriminate H].
  now exists body, r, options, out.
Qed.

(** The SVG text of an answer to an EAN-13 request is the encoder's. *)
Lemma POST_ean13_svg (library : Options -> string -> result string)
    (request : NextRequest) (w w' : world) (svg : string) (body : Json)
    (r : BarcodeRenderRequest) (options : Options) (out : string) :
  request_json request = Ok body -> BarcodeRequestSchema_parse body = Ok r ->
  getBarcodeOptions (symbology r) (quietZone r) = Ok options ->
  library options (contents r) = Ok out -> symbology r = ean13 ->
  handler library request w = (SvgResponse svg, w') ->
  exists f w1,
    getFontBase64 (record (ToSVG (contents r)) w) = (Ok f, w1)
    /\ generateEAN13Barcode (contents r) (fontSize r) (offsetLeft r)
         (offsetMiddle r) (offsetRight r) w1 = (Ok svg, w').
Proof.
  intros Hjson Hparse Hopt Hlib Hsym Hpost.
  destruct (POST_ean13 library request w body r options out
              Hjson Hparse Hopt Hlib Hsym) as (f & w1 & Hfont & Heq).
  rewrite Hpost in Heq.
  destruct (generateEAN13Barcode (contents r) (fontSize r) (offsetLeft r)
              (offsetMiddle r) (offsetRight r) w1) as [[doc | err] w2] eqn:Hgen;
    [| discriminate Heq].
  inversion Heq; subst doc w2. now exists f, w1.
Qed.

(** C4. For every request with symbology ean13 that the handler answers
    with SVG text, the body is what the encoder returns on the contents,
    the font size and the three offsets of the request; the library's SVG
    does not reach the answer: with any other output of the library the
    answer and the process are the same. *)
Theorem ean13_response_is_encoder_output (request : NextRequest) (w w' : world)
    (svg : string) (body : Json) (r : BarcodeRenderRequest) :
  request_json request = Ok body -> BarcodeRequestSchema_parse body = Ok r ->
  symbology r = ean13 ->
  handler bwipjs_toSVG request w = (SvgResponse svg, w') ->
  (exists f w1,
     getFontBase64 (record (ToSVG (contents r)) w) = (Ok f, w1)
     /\ generateEAN13Barcode (contents r) (fontSize r) (offsetLeft r)
          (offsetMiddle r) (offsetRight r) w1 = (Ok svg, w'))
  /\ (forall (library : Options -> string -> result string) options out,
        getBarcodeOptions (symbology r) (quietZone r) = Ok options ->
        library options (contents r) = Ok out ->
        handler library request w = (SvgResponse svg, w')).
Proof.
  intros Hjson Hparse Hsym Hpost.
  destruct (POST_svg_inv request w w' svg Hpost)
    as (body' & r' & options & out & Hjson' & Hparse' & Hopt & Hlib).
  rewrite Hjson in Hjson'. inversion Hjson'; subst body'.
  rewrite Hparse in Hparse'. inversion Hparse'; subst r'.
  destruct (POST_ean13_svg bwipjs_toSVG request w w' svg body r options out
              Hjson Hparse Hopt Hlib Hsym Hpost) as (f & w1 & Hfont & Hgen).
  split.
  - exists f, w1. split; [exact Hfont | exact Hgen].
  - intros library options' out' Hopt' Hlib'.
    destruct (POST_ean13 library request w body r options' out'
                Hjson Hparse Hopt' Hlib' Hsym) as (f' & w1' & Hfont' & Heq').
    rewrite Hfont in Hfont'. inversion Hfont'; subst f' w1'.
    rewrite Heq', Hgen. reflexivity.
Qed.

(** C5. Whichever step fails (reading the JSON body, the schema, the
    option table, the library, the encoder), the handler answers with the
    JSON error object, whose error is the message of what was thrown, and
    status 400; the handler always answers; a JSON answer has status 400;
    and an answer with SVG text means that every step returned, the body
    being the complete document of the encoder for symbology ean13. *)
Theorem failure_is_error_400 (request : NextRequest) (w : world) :
  (forall e, request_json request = Throw e ->
     handler bwipjs_toSVG request w
     = (JsonErrorResponse (error_message e) 400, record (ConsoleError "Preview error:") w))
  /\ (forall body e, request_json request = Ok body ->
        BarcodeRequestSchema_parse body = Throw e ->
        handler bwipjs_toSVG request w
        = (JsonErrorResponse (error_message e) 400,
           record (ConsoleError "Preview error:") w))
  /\ (forall body r e, request_json request = Ok body ->
        BarcodeRequestSchema_parse body = Ok r ->
        getBarcodeOptions (symbology r) (quietZone r) = Throw e ->
        handler bwipjs_toSVG request w
        = (JsonErrorResponse (error_message e) 400,
           record (ConsoleError "Preview error:") w))
  /\ (forall body r options e, request_json request = Ok body ->
        BarcodeRequestSchema_parse body = Ok r ->
        getBarcodeOptions (symbology r) (quietZone r) = Ok options ->
        bwipjs_toSVG options (contents r) = Throw e ->
        handler bwipjs_toSVG request w
        = (JsonErrorResponse (error_message e) 400,
           record (ConsoleError "Preview error:") (record (ToSVG (contents r)) w)))
  /\ (forall body r options out f w1 e w2, request_json request = Ok body ->
        BarcodeRequestSchema_parse body = Ok r ->
        getBarcodeOptions (symbology r) (quietZone r) = Ok options ->
        bwipjs_toSVG options (contents r) = Ok out -> symbology r = ean13 ->
        getFontBase64 (record (ToSVG (contents r)) w) = (Ok f, w1) ->
        generateEAN13Barcode (contents r) (fontSize r) (offsetLeft r)
          (offsetMiddle r) (offsetRight r) w1 = (Throw e, w2) ->
        handler bwipjs_toSVG request w
        = (JsonErrorResponse (error_message e) 400,
           record (ConsoleError "Preview error:") w2))
  /\ (exists answer w', handler bwipjs_toSVG request w = (answer, w'))
  /\ (forall error status w',
        handler bwipjs_toSVG request w = (JsonErrorResponse error status, w') ->
        status = 400%Z)
  /\ (forall svg w', handler bwipjs_toSVG request w = (SvgResponse svg, w') ->
        exists body r options out,
          request_json request = Ok body /\ BarcodeRequestSchema_parse body = Ok r
          /\ getBarcodeOptions (symbology r) (quietZone r) = Ok options
          /\ bwipjs_toSVG options (contents r) = Ok out
          /\ (symbology r = ean13 ->
              exists w1, generateEAN13Barcode (contents r) (fontSize r) (offsetLeft r)
                           (offsetMiddle r) (offsetRight r) w1 = (Ok svg, w'))).
Proof.
  repeat split.
  - intros e H. unfold POST, POST_try, mbind, M_bind, lift. now rewrite H.
  - intros body e H1 H2. unfold POST, POST_try, mbind, M_bind, lift. now rewrite H1, H2.
  - intros body r e H1 H2 H3. unfold POST, POST_try, mbind, M_bind, lift.
    now rewrite H1, H2, H3.
  - intros body r options e H1 H2 H3 H4. unfold POST, POST_try, mbind, M_bind, lift, emit.
    now rewrite H1, H2, H3, H4.
  - intros body r options out f w1 e w2 H1 H2 H3 H4 Hsym Hfont Hgen.
    destruct (POST_ean13 bwipjs_toSVG request w body r options out H1 H2 H3 H4 Hsym)
      as (f' & w1' & Hfont' & Heq).
    rewrite Hfont in Hfont'. inversion Hfont'; subst f' w1'.
    now rewrite Heq, Hgen.
  - destruct (handler bwipjs_toSVG request w) as [answer w'] eqn:H. now exists answer, w'.
  - intros error status w' H. unfold POST in H.
    destruct (POST_try _ _ _ _ _ request w) as [[answer | e] w1] eqn:Htry.
    + inversion H; subst answer w1. exfalso.
      unfold POST_try, mbind, M_bind, lift, emit, mret, M_ret in Htry.
      repeat match type of Htry with
             | context [match ?x with _ => _ end] => destruct x; try discriminate Htry
             end.
    + now inversion H.
  - intros svg w' H.
    destruct (POST_svg_inv request w w' svg H)
      as (body & r & options & out & H1 & H2 & H3 & H4).
    exists body, r, options, out. repeat (split; [assumption |]).
    intros Hsym.
    destruct (POST_ean13_svg bwipjs_toSVG request w w' svg body r options out
                H1 H2 H3 H4 Hsym H) as (f & w1 & _ & Hgen).
    now exists w1.
Qed.

(** C9. On every request with symbology ean13 the library is called on
    the contents before the encoder is entered. When the library throws,
    the handler answers with status 400 and the message of what was thrown,
    and the encoder is not entered: the process shows the call of the
    library and the log of the error only. This holds whatever the contents
    are, those the encoder accepts included. When the option table throws,
    neither the library nor the encoder is reached. *)
Theorem library_runs_before_encoder (request : NextRequest) (w : world)
    (body : Json) (r : BarcodeRenderRequest) :
  request_json request = Ok body -> BarcodeRequestSchema_parse body = Ok r ->
  symbology r = ean13 ->
  (forall options e,
     getBarcodeOptions (symbology r) (quietZone r) = Ok options ->
     bwipjs_toSVG options (contents r) = Throw e ->
     handler bwipjs_toSVG request w
     = (JsonErrorResponse (error_message e) 400,
        record (ConsoleError "Preview error:") (record (ToSVG (contents r)) w))
     /\ trace (handler bwipjs_toSVG request w).2
        = [ConsoleError "Preview error:"; ToSVG (contents r)] ++ trace w)
  /\ (forall options out,
        getBarcodeOptions (symbology r) (quietZone r) = Ok options ->
        bwipjs_toSVG options (contents r) = Ok out ->
        exists newer between,
          trace (handler bwipjs_toSVG request w).2
          = newer ++ Generate (contents r) :: between ++ ToSVG (contents r) :: trace w
          /\ forall text, Generate text ∉ between)
  /\ (forall e,
        getBarcodeOptions (symbology r) (quietZone r) = Throw e ->
        trace (handler bwipjs_toSVG request w).2
        = [ConsoleError "Preview error:"] ++ trace w).
Proof.
  intros Hjson Hparse Hsym. split; [| split].
  - intros options e Hopt Hlib.
    assert (H : handler bwipjs_toSVG request w
                = (JsonErrorResponse (error_message e) 400,
                   record (ConsoleError "Preview error:") (record (ToSVG (contents r)) w))).
    { unfold POST, POST_try, mbind, M_bind, lift, emit.
      now rewrite Hjson, Hparse, Hopt, Hlib. }
    split; [exact H | now rewrite H].
  - intros options out Hopt Hlib.
    destruct (POST_ean13 bwipjs_toSVG request w body r options out
                Hjson Hparse Hopt Hlib Hsym) as (f & w1 & Hfont & Heq).
    destruct (getFontBase64_trace _ _ _ Hfont) as (between & Hbetween & Hfree).
    destruct (generateEAN13Barcode (contents r) (fontSize r) (offsetLeft r)
                (offsetMiddle r) (offsetRight r) w1) as [res w2] eqn:Hgen.
    destruct (generateEAN13Barcode_trace _ _ _ _ _ _ _ _ Hgen) as (t & Ht).
    rewrite Heq. destruct res as [doc | err].
    + exists t, between. split; [| exact Hfree].
      cbn [snd]. rewrite Ht, Hbetween. reflexivity.
    + exists (ConsoleError "Preview error:" :: t), between. split; [| exact Hfree].
      cbn [snd record trace]. rewrite Ht, Hbetween. reflexivity.
  - intros e Hopt. unfold POST, POST_try, mbind, M_bind, lift, emit.
    now rewrite Hjson, Hparse, Hopt.
Qed.

End EndpointProperties.

Lemma ean13_response_is_encoder_output_witness :
  exists svg w',
    POST example_request_json example_parse example_options drawing_library
      example_addCenterText "8809560223070" readable_font = (SvgResponse svg, w')
    /\ (exists f w1,
          getFontBase64 (record (ToSVG "8809560223070") readable_font) = (Ok f, w1)
          /\ generateEAN13Barcode "8809560223070" (Some 31%Z) (Some 0%Z) (Some 0%Z)
               (Some 0%Z) w1 = (Ok svg, w'))
    /\ (forall (library : unit -> string -> result string) options out,
          example_options ean13 (Some 10%Z) = Ok options ->
          library options "8809560223070" = Ok out ->
          POST example_request_json example_parse example_options library
            example_addCenterText "8809560223070" readable_font = (SvgResponse svg, w')).
Proof.
  eexists. eexists.
  assert (H : forall x y,
    POST example_request_json example_parse example_options drawing_library
      example_addCenterText "8809560223070" readable_font = (SvgResponse x, y) ->
    POST example_request_json example_parse example_options drawing_library
      example_addCenterText "8809560223070" readable_font = (SvgResponse x, y)
    /\ (exists f w1,
          getFontBase64 (record (ToSVG "8809560223070") readable_font) = (Ok f, w1)
          /\ generateEAN13Barcode "8809560223070" (Some 31%Z) (Some 0%Z) (Some 0%Z)
               (Some 0%Z) w1 = (Ok x, y))
    /\ (forall (library : unit -> string -> result string) options out,
          example_options ean13 (Some 10%Z) = Ok options ->
          library options "8809560223070" = Ok out ->
          POST example_request_json example_parse example_options library
            example_addCenterText "8809560223070" readable_font = (SvgResponse x, y))).
  { intros x y Hpost. split; [exact Hpost |].
    exact (ean13_response_is_encoder_output example_request_json example_parse
             example_options drawing_library example_addCenterText
             "8809560223070" readable_font y x "8809560223070" _
             eq_refl eq_refl eq_refl Hpost). }
  apply H. vm_compute. reflexivity.
Defined.

Lemma failure_is_error_400_witness :
  example_request_json EmptyString = Throw (JsError "Unexpected end of JSON input")
  /\ POST example_request_json example_parse example_options drawing_library
       example_addCenterText EmptyString readable_font
     = (JsonErrorResponse "Unexpected end of JSON input" 400,
        record (ConsoleError "Preview error:") readable_font).
Proof.
  split; [reflexivity |].
  exact (proj1 (failure_is_error_400 example_request_json example_parse example_options
                  drawing_library example_addCenterText EmptyString readable_font)
           _ eq_refl).
Defined.

Lemma library_runs_before_encoder_witness :
  example_request_json "8809560223071" = Ok "8809560223071"
  /\ symbology {| contents := "8809560223071"; symbology := ean13; quietZone := Some 10%Z;
                  fontSize := Some 31%Z; offsetLeft := Some 0%Z; offsetMiddle := Some 0%Z;
                  offsetRight := Some 0%Z |} = ean13
  /\ rejecting_library tt "8809560223071"
     = Throw (JsError "bwipp.ean13badCheckDigit: Incorrect EAN-13 check digit provided")
  /\ (exists doc w',
        generateEAN13Barcode "8809560223071" (Some 31%Z) (Some 0%Z) (Some 0%Z) (Some 0%Z)
          readable_font = (Ok doc, w'))
  /\ POST example_request_json example_parse example_options rejecting_library
       example_addCenterText "8809560223071" readable_font
     = (JsonErrorResponse
          "bwipp.ean13badCheckDigit: Incorrect EAN-13 check digit provided" 400,
        record (ConsoleError "Preview error:")
          (record (ToSVG "8809560223071") readable_font)).
Proof.
  split; [reflexivity |]. split; [reflexivity |]. split; [reflexivity |].
  split; [eexists _, _; vm_compute; reflexivity |].
  exact (proj1 (proj1 (library_runs_before_encoder example_request_json example_parse
                         example_options rejecting_library example_addCenterText
                         "8809560223071" readable_font "8809560223071" _
                         eq_refl eq_refl eq_refl) tt _ eq_refl eq_refl)).
Defined.

(** ** What the claims say of the batch list *)

Lemma handleAddBarcode_refused (now : Z) (barcodes : list BarcodeItem) :
  length barcodes = MAX_BARCODES -> handleAddBarcode now barcodes = barcodes.
Proof.
  intros H. unfold handleAddBarcode.
  destruct (decide (MAX_BARCODES <= length barcodes)); [reflexivity | lia].
Qed.

Lemma handleDeleteBarcode_refused (id : string) (barcodes : list BarcodeItem) :
  length barcodes = 1 -> handleDeleteBarcode id barcodes = barcodes.
Proof.
  intros H. unfold handleDeleteBarcode.
  destruct (decide (length barcodes <= 1)); [reflexivity | lia].
Qed.

(** No handler makes the list longer than the maximum. *)
Lemma step_length_le (barcodes : list BarcodeItem) (a : action) :
  length barcodes <= MAX_BARCODES -> length (step barcodes a) <= MAX_BARCODES.
Proof.
  intros H. destruct a as [now | id | id updates | id | | id r | results]; simpl.
  - unfold handleAddBarcode.
    destruct (decide (MAX_BARCODES <= length barcodes)); [exact H |].
    rewrite length_app. simpl. lia.
  - unfold handleDeleteBarcode.
    destruct (decide (length barcodes <= 1)); [exact H |].
    pose proof (length_filter (fun b => Item.id b ≠ id) barcodes). lia.
  - unfold handleUpdateBarcode. now rewrite length_fmap.
  - unfold handleToggleSelect. now rewrite length_fmap.
  - unfold handleSelectAll. now rewrite length_fmap.
  - unfold handleGenerateOne. destruct (list_find _ barcodes); [| exact H].
    now rewrite length_fmap.
  - unfold handleGenerateAll. now rewrite length_fmap.
Qed.

Lemma run_length_le (actions : list action) : length (run actions) <= MAX_BARCODES.
Proof.
  unfold run.
  assert (H : forall l, length l <= MAX_BARCODES ->
                length (foldl step l actions) <= MAX_BARCODES).
  { induction actions as [|a actions IH]; intros l Hl; [exact Hl |].
    simpl. apply IH. now apply step_length_le. }
  apply H. unfold initial_barcodes, MAX_BARCODES. simpl. lia.
Qed.

(** Deleting keeps an item when the ids of the list differ from each
    other. *)
Lemma handleDeleteBarcode_distinct (id : string) (barcodes : list BarcodeItem) :
  NoDup (Item.id <$> barcodes) -> 1 <= length barcodes ->
  1 <= length (handleDeleteBarcode id barcodes).
Proof.
  intros Hnd Hlen. unfold handleDeleteBarcode.
  destruct (decide (length barcodes <= 1)) as [_ | Hgt]; [exact Hlen |].
  destruct barcodes as [|a [|b rest]]; simpl in Hgt; try lia.
  apply NoDup_cons in Hnd as [Hab _].
  assert (Hne : Item.id a ≠ Item.id b) by (intros E; apply Hab; rewrite E; left).
  destruct (decide (Item.id a = id)) as [Ha | Ha].
  - rewrite filter_cons_False by (intros H; now apply H).
    rewrite filter_cons_True by congruence. simpl. lia.
  - rewrite filter_cons_True by exact Ha. simpl. lia.
Qed.

Lemma fmap_same_ids (f : BarcodeItem -> BarcodeItem) (barcodes : list BarcodeItem) :
  (forall b, Item.id (f b) = Item.id b) ->
  Item.id <$> (f <$> barcodes) = Item.id <$> barcodes.
Proof.
  intros Hf. rewrite <- list_fmap_compose. apply list_fmap_ext. intros i b _. apply Hf.
Qed.

(** While the ids stay distinct every handler keeps at least one item. *)
Lemma step_keeps_one (barcodes : list BarcodeItem) (a : action) :
  keeps_ids_distinct barcodes a ->
  NoDup (Item.id <$> barcodes) -> 1 <= length barcodes ->
  NoDup (Item.id <$> step barcodes a) /\ 1 <= length (step barcodes a).
Proof.
  intros Hfresh Hnd Hlen.
  destruct a as [now | id | id updates | id | | id r | results]; simpl in *.
  - unfold handleAddBarcode.
    destruct (decide (MAX_BARCODES <= length barcodes)); [now split |].
    rewrite fmap_app, length_app. split; [| lia].
    apply NoDup_app. split; [exact Hnd |]. split; [| apply NoDup_singleton].
    intros x Hx Hx'. apply list_elem_of_singleton in Hx'. subst x. now apply Hfresh.
  - split; [| now apply handleDeleteBarcode_distinct].
    unfold handleDeleteBarcode. destruct (decide (length barcodes <= 1)); [exact Hnd |].
    apply (sublist_NoDup _ (Item.id <$> barcodes)); [exact Hnd |].
    apply fmap_sublist, sublist_filter.
  - unfold handleUpdateBarcode. rewrite fmap_same_ids, length_fmap; [now split |].
    intros b. destruct (decide (Item.id b = id)); [| reflexivity].
    unfold spread. cbn [Item.id]. now rewrite Hfresh.
  - unfold handleToggleSelect. rewrite fmap_same_ids, length_fmap; [now split |].
    intros b. now destruct (decide (Item.id b = id)).
  - unfold handleSelectAll. rewrite fmap_same_ids, length_fmap; [now split |].
    reflexivity.
  - unfold handleGenerateOne. destruct (list_find _ barcodes); [| now split].
    rewrite fmap_same_ids, length_fmap; [now split |].
    intros b. now destruct (decide (Item.id b = id)).
  - unfold handleGenerateAll. rewrite fmap_same_ids, length_fmap; [now split |].
    intros b. now destruct (list_find _ results) as [[? [? ?]]|].
Qed.

(** From the initial list, between 1 and the maximum of items are kept as
    long as the ids stay distinct. *)
Lemma run_bounds_when_distinct (actions : list action) :
  all_keep_ids_distinct initial_barcodes actions ->
  1 <= length (run actions) /\ length (run actions) <= MAX_BARCODES.
Proof.
  intros Hall. split; [| apply run_length_le]. unfold run.
  assert (H : forall l, all_keep_ids_distinct l actions ->
                NoDup (Item.id <$> l) -> 1 <= length l ->
                1 <= length (foldl step l actions)).
  { clear Hall.
    induction actions as [|a actions IH]; intros l Hl Hnd Hlen; [exact Hlen |].
    destruct Hl as [Ha Hrest]. simpl.
    destruct (step_keeps_one l a Ha Hnd Hlen) as [Hnd' Hlen'].
    now apply IH. }
  apply H; [exact Hall | | simpl; lia].
  simpl. apply NoDup_singleton.
Qed.

(** C10 at the failing input: two items added at the same value of the
    clock have the same id, deleting that id removes both, and after the
    first item is deleted too the list is empty. *)
Theorem batch_list_emptied :
  run emptying_actions = []
  /\ length (run (take 3 emptying_actions)) = 2
  /\ Item.id <$> run (take 3 emptying_actions) = ["1700000000000"; "1700000000000"].
Proof. repeat split; vm_compute; reflexivity. Qed.

(** ** What the claims say of the archive *)

(** What [filenameCount] holds after the items whose base names are
    [seen]: nothing for a name not seen, and the number of later
    occurrences for a name seen. *)
Lemma zip_step_names (vars : zip_vars) (seen : list string) (items : list BarcodeItem) :
  (forall base, filenameCount vars !! (base +:+ ".svg")
                = match Spec.occurrences base seen with
                  | O => None
                  | S k => Some k
                  end) ->
  added (foldl zip_step vars items) = added vars ++ Spec.filenames seen items.
Proof.
  revert vars seen. induction items as [|item items IH]; intros vars seen Hinv.
  - simpl. now rewrite app_nil_r.
  - cbn [foldl Spec.filenames]. unfold zip_step at 2. unfold has_svgData at 1 2.
    destruct (Item.svgData item) as [data|] eqn:Hdata; [| now apply IH].
    destruct (truthy data && negb (blank data)); [| now apply IH].
    fold (Spec.base_name item). rewrite (Hinv (Spec.base_name item)).
    assert (Hstep : forall (fc : gmap string nat) k,
      fc !! (Spec.base_name item +:+ ".svg") = Some k ->
      (forall base, base ≠ Spec.base_name item ->
         fc !! (base +:+ ".svg") = filenameCount vars !! (base +:+ ".svg")) ->
      Spec.occurrences (Spec.base_name item) (Spec.base_name item :: seen) = S k ->
      forall base, fc !! (base +:+ ".svg")
                   = match Spec.occurrences base (Spec.base_name item :: seen) with
                     | O => None
                     | S k => Some k
                     end).
    { intros fc k Hhere Hother Hocc base.
      destruct (decide (base = Spec.base_name item)) as [-> | Hne].
      - now rewrite Hhere, Hocc.
      - rewrite (Hother base Hne), Hinv. unfold Spec.occurrences.
        rewrite filter_cons_False by congruence. reflexivity. }
    assert (Hocc : Spec.occurrences (Spec.base_name item) (Spec.base_name item :: seen)
                   = S (Spec.occurrences (Spec.base_name item) seen)).
    { unfold Spec.occurrences. now rewrite filter_cons_True by reflexivity. }
    assert (Hkey : forall base n, base ≠ Spec.base_name item ->
      <[Spec.base_name item +:+ ".svg" := n]> (filenameCount vars) !! (base +:+ ".svg")
      = filenameCount vars !! (base +:+ ".svg")).
    { intros base n Hne. apply lookup_insert_ne. intros E. apply Hne. symmetry.
      exact (append_inj_r _ _ _ E). }
    destruct (Spec.occurrences (Spec.base_name item) seen) as [|k] eqn:Hk.
    + rewrite (IH _ (Spec.base_name item :: seen)).
      * cbn [added]. now rewrite <- app_assoc.
      * cbn [filenameCount]. apply (Hstep _ 0); [apply lookup_insert_eq | | exact Hocc].
        intros base Hne. now apply Hkey.
    + rewrite (IH _ (Spec.base_name item :: seen)).
      * cbn [added]. rewrite <- app_assoc. now rewrite Nat.add_1_r.
      * cbn [filenameCount]. apply (Hstep _ (S k)); [| | exact Hocc].
        -- rewrite Nat.add_1_r. apply lookup_insert_eq.
        -- intros base Hne. now apply Hkey.
Qed.

(** The loop names the files as specified: the first occurrence of a base
    name keeps it and the [k]-th later one gets the suffix [_k]. *)
Lemma zip_loop_filenames (items : list BarcodeItem) :
  added (zip_loop items) = Spec.filenames [] items.
Proof.
  unfold zip_loop. rewrite (zip_step_names _ [] items); [reflexivity |].
  intros base. cbn [filenameCount]. apply lookup_empty.
Qed.

(** C8 at the failing input: the second item with contents A and the item
    with contents A_1 get the same filename, and the archive holds two
    files for three items, the second item's data being overwritten. *)
Theorem zip_filenames_collide :
  added (zip_loop colliding_items)
  = ["code128_A.svg"; "code128_A_1.svg"; "code128_A_1.svg"]
  /\ Forall (fun b => has_svgData b = true) colliding_items
  /\ handleDownloadZip false colliding_items = Some (zip_files (zip_loop colliding_items))
  /\ size (zip_files (zip_loop colliding_items)) = 2
  /\ zip_files (zip_loop colliding_items) !! "code128_A.svg" = Some "<svg>first</svg>"
  /\ zip_files (zip_loop colliding_items) !! "code128_A_1.svg" = Some "<svg>third</svg>".
Proof.
  split; [vm_compute; reflexivity |].
  split; [repeat constructor |].
  repeat split; vm_compute; reflexivity.
Qed.

(** ** Reading the bit string back *)

Lemma take7_app (code rest : string) :
  String.length code = 7 -> take7 (code +:+ rest) = Some (code, rest).
Proof.
  intros H.
  destruct code as [|? [|? [|? [|? [|? [|? [|? [|? ?]]]]]]]]; try discriminate H.
  reflexivity.
Qed.

Lemma decode_group_chunks {X : Type} (decode : string -> option X)
    (chunks : list string) (xs : list X) (rest : string) :
  Forall2 (fun c x => String.length c = 7 /\ decode c = Some x) chunks xs ->
  decode_group decode (length chunks) (foldr String.append rest chunks) = Some (xs, rest).
Proof.
  induction 1 as [|c x chunks xs [Hlen Hdec] _ IH]; [reflexivity |].
  cbn [length foldr decode_group]. rewrite (take7_app c _ Hlen), Hdec, IH. reflexivity.
Qed.

Lemma concat_append (chunks : list string) (rest : string) :
  Spec.concat chunks +:+ rest = foldr String.append rest chunks.
Proof.
  unfold Spec.concat. induction chunks as [|c chunks IH]; [reflexivity |].
  cbn [foldr]. now rewrite append_assoc, IH.
Qed.

Lemma digit_char_value (c : ascii) :
  is_digit c = true -> digit_char (nat_of_ascii c - nat_of_ascii "0") = c.
Proof. revert c. apply digit_chars_inv; reflexivity. Qed.

Lemma decode_codes (c : ascii) :
  is_digit c = true ->
  decode_left (Spec.code Spec.L_codes (nat_of_ascii c - nat_of_ascii "0"))
  = Some ("L"%char, nat_of_ascii c - nat_of_ascii "0")
  /\ decode_left (Spec.code Spec.G_codes (nat_of_ascii c - nat_of_ascii "0"))
     = Some ("G"%char, nat_of_ascii c - nat_of_ascii "0")
  /\ decode_right (Spec.code Spec.R_codes (nat_of_ascii c - nat_of_ascii "0"))
     = Some (nat_of_ascii c - nat_of_ascii "0").
Proof. revert c. apply digit_chars_inv; repeat split; vm_compute; reflexivity. Qed.

(** A left code read back gives the parity letter of its position and the
    digit of the text. *)
Lemma decode_left_code (text : string) (i : nat) (c0 c : ascii) :
  char_at text 0 = Some c0 -> is_digit c0 = true ->
  char_at text (i + 1) = Some c -> is_digit c = true -> i < 6 ->
  String.length (Spec.left_code text i) = 7
  /\ decode_left (Spec.left_code text i)
     = Some (default "L"%char (Spec.parity text i), Spec.digit text (i + 1)).
Proof.
  intros H0 Hc0 Hi Hc Hlt.
  split; [exact (proj2 (left_group_step_spec text i EmptyString c0 c H0 Hc0 Hi Hc Hlt)) |].
  destruct (decode_codes c Hc) as (HL & HG & _).
  unfold Spec.left_code, Spec.parity, Spec.digit.
  change (String.get 0 text) with (char_at text 0).
  change (String.get (i + 1) text) with (char_at text (i + 1)).
  rewrite H0, Hi.
  generalize dependent (Spec.code Spec.L_codes (nat_of_ascii c - nat_of_ascii "0")).
  generalize dependent (Spec.code Spec.G_codes (nat_of_ascii c - nat_of_ascii "0")).
  generalize (nat_of_ascii c - nat_of_ascii "0").
  intros d g HG l HL. clear H0 Hi Hc.
  revert c0 Hc0. apply digit_chars_inv;
    (do 6 (destruct i as [|i]; [first [exact HL | exact HG] |])); lia.
Qed.

Lemma decode_right_code (text : string) (i : nat) (c : ascii) :
  char_at text i = Some c -> is_digit c = true ->
  String.length (Spec.right_code text i) = 7
  /\ decode_right (Spec.right_code text i) = Some (Spec.digit text i).
Proof.
  intros Hi Hc. destruct tables_seven as (_ & _ & HR).
  unfold Spec.right_code, Spec.digit. unfold char_at in Hi. rewrite Hi.
  split; [now apply code_length | apply (decode_codes c Hc)].
Qed.

Lemma string_of_digits (text : string) :
  all_digits text = true ->
  string_of_chars (digit_char <$> (Spec.digit text <$> seq 0 (String.length text))) = text.
Proof.
  induction text as [|c text IH]; intros Hall; [reflexivity |].
  simpl in Hall. apply andb_true_iff in Hall as [Hc Hrest].
  cbn [String.length seq fmap list_fmap string_of_chars].
  unfold Spec.digit at 1. cbn [String.get]. rewrite (digit_char_value c Hc). f_equal.
  etransitivity; [| exact (IH Hrest)]. do 2 f_equal.
  rewrite <- fmap_S_seq, <- list_fmap_compose. apply list_fmap_ext.
  intros i n _. reflexivity.
Qed.

(** The parity letters of the six left positions spell the pattern of the
    leading digit, which is found back in the table. *)
Lemma parity_letters (text : string) (c0 : ascii) :
  char_at text 0 = Some c0 -> is_digit c0 = true ->
  index_of (string_of_chars ((fun i => default "L"%char (Spec.parity text i))
                               <$> [0; 1; 2; 3; 4; 5]))
    EAN13_FIRST_DIGIT_PATTERNS
  = Some (Spec.digit text 0).
Proof.
  intros H0 Hc0. unfold Spec.parity, Spec.digit.
  change (String.get 0 text) with (char_at text 0). rewrite H0. clear H0.
  revert c0 Hc0. apply digit_chars_inv; vm_compute; reflexivity.
Qed.

(** The bit string of thirteen digits is read back as those digits. *)
Lemma decode_bits_spec (text : string) :
  String.length text = 13 -> all_digits text = true ->
  decode_bits (Spec.bits text) = Some text.
Proof.
  intros Hlen Hall.
  assert (Hget : forall i, i < 13 -> exists c, char_at text i = Some c /\ is_digit c = true).
  { intros i Hi. apply all_digits_get; [assumption | lia]. }
  destruct (Hget 0 ltac:(lia)) as (c0 & H0 & Hc0).
  assert (HL : Forall2 (fun c x => String.length c = 7 /\ decode_left c = Some x)
                 (Spec.left_code text <$> [0; 1; 2; 3; 4; 5])
                 ((fun i => (default "L"%char (Spec.parity text i), Spec.digit text (i + 1)))
                    <$> [0; 1; 2; 3; 4; 5])).
  { apply Forall2_fmap, Forall_Forall2_diag, Forall_forall. intros i Hi.
    assert (Hlt : i < 6).
    { repeat (apply elem_of_cons in Hi as [-> | Hi]; [lia |]). now apply elem_of_nil in Hi. }
    destruct (Hget (i + 1) ltac:(lia)) as (c & Hc & Hd).
    exact (decode_left_code text i c0 c H0 Hc0 Hc Hd Hlt). }
  assert (HR : Forall2 (fun c x => String.length c = 7 /\ decode_right c = Some x)
                 (Spec.right_code text <$> [7; 8; 9; 10; 11; 12])
                 (Spec.digit text <$> [7; 8; 9; 10; 11; 12])).
  { apply Forall2_fmap, Forall_Forall2_diag, Forall_forall. intros i Hi.
    assert (Hlt : i < 13).
    { repeat (apply elem_of_cons in Hi as [-> | Hi]; [lia |]). now apply elem_of_nil in Hi. }
    destruct (Hget i Hlt) as (c & Hc & Hd).
    exact (decode_right_code text i c Hc Hd). }
  unfold decode_bits, Spec.bits.
  rewrite strip_prefix_app, concat_append.
  pose proof (decode_group_chunks decode_left _ _
                ("01010" +:+ Spec.concat (Spec.right_code text <$> [7; 8; 9; 10; 11; 12])
                   +:+ "101") HL) as HdL.
  rewrite length_fmap in HdL. cbn [length] in HdL. rewrite HdL.
  rewrite strip_prefix_app, concat_append.
  pose proof (decode_group_chunks decode_right _ _ "101" HR) as HdR.
  rewrite length_fmap in HdR. cbn [length] in HdR. rewrite HdR.
  rewrite decide_True by reflexivity.
  rewrite <- list_fmap_compose.
  change (fst ∘ (fun i => (default "L"%char (Spec.parity text i), Spec.digit text (i + 1))))
    with (fun i => default "L"%char (Spec.parity text i)).
  rewrite (parity_letters text c0 H0 Hc0). f_equal.
  etransitivity; [| exact (string_of_digits text Hall)]. rewrite Hlen. reflexivity.
Qed.

(** X1. Round trip: for every string of 13 digits, the bit string the
    encoder builds is read back, by looking its codes up in the encoder's
    own tables, as those 13 digits: the encoder loses no digit and changes
    no order. *)
Theorem ean13_bits_read_back (text : string) :
  String.length text = 13 -> all_digits text = true ->
  exists bits, barcodeBits text = Ok bits /\ decode_bits bits = Some text.
Proof.
  intros Hlen Hall. exists (Spec.bits text).
  split; [exact (proj1 (barcodeBits_spec text Hlen Hall)) | now apply decode_bits_spec].
Qed.

Lemma ean13_bits_read_back_witness :
  String.length "8809560223070" = 13 /\ all_digits "8809560223070" = true
  /\ exists bits, barcodeBits "8809560223070" = Ok bits
       /\ decode_bits bits = Some "8809560223070".
Proof.
  split; [reflexivity |]. split; [reflexivity |].
  exact (ean13_bits_read_back "8809560223070" eq_refl eq_refl).
Defined.

(** X2. Two different strings of 13 digits never get the same bit string
    (and so never the same bars). *)
Theorem ean13_bits_injective (text1 text2 : string) :
  String.length text1 = 13 -> all_digits text1 = true ->
  String.length text2 = 13 -> all_digits text2 = true ->
  barcodeBits text1 = barcodeBits text2 -> text1 = text2.
Proof.
  intros Hlen1 Hall1 Hlen2 Hall2 Heq.
  rewrite (proj1 (barcodeBits_spec text1 Hlen1 Hall1)),
    (proj1 (barcodeBits_spec text2 Hlen2 Hall2)) in Heq.
  assert (Hbits : Spec.bits text1 = Spec.bits text2).
  { apply (f_equal (fun r => match r with Ok b => b | Throw _ => EmptyString end)) in Heq.
    exact Heq. }
  pose proof (decode_bits_spec text1 Hlen1 Hall1) as H1.
  rewrite Hbits, (decode_bits_spec text2 Hlen2 Hall2) in H1.
  congruence.
Qed.

Lemma ean13_bits_injective_witness :
  String.length "8809560223070" = 13 /\ all_digits "8809560223070" = true
  /\ barcodeBits "8809560223070" = barcodeBits "8809560223070"
  /\ "8809560223070" = "8809560223070".
Proof.
  split; [reflexivity |]. split; [reflexivity |]. split; [reflexivity |].
  exact (ean13_bits_injective "8809560223070" "8809560223070"
           eq_refl eq_refl eq_refl eq_refl eq_refl).
Defined.

(** ** Characters that are no digits *)

(** What a character contributes to the bit string: a code of seven bits
    for a digit, the nine characters of the text undefined otherwise. *)
Lemma code_text_length (table : list string) (c : ascii) :
  Forall (fun s => String.length s = 7) table -> length table = 10 ->
  String.length (to_text (array_at table (parseInt (Some c)))) = 7 + 2 * non_digit c.
Proof.
  intros Hall Hlen. unfold non_digit, parseInt.
  destruct (is_digit c) eqn:Hc; [| reflexivity].
  cbn [array_at].
  assert (Hlt : nat_of_ascii c - 48 < length table).
  { rewrite Hlen. revert c Hc. apply digit_chars_inv; vm_compute; lia. }
  destruct (lookup_lt_is_Some_2 table _ Hlt) as [s Hs]. rewrite Hs. cbn [to_text].
  rewrite Nat.mul_0_r, Nat.add_0_r.
  eapply Forall_lookup_1 in Hall; [exact Hall | exact Hs].
Qed.

Lemma left_group_step_length (text p : string) (i : nat) (bits : string) (c : ascii) :
  char_at text (i + 1) = Some c ->
  exists code, left_group_step text (Some p) i bits = Ok (bits +:+ code)
    /\ String.length code = 7 + 2 * non_digit c.
Proof.
  intros Hc. destruct tables_seven as (HL & HG & _).
  unfold left_group_step. rewrite Hc. destruct (decide _); eexists; (split; [reflexivity |]).
  - exact (code_text_length EAN13_L_CODES c HL eq_refl).
  - exact (code_text_length EAN13_G_CODES c HG eq_refl).
Qed.

Lemma right_group_step_length (text : string) (i : nat) (bits : string) (c : ascii) :
  char_at text (i + 7) = Some c ->
  exists code, right_group_step text i bits = Ok (bits +:+ code)
    /\ String.length code = 7 + 2 * non_digit c.
Proof.
  intros Hc. destruct tables_seven as (_ & _ & HR).
  unfold right_group_step. rewrite Hc. eexists. split; [reflexivity |].
  exact (code_text_length EAN13_R_CODES c HR eq_refl).
Qed.

(** The length of the bit string of contents with a leading digit. *)
Lemma barcodeBits_length (text : string) (c0 : ascii) :
  String.length text = 13 -> char_at text 0 = Some c0 -> is_digit c0 = true ->
  exists bits, barcodeBits text = Ok bits
    /\ String.length bits = 95 + 2 * non_digits (after_first text).
Proof.
  intros Hlen H0 Hc0.
  do 13 (destruct text as [|? text]; [discriminate Hlen |]).
  destruct text; [| discriminate Hlen]. clear Hlen.
  cbn in H0. inversion H0; subst c0. clear H0.
  assert (Hp : exists p, array_at EAN13_FIRST_DIGIT_PATTERNS (parseInt (Some a)) = Some p).
  { revert a Hc0. apply digit_chars_inv; eexists; reflexivity. }
  destruct Hp as [p Hp].
  unfold barcodeBits. cbv zeta. cbn [char_at String.get]. rewrite Hp.
  unfold for_loop, mbind, result_bind.
  do 6 (match goal with
        | |- context [left_group_step ?t (Some p) ?i ?b] =>
            let code := fresh "code" in
            let Hcode := fresh "Hcode" in
            let Hlen := fresh "Hlen" in
            destruct (left_group_step_length t p i b _ eq_refl) as (code & Hcode & Hlen);
            rewrite Hcode; cbv beta iota
        end).
  do 6 (match goal with
        | |- context [right_group_step ?t ?i ?b] =>
            let code := fresh "code" in
            let Hcode := fresh "Hcode" in
            let Hlen := fresh "Hlen" in
            destruct (right_group_step_length t i b _ eq_refl) as (code & Hcode & Hlen);
            rewrite Hcode; cbv beta iota
        end).
  eexists. split; [reflexivity |].
  rewrite !length_append. unfold after_first. cbn [String.substring non_digits String.length].
  lia.
Qed.

Lemma pattern_of_digit (c0 : ascii) :
  is_digit c0 = true ->
  array_at EAN13_FIRST_DIGIT_PATTERNS (parseInt (Some c0))
  = Some (Spec.code Spec.parity_patterns (nat_of_ascii c0 - nat_of_ascii "0")).
Proof. revert c0. apply digit_chars_inv; reflexivity. Qed.

(** What a table read contributes to the bit string. *)
Lemma code_or_undefined_text (table : list string) (text : string) (i : nat) :
  length table = 10 ->
  to_text (array_at table (parseInt (char_at text i))) = code_or_undefined table text i.
Proof.
  intros Hlen. unfold code_or_undefined, Spec.digit.
  change (String.get i text) with (char_at text i).
  destruct (char_at text i) as [c |]; [| reflexivity].
  destruct (is_digit c) eqn:Hc; [now apply code_of_digit |].
  unfold parseInt. now rewrite Hc.
Qed.

Lemma left_group_step_undefined (text : string) (c0 : ascii) (i : nat) (bits : string) :
  char_at text 0 = Some c0 -> is_digit c0 = true ->
  left_group_step text
    (array_at EAN13_FIRST_DIGIT_PATTERNS (parseInt (char_at text 0))) i bits
  = Ok (bits +:+ code_or_undefined (left_table text i) text (i + 1)).
Proof.
  intros H0 Hc0. unfold left_group_step, left_table, Spec.parity, Spec.digit.
  change (String.get 0 text) with (char_at text 0).
  rewrite H0, (pattern_of_digit c0 Hc0).
  change (char_at (Spec.code Spec.parity_patterns (nat_of_ascii c0 - nat_of_ascii "0")) i)
    with (String.get i (Spec.code Spec.parity_patterns (nat_of_ascii c0 - nat_of_ascii "0"))).
  destruct (decide (String.get i _ = Some "L"%char)).
  - now rewrite (code_or_undefined_text EAN13_L_CODES text (i + 1) eq_refl).
  - now rewrite (code_or_undefined_text EAN13_G_CODES text (i + 1) eq_refl).
Qed.

Lemma right_group_step_undefined (text : string) (i : nat) (bits : string) :
  right_group_step text i bits = Ok (bits +:+ code_or_undefined Spec.R_codes text (i + 7)).
Proof.
  unfold right_group_step.
  now rewrite (code_or_undefined_text EAN13_R_CODES text (i + 7) eq_refl).
Qed.

(** X3. For every 13-character input whose first character is a digit the
    encoder builds a bit string without throwing, whatever the other twelve
    characters are: the guards, and for each of the twelve the code of its
    digit, or, when it is no digit, the nine characters of the text
    undefined in place of the seven bits. The bit string so has 95
    characters plus two for every character that is no digit, and it is
    the specified one when all thirteen are digits. *)
Theorem ean13_bits_of_non_digits (text : string) (c0 : ascii) :
  String.length text = 13 -> char_at text 0 = Some c0 -> is_digit c0 = true ->
  barcodeBits text = Ok (bits_with_undefined text)
  /\ String.length (bits_with_undefined text) = 95 + 2 * non_digits (after_first text)
  /\ (all_digits text = true -> bits_with_undefined text = Spec.bits text).
Proof.
  intros Hlen H0 Hc0.
  assert (Hbits : barcodeBits text = Ok (bits_with_undefined text)).
  { unfold barcodeBits. cbv zeta. unfold for_loop, mbind, result_bind.
    do 6 (match goal with
          | |- context [left_group_step text _ ?i ?b] =>
              rewrite (left_group_step_undefined text c0 i b H0 Hc0); cbv beta iota
          end).
    do 6 (match goal with
          | |- context [right_group_step text ?i ?b] =>
              rewrite (right_group_step_undefined text i b); cbv beta iota
          end).
    unfold bits_with_undefined, Spec.concat. simpl fmap. simpl foldr.
    rewrite !append_assoc. reflexivity. }
  split; [exact Hbits |]. split.
  - destruct (barcodeBits_length text c0 Hlen H0 Hc0) as (bits & Hb & Hl).
    rewrite Hbits in Hb. inversion Hb; subst bits. exact Hl.
  - intros Hall. destruct (barcodeBits_spec text Hlen Hall) as [Hspec _].
    rewrite Hbits in Hspec. congruence.
Qed.

Lemma ean13_bits_of_non_digits_witness :
  String.length "1A3456789 123" = 13 /\ char_at "1A3456789 123" 0 = Some "1"%char
  /\ is_digit "1" = true
  /\ barcodeBits "1A3456789 123" = Ok (bits_with_undefined "1A3456789 123")
  /\ bits_with_undefined "1A3456789 123"
     = "101" +:+ "undefined" +:+ "0111101" +:+ "0011101" +:+ "0110001" +:+ "0000101"
         +:+ "0010001" +:+ "01010" +:+ "1001000" +:+ "1110100" +:+ "undefined"
         +:+ "1100110" +:+ "1101100" +:+ "1000010" +:+ "101".
Proof.
  split; [reflexivity |]. split; [reflexivity |]. split; [reflexivity |].
  split; [| vm_compute; reflexivity].
  exact (proj1 (ean13_bits_of_non_digits "1A3456789 123" "1" eq_refl eq_refl eq_refl)).
Defined.

(** X4. For every 13-character input whose first character is no digit the
    encoder throws the TypeError of reading the undefined parity pattern,
    after the entry and before any font is loaded; the length error is not
    what is thrown. *)
Theorem ean13_leading_non_digit_throws (text : string) (c0 : ascii)
    (fontSize offsetLeft offsetMiddle offsetRight : option Z) (w : world) :
  String.length text = 13 -> char_at text 0 = Some c0 -> is_digit c0 = false ->
  generateEAN13Barcode text fontSize offsetLeft offsetMiddle offsetRight w
  = (Throw (JsTypeError "Cannot read properties of undefined (reading '0')"),
     record (ConsoleError "Error generating EAN13:") (record (Generate text) w)).
Proof.
  intros Hlen H0 Hc0.
  apply generateEAN13Barcode_bits_error; [exact Hlen |].
  apply barcodeBits_leading_other. rewrite H0. unfold parseInt. now rewrite Hc0.
Qed.

Lemma ean13_leading_non_digit_throws_witness :
  String.length " 809560223070" = 13 /\ char_at " 809560223070" 0 = Some " "%char
  /\ is_digit " " = false
  /\ generateEAN13Barcode " 809560223070" None None None None readable_font
     = (Throw (JsTypeError "Cannot read properties of undefined (reading '0')"),
        record (ConsoleError "Error generating EAN13:")
          (record (Generate " 809560223070") readable_font)).
Proof.
  split; [reflexivity |]. split; [reflexivity |]. split; [reflexivity |].
  exact (ean13_leading_non_digit_throws " 809560223070" " " None None None None
           readable_font eq_refl eq_refl eq_refl).
Defined.

(** ** Where the bars are *)

Lemma filter_seq_increasing (P : nat -> Prop) `{!forall i, Decision (P i)}
    (count start i j x y : nat) :
  filter P (seq start count) !! i = Some x ->
  filter P (seq start count) !! j = Some y -> i < j -> x < y.
Proof.
  revert start i j. induction count as [|count IH]; intros start i j Hi Hj Hlt;
    [discriminate Hi |].
  cbn [seq] in Hi, Hj. rewrite filter_cons in Hi, Hj.
  destruct (decide (P start)); [| exact (IH _ _ _ Hi Hj Hlt)].
  destruct j as [|j]; [lia |]. cbn in Hj.
  destruct i as [|i]; [| cbn in Hi; apply (IH (S start) i j Hi Hj); lia].
  cbn in Hi. inversion Hi; subst x.
  apply list_elem_of_lookup_2, list_elem_of_filter in Hj as [_ Hj].
  apply elem_of_seq in Hj. lia.
Qed.

Lemma bits_first_and_last (text : string) :
  String.length text = 13 -> all_digits text = true ->
  char_at (Spec.bits text) 0 = Some "1"%char /\ char_at (Spec.bits text) 94 = Some "1"%char.
Proof.
  intros Hlen Hall. split; [reflexivity |].
  pose proof (proj2 (barcodeBits_spec text Hlen Hall)) as H95.
  unfold Spec.bits in *. rewrite <- !append_assoc in *.
  rewrite length_append in H95. cbn [String.length] in H95.
  unfold char_at.
  match goal with
  | |- String.get 94 (?body +:+ "101") = _ =>
      replace 94 with (2 + String.length body) by lia;
      rewrite <- (String.append_correct2 body "101" 2)
  end.
  reflexivity.
Qed.

(** X5. For every string of 13 digits the bars of the path lie inside the
    canvas of 346 by 220: every bar has its x between 30 and 312, starts
    at y = 0 and ends at 165 or 200; the bars come from left to right, each
    at a greater x than the one before; and the outer bars of the start and
    end guards, at x = 30 and x = 312, are there and end at 200. *)
Theorem ean13_bars_inside_canvas (text : string) :
  String.length text = 13 -> all_digits text = true ->
  exists bits bars,
    barcodeBits text = Ok bits
    /\ pathSegments bits = Ok (Spec.segment <$> bars)
    /\ (forall b, b ∈ bars ->
          (30 <= Spec.bar_x b <= 312)%Z /\ Spec.bar_top b = 0%Z
          /\ (Spec.bar_bottom b = 165%Z \/ Spec.bar_bottom b = 200%Z))
    /\ (forall i j b1 b2, bars !! i = Some b1 -> bars !! j = Some b2 -> i < j ->
          (Spec.bar_x b1 < Spec.bar_x b2)%Z)
    /\ Spec.Bar 30 0 200 ∈ bars /\ Spec.Bar 312 0 200 ∈ bars.
Proof.
  intros Hlen Hall. destruct (barcodeBits_spec text Hlen Hall) as [Hbits H95].
  destruct (bits_first_and_last text Hlen Hall) as [Hfirst Hlast].
  exists (Spec.bits text), (Spec.bars (Spec.bits text)).
  split; [exact Hbits |]. split; [apply pathSegments_spec |].
  split; [| split; [| split]].
  - intros b Hb. unfold Spec.bars in Hb. apply list_elem_of_fmap in Hb as (i & -> & Hi).
    unfold Spec.ones in Hi. apply list_elem_of_filter in Hi as [_ Hi].
    apply elem_of_seq in Hi. rewrite H95 in Hi. unfold Spec.bar_at. cbn.
    split; [lia |]. split; [reflexivity |]. destruct (decide (Spec.guard i)); auto.
  - intros i j b1 b2 H1 H2 Hlt. unfold Spec.bars in H1, H2.
    rewrite list_lookup_fmap in H1, H2.
    destruct (Spec.ones (Spec.bits text) !! i) as [k1|] eqn:Hk1; [| discriminate H1].
    destruct (Spec.ones (Spec.bits text) !! j) as [k2|] eqn:Hk2; [| discriminate H2].
    cbn in H1, H2. inversion H1; inversion H2; subst. cbn.
    pose proof (filter_seq_increasing _ _ _ _ _ _ _ Hk1 Hk2 Hlt). lia.
  - apply bars_spec. exists 0. split; [exact Hfirst | reflexivity].
  - apply bars_spec. exists 94. split; [exact Hlast | reflexivity].
Qed.

Lemma ean13_bars_inside_canvas_witness :
  String.length "8809560223070" = 13 /\ all_digits "8809560223070" = true
  /\ exists bits bars,
       barcodeBits "8809560223070" = Ok bits
       /\ pathSegments bits = Ok (Spec.segment <$> bars)
       /\ Spec.Bar 30 0 200 ∈ bars /\ Spec.Bar 312 0 200 ∈ bars.
Proof.
  split; [reflexivity |]. split; [reflexivity |].
  destruct (ean13_bars_inside_canvas "8809560223070" eq_refl eq_refl)
    as (bits & bars & H1 & H2 & _ & _ & H3 & H4).
  now exists bits, bars.
Defined.

(** X6. For every string of 13 digits the center guard 01010 is at the bit
    indices 45 to 49, while the path loop takes the indices 42 to 46 for
    it: of the two bars of the center guard the one at index 46 (x = 168)
    ends at 200 and the one at index 48 (x = 174) ends at 165. *)
Theorem center_guard_bar_heights (text : string) :
  String.length text = 13 -> all_digits text = true ->
  exists bits,
    barcodeBits text = Ok bits
    /\ String.substring 45 5 bits = "01010"
    /\ Spec.Bar 168 0 200 ∈ Spec.bars bits
    /\ Spec.Bar 174 0 165 ∈ Spec.bars bits
    /\ pathSegments bits = Ok (Spec.segment <$> Spec.bars bits).
Proof.
  intros Hlen Hall. exists (Spec.bits text).
  destruct (center_guard_bars text Hlen Hall) as (H45 & H46 & H47 & H48 & H49 & _).
  split; [exact (proj1 (barcodeBits_spec text Hlen Hall)) |].
  split; [| split; [| split]].
  - pose proof (proj2 (barcodeBits_spec text Hlen Hall)) as H95.
    unfold char_at in *. revert H45 H46 H47 H48 H49 H95.
    generalize (Spec.bits text). intros bits.
    do 50 (destruct bits as [|? bits]; [discriminate |]).
    cbn. intros. repeat match goal with H : Some _ = Some _ |- _ => inversion H; clear H end.
    subst. destruct bits; reflexivity.
  - apply bars_spec. exists 46. split; [exact H46 | reflexivity].
  - apply bars_spec. exists 48. split; [exact H48 | reflexivity].
  - apply pathSegments_spec.
Qed.

Lemma center_guard_bar_heights_witness :
  String.length "8809560223070" = 13 /\ all_digits "8809560223070" = true
  /\ exists bits,
       barcodeBits "8809560223070" = Ok bits
       /\ String.substring 45 5 bits = "01010"
       /\ Spec.Bar 168 0 200 ∈ Spec.bars bits
       /\ Spec.Bar 174 0 165 ∈ Spec.bars bits.
Proof.
  split; [reflexivity |]. split; [reflexivity |].
  destruct (center_guard_bar_heights "8809560223070" eq_refl eq_refl)
    as (bits & H1 & H2 & H3 & H4 & _).
  now exists bits.
Defined.

(** ** The font, loaded *)

(** X7. When the font loader has the font (in the cache, or read from the
    file just then) the encoder puts it in the document as a base64 data
    URI: the font-face rule has that URI as its source, so the document
    needs no other file; the font is in the cache afterwards. *)
Theorem ean13_document_embeds_font (text : string)
    (fontSize offsetLeft offsetMiddle offsetRight : option Z) (w : world)
    (bits fontBase64 : string) :
  String.length text = 13 -> barcodeBits text = Ok bits ->
  truthy fontBase64 = true ->
  cachedFontBase64 w = Some fontBase64
  \/ (truthy_opt (cachedFontBase64 w) = false
      /\ font_file w (font_reads (trace w)) = Ok fontBase64) ->
  exists doc w',
    generateEAN13Barcode text fontSize offsetLeft offsetMiddle offsetRight w = (Ok doc, w')
    /\ occurs_in ("        src: url(data:font/truetype;charset=utf-8;base64,"
                    +:+ fontBase64 +:+ ") format('truetype');") doc
    /\ cachedFontBase64 w' = Some fontBase64.
Proof.
  intros Hlen Hbits Ht Hfont.
  assert (Hcall : exists w', getFontBase64 (record (Generate text) w) = (Ok fontBase64, w')).
  { destruct Hfont as [Hc | [Hc Hf]].
    - eexists. now apply getFontBase64_cached.
    - eexists. now apply getFontBase64_loads. }
  destruct Hcall as [w' Hcall]. eexists _, w'.
  split; [exact (generateEAN13Barcode_returns text _ _ _ _ w w' bits _ Hlen Hbits Hcall) |].
  rewrite Ht. split; [apply svg_document_lines |].
  exact (getFontBase64_caches _ _ _ Hcall Ht).
Qed.

Lemma ean13_document_embeds_font_witness :
  String.length "8809560223070" = 13
  /\ truthy "AAEAAA==" = true
  /\ truthy_opt (cachedFontBase64 readable_font) = false
  /\ font_file readable_font (font_reads (trace readable_font)) = Ok "AAEAAA=="
  /\ exists doc w',
       generateEAN13Barcode "8809560223070" None None None None readable_font
       = (Ok doc, w')
       /\ occurs_in ("        src: url(data:font/truetype;charset=utf-8;base64,"
                       +:+ "AAEAAA==" +:+ ") format('truetype');") doc
       /\ cachedFontBase64 w' = Some "AAEAAA==".
Proof.
  split; [reflexivity |]. split; [reflexivity |]. split; [reflexivity |].
  split; [reflexivity |].
  exact (ean13_document_embeds_font "8809560223070" None None None None readable_font
           _ "AAEAAA==" eq_refl eq_refl eq_refl (or_intror (conj eq_refl eq_refl))).
Defined.

Lemma getFontBase64_empty_file (w : world) :
  truthy_opt (cachedFontBase64 w) = false ->
  font_file w (font_reads (trace w)) = Ok EmptyString ->
  getFontBase64 w
  = (Ok EmptyString, World (Some EmptyString) (font_file w) (ReadFontFile :: trace w)).
Proof. intros Hc Hf. exact (getFontBase64_loads w EmptyString Hc Hf). Qed.

(** X8. An empty font file is never cached for use: when every read of the
    file gives the empty base64 string, each call of the font loader reads
    the file again and returns the empty string, so [n] calls make [n]
    reads (the cache test takes the stored empty string for no cache). *)
Theorem font_empty_file_read_every_call (w : world) (n : nat) :
  truthy_opt (cachedFontBase64 w) = false ->
  (forall k, font_file w k = Ok EmptyString) ->
  exists w',
    getFontBase64_calls n w = (replicate n (Ok EmptyString), w')
    /\ font_reads (trace w') = font_reads (trace w) + n
    /\ truthy_opt (cachedFontBase64 w') = false.
Proof.
  revert w. induction n as [|n IH]; intros w Hc Hf.
  - exists w. split; [reflexivity |]. split; [lia | exact Hc].
  - cbn [getFontBase64_calls]. rewrite (getFontBase64_empty_file w Hc (Hf _)).
    destruct (IH (World (Some EmptyString) (font_file w) (ReadFontFile :: trace w)))
      as (w' & Hcalls & Hreads & Hc'); [reflexivity | exact Hf |].
    exists w'. rewrite Hcalls. split; [reflexivity |]. split; [| exact Hc'].
    rewrite Hreads. cbn [trace font_reads]. lia.
Qed.

Lemma font_empty_file_read_every_call_witness :
  truthy_opt (cachedFontBase64 (initial_world (fun _ => Ok EmptyString))) = false
  /\ exists w',
       getFontBase64_calls 3 (initial_world (fun _ => Ok EmptyString))
       = (replicate 3 (Ok EmptyString), w')
       /\ font_reads (trace w') = 0 + 3.
Proof.
  split; [reflexivity |].
  destruct (font_empty_file_read_every_call (initial_world (fun _ => Ok EmptyString)) 3
              eq_refl (fun _ => eq_refl)) as (w' & H1 & H2 & _).
  now exists w'.
Defined.

(** ** Searching and replacing *)

Lemma has_char_app (c : ascii) (s t : string) :
  has_char c (s +:+ t) = has_char c s || has_char c t.
Proof.
  induction s as [|a s IH]; [reflexivity |].
  rewrite append_cons. cbn [has_char]. now rewrite IH, orb_assoc.
Qed.

Lemma split_at_first_char_none (c : ascii) (s : string) :
  has_char c s = false -> split_at_first (String c EmptyString) s = None.
Proof.
  induction s as [|a s IH]; intros H; [reflexivity |].
  cbn [has_char] in H. apply orb_false_iff in H as [Ha Hs].
  apply bool_decide_eq_false in Ha.
  cbn [split_at_first strip_prefix].
  rewrite decide_False by congruence. now rewrite (IH Hs).
Qed.

Lemma split_at_first_char (c : ascii) (s rest : string) :
  has_char c s = false ->
  split_at_first (String c EmptyString) (s +:+ String c rest) = Some (s, rest).
Proof.
  induction s as [|a s IH]; intros H.
  - change (EmptyString +:+ String c rest) with (String c rest).
    cbn [split_at_first strip_prefix]. now rewrite decide_True by reflexivity.
  - cbn [has_char] in H. apply orb_false_iff in H as [Ha Hs].
    apply bool_decide_eq_false in Ha.
    rewrite append_cons. cbn [split_at_first strip_prefix].
    rewrite decide_False by congruence. now rewrite (IH Hs).
Qed.

(** A text without a space is one piece, and the pieces of a text start
    with what comes before its first space. *)
Lemma split_on_plain (s : string) :
  has_char " " s = false -> split_on " " s = [s].
Proof.
  induction s as [|a s IH]; intros H; [reflexivity |].
  cbn [has_char] in H. apply orb_false_iff in H as [Ha Hs].
  apply bool_decide_eq_false in Ha.
  cbn [split_on]. rewrite decide_False by exact Ha. now rewrite (IH Hs).
Qed.

Lemma split_on_app (s rest : string) :
  has_char " " s = false ->
  split_on " " (s +:+ " " +:+ rest) = s :: split_on " " rest.
Proof.
  induction s as [|a s IH]; intros H.
  - reflexivity.
  - cbn [has_char] in H. apply orb_false_iff in H as [Ha Hs].
    apply bool_decide_eq_false in Ha.
    rewrite append_cons. cbn [split_on]. rewrite decide_False by exact Ha.
    now rewrite (IH Hs).
Qed.

(** A replacement text without a dollar sign stands for itself, and so
    does such a text in front of another. *)
Lemma substitution_app_plain (m : regexp_match) (s t : string) :
  has_char "$" s = false -> substitution m (s +:+ t) = s +:+ substitution m t.
Proof.
  induction s as [|a s IH]; intros H; [reflexivity |].
  cbn [has_char] in H. apply orb_false_iff in H as [Ha Hs].
  apply bool_decide_eq_false in Ha.
  rewrite !append_cons. cbn [substitution].
  rewrite decide_False by exact Ha. now rewrite (IH Hs).
Qed.

Lemma substitution_plain (m : regexp_match) (s : string) :
  has_char "$" s = false -> substitution m s = s.
Proof.
  intros H. rewrite <- (append_empty_r s) at 1.
  rewrite (substitution_app_plain m s EmptyString H). cbn [substitution].
  apply append_empty_r.
Qed.

(** The viewBox attribute is found behind the opening text of the tag, and
    is not found where the text has no such attribute. *)
Lemma match_viewBox_leading (capture rest : string) :
  truthy capture = true -> has_char (ascii_of_nat 34) capture = false ->
  match_viewBox ("<svg viewBox=" +:+ q capture +:+ rest) = Some capture.
Proof.
  intros Ht Hq. unfold q. rewrite !append_assoc.
  change ("<svg viewBox=" +:+ dq +:+ capture +:+ dq +:+ rest)
    with ("<svg " +:+ ("viewBox=" +:+ dq) +:+ capture +:+ String (ascii_of_nat 34) rest).
  assert (Hhere : forall tail,
    match_viewBox (("viewBox=" +:+ dq) +:+ capture +:+ String (ascii_of_nat 34) tail)
    = Some capture).
  { intros tail.
    destruct ((("viewBox=" +:+ dq) +:+ capture +:+ String (ascii_of_nat 34) tail)) eqn:E;
      [discriminate E |].
    cbn [match_viewBox]. rewrite <- E, strip_prefix_app.
    change dq with (String (ascii_of_nat 34) EmptyString).
    rewrite (split_at_first_char _ capture tail Hq), Ht. reflexivity. }
  specialize (Hhere rest). rewrite append_assoc in Hhere.
  cbn. cbn in Hhere. exact Hhere.
Qed.

Lemma match_viewBox_none (svg : string) :
  split_at_first ("viewBox=" +:+ dq) svg = None -> match_viewBox svg = None.
Proof.
  induction svg as [|c svg IH]; intros H.
  - reflexivity.
  - cbn [split_at_first] in H. cbn [match_viewBox].
    destruct (strip_prefix ("viewBox=" +:+ dq) (String c svg)); [discriminate H |].
    destruct (split_at_first ("viewBox=" +:+ dq) svg) as [[b a]|]; [discriminate H |].
    now apply IH.
Qed.

(** ** addSVGDimensions *)

Lemma addSVGDimensions_of_capture (capture rest : string) :
  truthy capture = true -> has_char (ascii_of_nat 34) capture = false ->
  has_char "$" (to_text (split_on " " capture !! 2)) = false ->
  has_char "$" (to_text (split_on " " capture !! 3)) = false ->
  addSVGDimensions ("<svg viewBox=" +:+ q capture +:+ rest)
  = "<svg width=" +:+ q (to_text (split_on " " capture !! 2))
      +:+ " height=" +:+ q (to_text (split_on " " capture !! 3))
      +:+ " viewBox=" +:+ q capture +:+ rest.
Proof.
  intros Ht Hq Hw Hh. unfold addSVGDimensions.
  rewrite (match_viewBox_leading capture rest Ht Hq).
  change ("<svg viewBox=" +:+ q capture +:+ rest)
    with ("<svg " +:+ ("viewBox=" +:+ q capture +:+ rest)).
  unfold match_svg_open. rewrite split_at_first_here. unfold replace_match.
  cbn [preceding following].
  rewrite substitution_plain.
  - change (EmptyString +:+ ?x) with x. rewrite !append_assoc. reflexivity.
  - unfold q, dq. rewrite !has_char_app, Hw, Hh. reflexivity.
Qed.

Lemma strip_prefix_sound (p s r : string) : strip_prefix p s = Some r -> s = p +:+ r.
Proof.
  revert s. induction p as [| a p IH]; intros s H.
  - cbn in H. now inversion H.
  - destruct s as [| b s]; [discriminate H |]. cbn in H.
    destruct (decide (a = b)) as [-> |]; [| discriminate H].
    rewrite append_cons. f_equal. now apply IH.
Qed.

(** What split_at_first gives are the texts on both sides of the
    pattern. *)
Lemma split_at_first_sound (pat s before after : string) :
  split_at_first pat s = Some (before, after) -> s = before +:+ pat +:+ after.
Proof.
  revert before. induction s as [| c s IH]; intros before H.
  - cbn in H. destruct (strip_prefix pat EmptyString) as [r |] eqn:Hr; [| discriminate H].
    inversion H; subst. exact (strip_prefix_sound _ _ _ Hr).
  - cbn [split_at_first] in H.
    destruct (strip_prefix pat (String c s)) as [r |] eqn:Hr.
    + inversion H; subst. exact (strip_prefix_sound _ _ _ Hr).
    + destruct (split_at_first pat s) as [[b a] |]; [| discriminate H].
      inversion H; subst. rewrite append_cons. f_equal. now apply IH.
Qed.

(** What addSVGDimensions returns for a document with a viewBox and an
    opening tag. *)
Lemma addSVGDimensions_of_match (svg capture before after : string) :
  match_viewBox svg = Some capture ->
  split_at_first "<svg " svg = Some (before, after) ->
  has_char "$" (to_text (split_on " " capture !! 2)) = false ->
  has_char "$" (to_text (split_on " " capture !! 3)) = false ->
  addSVGDimensions svg
  = before +:+ "<svg width=" +:+ q (to_text (split_on " " capture !! 2))
      +:+ " height=" +:+ q (to_text (split_on " " capture !! 3)) +:+ " " +:+ after.
Proof.
  intros Hvb Hopen Hw Hh. unfold addSVGDimensions, match_svg_open.
  rewrite Hvb, Hopen. unfold replace_match. cbn [preceding following].
  rewrite substitution_plain.
  - rewrite !append_assoc. reflexivity.
  - unfold q, dq. rewrite !has_char_app, Hw, Hh. reflexivity.
Qed.

(** X9. For every document, addSVGDimensions writes the third and fourth
    value of the first viewBox attribute as the width and the height at the
    start of the first opening svg tag, in front of the attributes the tag
    has, and leaves the document before and after as it is (the values
    holding no dollar sign). *)
Theorem addSVGDimensions_adds_size (svg capture before after width height : string) :
  match_viewBox svg = Some capture ->
  split_at_first "<svg " svg = Some (before, after) ->
  split_on " " capture !! 2 = Some width -> split_on " " capture !! 3 = Some height ->
  has_char "$" (width +:+ height) = false ->
  svg = before +:+ "<svg " +:+ after
  /\ addSVGDimensions svg
     = before +:+ "<svg width=" +:+ q width +:+ " height=" +:+ q height +:+ " " +:+ after.
Proof.
  intros Hvb Hopen Hwidth Hheight Hd.
  rewrite has_char_app in Hd. apply orb_false_iff in Hd as [Hdw Hdh].
  split; [exact (split_at_first_sound _ _ _ _ Hopen) |].
  rewrite (addSVGDimensions_of_match svg capture before after Hvb Hopen);
    rewrite ?Hwidth, ?Hheight; cbn [to_text]; (reflexivity || assumption).
Qed.

Lemma addSVGDimensions_adds_size_witness :
  match_viewBox example_document = Some "0 0 190 72"
  /\ split_at_first "<svg " example_document
     = Some ("<?xml version='1.0'?>" +:+ nl,
             "xmlns=" +:+ q "http://www.w3.org/2000/svg" +:+ " viewBox=" +:+ q "0 0 190 72"
               +:+ "><path /></svg>")
  /\ split_on " " "0 0 190 72" = ["0"; "0"; "190"; "72"]
  /\ addSVGDimensions example_document
     = ("<?xml version='1.0'?>" +:+ nl) +:+ "<svg width=" +:+ q "190" +:+ " height="
         +:+ q "72" +:+ " "
         +:+ ("xmlns=" +:+ q "http://www.w3.org/2000/svg" +:+ " viewBox=" +:+ q "0 0 190 72"
                +:+ "><path /></svg>").
Proof.
  split; [reflexivity |]. split; [reflexivity |]. split; [reflexivity |].
  exact (proj2 (addSVGDimensions_adds_size example_document "0 0 190 72" _ _ "190" "72"
                  eq_refl eq_refl eq_refl eq_refl eq_refl)).
Defined.

(** X10. addSVGDimensions leaves a document without a viewBox attribute,
    and one without an opening svg tag, as it is; and for every document
    whose first viewBox has three values only, it still writes the two
    attributes, the height being the text undefined. *)
Theorem addSVGDimensions_edges (svg capture before after x y width : string) :
  (match_viewBox svg = None -> addSVGDimensions svg = svg)
  /\ (split_at_first ("viewBox=" +:+ dq) svg = None -> addSVGDimensions svg = svg)
  /\ (split_at_first "<svg " svg = None -> addSVGDimensions svg = svg)
  /\ (match_viewBox svg = Some capture ->
      split_at_first "<svg " svg = Some (before, after) ->
      split_on " " capture = [x; y; width] -> has_char "$" width = false ->
      addSVGDimensions svg
      = before +:+ "<svg width=" +:+ q width +:+ " height=" +:+ q "undefined" +:+ " "
          +:+ after).
Proof.
  split; [| split; [| split]].
  - intros H. unfold addSVGDimensions. now rewrite H.
  - intros H. unfold addSVGDimensions. now rewrite (match_viewBox_none svg H).
  - intros H. unfold addSVGDimensions, match_svg_open. rewrite H.
    now destruct (match_viewBox svg).
  - intros Hvb Hopen Hsplit Hd.
    rewrite (addSVGDimensions_of_match svg capture before after Hvb Hopen);
      rewrite Hsplit; cbn [lookup list_lookup to_text]; (reflexivity || assumption).
Qed.

Lemma addSVGDimensions_edges_witness :
  match_viewBox "<svg><path /></svg>" = None
  /\ addSVGDimensions "<svg><path /></svg>" = "<svg><path /></svg>"
  /\ match_viewBox example_document_three = Some "0 0 190"
  /\ split_on " " "0 0 190" = ["0"; "0"; "190"]
  /\ addSVGDimensions example_document_three
     = ("<?xml version='1.0'?>" +:+ nl) +:+ "<svg width=" +:+ q "190" +:+ " height="
         +:+ q "undefined" +:+ " "
         +:+ ("xmlns=" +:+ q "http://www.w3.org/2000/svg" +:+ " viewBox=" +:+ q "0 0 190"
                +:+ "><path /></svg>").
Proof.
  split; [reflexivity |]. split.
  - exact (proj1 (addSVGDimensions_edges "<svg><path /></svg>" "" "" "" "" "" "") eq_refl).
  - split; [reflexivity |]. split; [reflexivity |].
    exact (proj2 (proj2 (proj2 (addSVGDimensions_edges example_document_three "0 0 190"
                                  _ _ "0" "0" "190")))
             eq_refl eq_refl eq_refl eq_refl).
Defined.

(** ** addFontStyle, the font loaded *)

Lemma fontStyle_block_plain (fontBase64 : string) :
  has_char "$" fontBase64 = false ->
  has_char "$" (fontStyle_block (font_data_uri fontBase64)) = false.
Proof.
  intros H. unfold fontStyle_block, font_face_src, font_data_uri, join, q, dq, nl.
  rewrite !has_char_app, H. reflexivity.
Qed.

(** The replacement of addFontStyle: the tag as it was, then what the
    style block stands for. *)
Lemma substitution_tag (attrs matched before after style : string) :
  substitution (RegexpMatch [attrs] matched before after) ("<svg $1>" +:+ style)
  = "<svg " +:+ attrs +:+ ">" +:+ substitution (RegexpMatch [attrs] matched before after) style.
Proof. reflexivity. Qed.

(** X11. With the font loaded, for every document that has an opening svg
    tag addFontStyle puts the style block whose font-face rule has the
    base64 data URI as its source right after the first opening tag, which
    stays as it was, as does the document before and after it (base64
    text holds no dollar sign). *)
Theorem addFontStyle_embeds_font (svg before rest attrs after fontBase64 : string)
    (w : world) :
  truthy fontBase64 = true -> has_char "$" fontBase64 = false ->
  split_at_first "<svg " svg = Some (before, rest) ->
  split_at_first ">" rest = Some (attrs, after) ->
  cachedFontBase64 w = Some fontBase64
  \/ (truthy_opt (cachedFontBase64 w) = false
      /\ font_file w (font_reads (trace w)) = Ok fontBase64) ->
  exists w',
    svg = before +:+ "<svg " +:+ attrs +:+ ">" +:+ after
    /\ addFontStyle svg w
       = (Ok (before +:+ "<svg " +:+ attrs +:+ ">"
                +:+ fontStyle_block (font_data_uri fontBase64) +:+ after), w')
    /\ cachedFontBase64 w' = Some fontBase64
    /\ occurs_in ("        src: url(data:font/truetype;charset=utf-8;base64,"
                    +:+ fontBase64 +:+ ") format('truetype');")
         (fontStyle_block (font_data_uri fontBase64)).
Proof.
  intros Ht Hd Hopen Hclose Hfont.
  assert (Hcall : exists w', getFontBase64 w = (Ok fontBase64, w')).
  { destruct Hfont as [Hc | [Hc Hf]].
    - eexists. now apply getFontBase64_cached.
    - eexists. now apply getFontBase64_loads. }
  destruct Hcall as [w' Hcall]. exists w'.
  split; [| split; [| split; [exact (getFontBase64_caches _ _ _ Hcall Ht) |]]].
  - rewrite (split_at_first_sound _ _ _ _ Hopen), (split_at_first_sound _ _ _ _ Hclose).
    reflexivity.
  - unfold addFontStyle, try_catch, mbind, M_bind. rewrite Hcall, Ht.
    unfold match_svg_tag. rewrite Hopen, Hclose.
    unfold replace_match. cbn [preceding following].
    pose proof (fontStyle_block_plain _ Hd) as Hp.
    generalize dependent (fontStyle_block (font_data_uri fontBase64)). intros style Hp.
    rewrite substitution_tag, (substitution_plain _ style Hp).
    rewrite !append_assoc. reflexivity.
  - apply occurs_in_join.
    repeat first [ apply list_elem_of_here | apply list_elem_of_further ].
Qed.

Lemma addFontStyle_embeds_font_witness :
  truthy "AAEAAA==" = true /\ has_char "$" "AAEAAA==" = false
  /\ split_at_first "<svg " example_document
     = Some ("<?xml version='1.0'?>" +:+ nl,
             "xmlns=" +:+ q "http://www.w3.org/2000/svg" +:+ " viewBox=" +:+ q "0 0 190 72"
               +:+ "><path /></svg>")
  /\ split_at_first ">" ("xmlns=" +:+ q "http://www.w3.org/2000/svg" +:+ " viewBox="
                           +:+ q "0 0 190 72" +:+ "><path /></svg>")
     = Some ("xmlns=" +:+ q "http://www.w3.org/2000/svg" +:+ " viewBox=" +:+ q "0 0 190 72",
             "<path /></svg>")
  /\ exists w',
       addFontStyle example_document readable_font
       = (Ok (("<?xml version='1.0'?>" +:+ nl) +:+ "<svg "
                +:+ ("xmlns=" +:+ q "http://www.w3.org/2000/svg" +:+ " viewBox="
                       +:+ q "0 0 190 72") +:+ ">"
                +:+ fontStyle_block (font_data_uri "AAEAAA==") +:+ "<path /></svg>"), w')
       /\ cachedFontBase64 w' = Some "AAEAAA==".
Proof.
  split; [reflexivity |]. split; [reflexivity |]. split; [reflexivity |].
  split; [reflexivity |].
  destruct (addFontStyle_embeds_font example_document _ _ _ _ "AAEAAA==" readable_font
              eq_refl eq_refl eq_refl eq_refl (or_intror (conj eq_refl eq_refl)))
    as (w' & _ & H1 & H2 & _).
  now exists w'.
Defined.

(** X12. addFontStyle returns a text that has no opening svg tag as it is:
    nothing is inserted, and nothing is thrown, whatever the font loader
    does. *)
Theorem addFontStyle_without_tag (svg : string) (w : world) :
  split_at_first "<svg " svg = None ->
  exists w', addFontStyle svg w = (Ok svg, w').
Proof.
  intros H. destruct (getFontBase64_returns w) as (f & w' & Hf).
  exists w'. unfold addFontStyle, try_catch, mbind, M_bind. rewrite Hf.
  unfold match_svg_tag. rewrite H. reflexivity.
Qed.

Lemma addFontStyle_without_tag_witness :
  split_at_first "<svg " "<svg/>" = None
  /\ exists w', addFontStyle "<svg/>" unreadable_font = (Ok "<svg/>", w').
Proof.
  split; [reflexivity |].
  exact (addFontStyle_without_tag "<svg/>" unreadable_font eq_refl).
Defined.

(** ** The text of a number *)

Lemma pretty_N_char_is_digit (x : N) : is_digit (pretty_N_char x) = true.
Proof. unfold pretty_N_char. repeat case_match; reflexivity. Qed.

Lemma pretty_N_go_has_char (c : ascii) (x : N) (s : string) :
  is_digit c = false -> has_char c (pretty_N_go x s) = has_char c s.
Proof.
  intros Hc. revert s. induction (N.lt_wf_0 x) as [x _ IH]; intros s.
  assert (x = 0 \/ 0 < x)%N as [-> | Hpos] by lia; [now rewrite pretty_N_go_0 |].
  rewrite pretty_N_go_step by exact Hpos.
  rewrite IH by (now apply N.div_lt). cbn [has_char].
  rewrite bool_decide_eq_false_2; [reflexivity |].
  intros E. pose proof (pretty_N_char_is_digit (x `mod` 10)) as Hd.
  rewrite E, Hc in Hd. discriminate Hd.
Qed.

(** The text of a number holds digits, and a minus sign at most. *)
Lemma pretty_N_plain (c : ascii) (x : N) :
  is_digit c = false -> has_char c (pretty x) = false.
Proof.
  intros Hc. unfold pretty, pretty_N. destruct (decide (x = 0%N)).
  - cbn [has_char]. rewrite bool_decide_eq_false_2; [reflexivity |].
    intros <-. discriminate Hc.
  - now rewrite pretty_N_go_has_char.
Qed.

Lemma pretty_nat_plain (c : ascii) (n : nat) :
  is_digit c = false -> has_char c (pretty n) = false.
Proof. intros Hc. exact (pretty_N_plain c (N.of_nat n) Hc). Qed.

Lemma pretty_Z_plain (c : ascii) (z : Z) :
  is_digit c = false -> c ≠ "-"%char -> has_char c (pretty z) = false.
Proof.
  intros Hc Hm. unfold pretty, pretty_Z. destruct z as [|p|p].
  - cbn [has_char]. rewrite bool_decide_eq_false_2; [reflexivity |].
    intros <-. discriminate Hc.
  - exact (pretty_N_plain c (Npos p) Hc).
  - rewrite has_char_app. cbn [has_char].
    rewrite bool_decide_eq_false_2 by congruence.
    exact (pretty_N_plain c (Npos p) Hc).
Qed.

(** ** addCenterText *)

(** X13. addCenterText puts one text element, with the contents as they
    are (not escaped) and the font size (16 when none is given), in front
    of the first closing tag of the document and leaves the rest as it is
    (the contents and the two numbers holding no dollar sign); a document
    without a viewBox attribute or without a closing tag is returned as it
    is, without a label. *)
Theorem addCenterText_appends_label (half_text less_two_text : option string -> string)
    (svg body tail capture text : string) (fontSize : option Z) :
  (match_viewBox svg = Some capture ->
   split_at_first "</svg>" svg = Some (body, tail) ->
   has_char "$" text = false ->
   has_char "$" (half_text (split_on " " capture !! 2)) = false ->
   has_char "$" (less_two_text (split_on " " capture !! 3)) = false ->
   addCenterText half_text less_two_text svg text fontSize
   = body +:+ nl +:+ "  <text x=" +:+ q (half_text (split_on " " capture !! 2))
       +:+ " y=" +:+ q (less_two_text (split_on " " capture !! 3))
       +:+ " font-family=" +:+ q font_family
       +:+ " font-size=" +:+ q (pretty (default 16%Z fontSize))
       +:+ " text-anchor=" +:+ q "middle" +:+ " fill=" +:+ q "#000000" +:+ ">"
       +:+ text +:+ "</text>" +:+ nl +:+ "</svg>" +:+ tail)
  /\ (match_viewBox svg = None ->
      addCenterText half_text less_two_text svg text fontSize = svg)
  /\ (split_at_first "</svg>" svg = None ->
      addCenterText half_text less_two_text svg text fontSize = svg).
Proof.
  split; [| split].
  - intros Hbox Hclose Ht Hx Hy. unfold addCenterText. cbv zeta.
    rewrite Hbox. unfold match_svg_close. rewrite Hclose.
    unfold replace_match. cbn [preceding following].
    pose proof (pretty_Z_plain "$" (default 16%Z fontSize) eq_refl ltac:(discriminate)) as Hf.
    generalize dependent (pretty (default 16%Z fontSize)).
    generalize dependent (half_text (split_on " " capture !! 2)).
    generalize dependent (less_two_text (split_on " " capture !! 3)).
    intros y Hy x Hx f Hf.
    rewrite substitution_plain.
    + rewrite !append_assoc. reflexivity.
    + unfold q, dq, nl, font_family. rewrite !has_char_app, Ht, Hx, Hy, Hf. reflexivity.
  - intros Hbox. unfold addCenterText. cbv zeta. now rewrite Hbox.
  - intros Hclose. unfold addCenterText. cbv zeta. unfold match_svg_close.
    rewrite Hclose. now destruct (match_viewBox svg).
Qed.

Lemma addCenterText_appends_label_witness :
  match_viewBox ("<svg viewBox=" +:+ q "0 0 190 72" +:+ "><path /></svg>")
  = Some "0 0 190 72"
  /\ split_at_first "</svg>" ("<svg viewBox=" +:+ q "0 0 190 72" +:+ "><path /></svg>")
     = Some ("<svg viewBox=" +:+ q "0 0 190 72" +:+ "><path />", EmptyString)
  /\ addCenterText (fun _ => "95") (fun _ => "70")
       ("<svg viewBox=" +:+ q "0 0 190 72" +:+ "><path /></svg>") "A<B" None
     = ("<svg viewBox=" +:+ q "0 0 190 72" +:+ "><path />") +:+ nl
         +:+ "  <text x=" +:+ q "95" +:+ " y=" +:+ q "70"
         +:+ " font-family=" +:+ q font_family
         +:+ " font-size=" +:+ q "16"
         +:+ " text-anchor=" +:+ q "middle" +:+ " fill=" +:+ q "#000000" +:+ ">"
         +:+ "A<B" +:+ "</text>" +:+ nl +:+ "</svg>" +:+ EmptyString.
Proof.
  split; [reflexivity |]. split; [reflexivity |].
  exact (proj1 (addCenterText_appends_label (fun _ => "95") (fun _ => "70")
                  ("<svg viewBox=" +:+ q "0 0 190 72" +:+ "><path /></svg>")
                  ("<svg viewBox=" +:+ q "0 0 190 72" +:+ "><path />") EmptyString
                  "0 0 190 72" "A<B" None)
           eq_refl eq_refl eq_refl eq_refl eq_refl).
Defined.

(** ** The font and the requests *)

Lemma font_effect_trans (j k : nat) (w1 w2 w3 : world) :
  font_effect j w1 w2 -> font_effect k w2 w3 -> font_effect (j + k) w1 w3.
Proof.
  intros (H1 & H2 & H3) (H4 & H5 & H6). repeat split; try lia.
  - destruct (H3 H) as [Hc Hr]. rewrite <- Hc in H. destruct (H6 H) as [Hc' Hr'].
    congruence.
  - destruct (H3 H) as [Hc Hr]. rewrite <- Hc in H. destruct (H6 H) as [Hc' Hr'].
    congruence.
Qed.

Lemma font_effect_record (e : event) (w : world) :
  e ≠ ReadFontFile -> font_effect 0 w (record e w).
Proof.
  intros He. unfold font_effect, record. cbn [trace cachedFontBase64].
  destruct e; try contradiction; cbn [font_reads]; repeat split; lia.
Qed.

Lemma font_effect_weaken (j k : nat) (w w' : world) :
  j <= k -> font_effect j w w' -> font_effect k w w'.
Proof. intros Hjk (H1 & H2 & H3). repeat split; try lia; now apply H3. Qed.

Lemma getFontBase64_effect (w w' : world) (r : result string) :
  getFontBase64 w = (r, w') -> font_effect 1 w w'.
Proof.
  intros Hcall.
  destruct (truthy_opt (cachedFontBase64 w)) eqn:Hc.
  - destruct (cachedFontBase64 w) as [c|] eqn:Hw; [| discriminate Hc].
    rewrite (getFontBase64_cached w c Hw Hc) in Hcall. inversion Hcall; subst.
    unfold font_effect. repeat split; lia.
  - destruct (font_file w (font_reads (trace w))) as [s | e] eqn:Hf.
    + rewrite (getFontBase64_loads w s Hc Hf) in Hcall. inversion Hcall; subst.
      unfold font_effect. cbn [trace font_reads]. repeat split; try lia; congruence.
    + rewrite (getFontBase64_fails w e Hc Hf) in Hcall. inversion Hcall; subst.
      unfold font_effect. cbn [trace font_reads record].
      repeat split; try lia; congruence.
Qed.

Lemma generateEAN13Barcode_effect (text : string)
    (fontSize offsetLeft offsetMiddle offsetRight : option Z) (w w' : world)
    (r : result string) :
  generateEAN13Barcode text fontSize offsetLeft offsetMiddle offsetRight w = (r, w') ->
  font_effect 1 w w'.
Proof.
  intros Hcall.
  assert (Hgen : font_effect 0 w (record (Generate text) w))
    by (apply font_effect_record; discriminate).
  assert (Hlog : font_effect 1 w
                   (record (ConsoleError "Error generating EAN13:")
                      (record (Generate text) w))).
  { apply (font_effect_trans 0 1 _ _ _ Hgen).
    apply (font_effect_weaken 0); [lia |]. apply font_effect_record. discriminate. }
  destruct (decide (String.length text = 13)) as [Hlen | Hlen].
  - destruct (barcodeBits text) as [bits | e] eqn:Hbits.
    + destruct (getFontBase64_returns (record (Generate text) w)) as (f & w1 & Hf).
      rewrite (generateEAN13Barcode_returns text _ _ _ _ w w1 bits f Hlen Hbits Hf) in Hcall.
      inversion Hcall; subst.
      exact (font_effect_trans 0 1 _ _ _ Hgen (getFontBase64_effect _ _ _ Hf)).
    + rewrite (generateEAN13Barcode_bits_error text _ _ _ _ w e Hlen Hbits) in Hcall.
      inversion Hcall; subst. exact Hlog.
  - rewrite (generateEAN13Barcode_length_error text _ _ _ _ w Hlen) in Hcall.
    inversion Hcall; subst. exact Hlog.
Qed.

(** With the font in the cache the encoder's result does not depend on
    what else the process holds. *)
Lemma generateEAN13Barcode_cached (text : string)
    (fontSize offsetLeft offsetMiddle offsetRight : option Z) (w1 w2 : world)
    (s : string) :
  cachedFontBase64 w1 = Some s -> cachedFontBase64 w2 = Some s -> truthy s = true ->
  (generateEAN13Barcode text fontSize offsetLeft offsetMiddle offsetRight w1).1
  = (generateEAN13Barcode text fontSize offsetLeft offsetMiddle offsetRight w2).1.
Proof.
  intros H1 H2 Ht.
  destruct (decide (String.length text = 13)) as [Hlen | Hlen].
  - destruct (barcodeBits text) as [bits | e] eqn:Hbits.
    + rewrite (generateEAN13Barcode_returns text _ _ _ _ w1 _ bits s Hlen Hbits
                 (getFontBase64_cached (record (Generate text) w1) s H1 Ht)).
      rewrite (generateEAN13Barcode_returns text _ _ _ _ w2 _ bits s Hlen Hbits
                 (getFontBase64_cached (record (Generate text) w2) s H2 Ht)).
      reflexivity.
    + now rewrite !(generateEAN13Barcode_bits_error text _ _ _ _ _ e Hlen Hbits).
  - now rewrite !(generateEAN13Barcode_length_error text _ _ _ _ _ Hlen).
Qed.

Section RequestProperties.

Context {NextRequest Json Options : Type}.
Variable request_json : NextRequest -> result Json.
Variable BarcodeRequestSchema_parse : Json -> result BarcodeRenderRequest.
Variable getBarcodeOptions : Symbology -> option Z -> result Options.
Variable bwipjs_toSVG : Options -> string -> result string.
Variable addCenterText : string -> string -> option Z -> string.

Local Abbreviation handle :=
  (POST request_json BarcodeRequestSchema_parse getBarcodeOptions bwipjs_toSVG addCenterText).

(** The handler once the library has returned, for a symbology other than
    ean13. *)
Lemma POST_other (request : NextRequest) (w : world) (body : Json)
    (r : BarcodeRenderRequest) (options : Options) (out : string) :
  request_json request = Ok body -> BarcodeRequestSchema_parse body = Ok r ->
  getBarcodeOptions (symbology r) (quietZone r) = Ok options ->
  bwipjs_toSVG options (contents r) = Ok out -> symbology r ≠ ean13 ->
  exists f styled w1,
    getFontBase64 (record (ToSVG (contents r)) w) = (Ok f, w1)
    /\ addFontStyle (addSVGDimensions out) (record (ToSVG (contents r)) w) = (Ok styled, w1)
    /\ handle request w
       = (SvgResponse (addCenterText styled (contents r) (fontSize r)), w1).
Proof.
  intros Hjson Hparse Hopt Hlib Hsym.
  destruct (addFontStyle_returns (addSVGDimensions out) (record (ToSVG (contents r)) w))
    as (s & w1 & Hstyle & f & Hfont).
  exists f, s, w1. split; [exact Hfont |]. split; [exact Hstyle |].
  unfold POST, POST_try, mbind, M_bind, lift, emit.
  rewrite Hjson, Hparse, Hopt, Hlib, Hstyle.
  destruct (decide (symbology r = ean13)); [contradiction | reflexivity].
Qed.

(** X14. For a request whose symbology is not ean13 the answer is the
    library's SVG after addSVGDimensions, addFontStyle and addCenterText
    with the contents and the font size of the request; the EAN-13 encoder
    is not entered, so that no length of the contents is refused by it. *)
Theorem other_symbology_response (request : NextRequest) (w : world) (body : Json)
    (r : BarcodeRenderRequest) (options : Options) (out : string) :
  request_json request = Ok body -> BarcodeRequestSchema_parse body = Ok r ->
  getBarcodeOptions (symbology r) (quietZone r) = Ok options ->
  bwipjs_toSVG options (contents r) = Ok out -> symbology r ≠ ean13 ->
  exists styled w1 t,
    addFontStyle (addSVGDimensions out) (record (ToSVG (contents r)) w) = (Ok styled, w1)
    /\ handle request w
       = (SvgResponse (addCenterText styled (contents r) (fontSize r)), w1)
    /\ trace w1 = t ++ ToSVG (contents r) :: trace w
    /\ forall text, Generate text ∉ t.
Proof.
  intros Hjson Hparse Hopt Hlib Hsym.
  destruct (POST_other request w body r options out Hjson Hparse Hopt Hlib Hsym)
    as (f & styled & w1 & Hfont & Hstyle & Hpost).
  destruct (getFontBase64_trace _ _ _ Hfont) as (t & Ht & Hfree).
  exists styled, w1, t. repeat split; assumption.
Qed.

(** X15. Answering one request reads the font file at most twice, and not
    at all when the font is in the cache, which the request then leaves as
    it is. *)
Theorem request_reads_font_at_most_twice (request : NextRequest) (w : world) :
  font_reads (trace w) <= font_reads (trace (handle request w).2)
  /\ font_reads (trace (handle request w).2) <= font_reads (trace w) + 2
  /\ (truthy_opt (cachedFontBase64 w) = true ->
      cachedFontBase64 (handle request w).2 = cachedFontBase64 w
      /\ font_reads (trace (handle request w).2) = font_reads (trace w)).
Proof.
  change (font_effect 2 w (handle request w).2).
  assert (Hlog : forall k w', font_effect k w w' ->
            font_effect k w (record (ConsoleError "Preview error:") w')).
  { intros k w' H. replace k with (k + 0) by lia.
    apply (font_effect_trans _ _ _ _ _ H). apply font_effect_record. discriminate. }
  assert (H0 : font_effect 0 w w) by (repeat split; lia).
  unfold POST, POST_try, mbind, M_bind, lift, emit.
  destruct (request_json request) as [body | e];
    [| apply (font_effect_weaken 0); [lia | now apply Hlog]].
  destruct (BarcodeRequestSchema_parse body) as [r | e];
    [| apply (font_effect_weaken 0); [lia | now apply Hlog]].
  destruct (getBarcodeOptions (symbology r) (quietZone r)) as [options | e];
    [| apply (font_effect_weaken 0); [lia | now apply Hlog]].
  assert (Hsvg : font_effect 0 w (record (ToSVG (contents r)) w))
    by (apply font_effect_record; discriminate).
  destruct (bwipjs_toSVG options (contents r)) as [out | e];
    [| apply (font_effect_weaken 0); [lia | now apply Hlog]].
  destruct (addFontStyle_returns (addSVGDimensions out) (record (ToSVG (contents r)) w))
    as (s & w1 & Hstyle & f & Hfont).
  rewrite Hstyle.
  pose proof (font_effect_trans 0 1 _ _ _ Hsvg (getFontBase64_effect _ _ _ Hfont)) as H1.
  destruct (decide (symbology r = ean13)).
  - unfold processEAN13.
    destruct (generateEAN13Barcode (contents r) _ _ _ _ w1) as [[doc | err] w2] eqn:Hgen;
      pose proof (font_effect_trans 1 1 _ _ _ H1 (generateEAN13Barcode_effect _ _ _ _ _ _ _ _ Hgen))
        as H2; cbn [snd]; [exact H2 | now apply Hlog].
  - cbn [snd]. apply (font_effect_weaken 1); [lia | exact H1].
Qed.

(** X16. With the font in the cache the answer to a request does not depend
    on what the process did before: two processes that hold the same font
    give the same answer to the same request. *)
Theorem response_independent_of_history (request : NextRequest) (w1 w2 : world)
    (s : string) :
  cachedFontBase64 w1 = Some s -> cachedFontBase64 w2 = Some s -> truthy s = true ->
  (handle request w1).1 = (handle request w2).1.
Proof.
  intros H1 H2 Ht. unfold POST, POST_try, mbind, M_bind, lift, emit.
  destruct (request_json request) as [body | e]; [| reflexivity].
  destruct (BarcodeRequestSchema_parse body) as [r | e]; [| reflexivity].
  destruct (getBarcodeOptions (symbology r) (quietZone r)) as [options | e]; [| reflexivity].
  destruct (bwipjs_toSVG options (contents r)) as [out | e]; [| reflexivity].
  assert (Hstyle : forall w, cachedFontBase64 w = Some s ->
    addFontStyle (addSVGDimensions out) (record (ToSVG (contents r)) w)
    = (Ok (replace_match (addSVGDimensions out) (match_svg_tag (addSVGDimensions out))
             ("<svg $1>" +:+ fontStyle_block (font_data_uri s))),
       record (ToSVG (contents r)) w)).
  { intros w Hw. unfold addFontStyle, try_catch, mbind, M_bind.
    rewrite (getFontBase64_cached (record (ToSVG (contents r)) w) s Hw Ht), Ht.
    reflexivity. }
  rewrite (Hstyle w1 H1), (Hstyle w2 H2).
  destruct (decide (symbology r = ean13)); [| reflexivity].
  unfold processEAN13.
  pose proof (generateEAN13Barcode_cached (contents r)
                (Some (default 31%Z (fontSize r))) (Some (default 0%Z (offsetLeft r)))
                (Some (default 0%Z (offsetMiddle r))) (Some (default 0%Z (offsetRight r)))
                (record (ToSVG (contents r)) w1) (record (ToSVG (contents r)) w2) s H1 H2 Ht)
    as Hgen.
  destruct (generateEAN13Barcode _ _ _ _ _ (record (ToSVG (contents r)) w1))
    as [[doc1 | e1] w1'];
    destruct (generateEAN13Barcode _ _ _ _ _ (record (ToSVG (contents r)) w2))
      as [[doc2 | e2] w2']; cbn [fst] in Hgen; inversion Hgen; reflexivity.
Qed.

End RequestProperties.

Lemma other_symbology_response_witness :
  example_request_json "HELLO" = Ok "HELLO"
  /\ example_parse_code128 "HELLO" = Ok (code128_request "HELLO")
  /\ symbology (code128_request "HELLO") ≠ ean13
  /\ exists styled w1 t,
       addFontStyle (addSVGDimensions ("<svg viewBox=" +:+ q "0 0 190 72" +:+ " xmlns="
                        +:+ q "http://www.w3.org/2000/svg" +:+ "><path d="
                        +:+ q "M0 0L0 72" +:+ " /></svg>"))
         (record (ToSVG (contents (code128_request "HELLO"))) readable_font)
       = (Ok styled, w1)
       /\ POST example_request_json example_parse_code128 example_options drawing_library
            (addCenterText (fun _ => "95") (fun _ => "70")) "HELLO" readable_font
          = (SvgResponse
               (addCenterText (fun _ => "95") (fun _ => "70") styled
                  (contents (code128_request "HELLO"))
                  (fontSize (code128_request "HELLO"))), w1)
       /\ trace w1 = t ++ ToSVG (contents (code128_request "HELLO")) :: trace readable_font
       /\ forall text, Generate text ∉ t.
Proof.
  split; [reflexivity |]. split; [reflexivity |]. split; [discriminate |].
  exact (other_symbology_response example_request_json example_parse_code128
           example_options drawing_library (addCenterText (fun _ => "95") (fun _ => "70"))
           "HELLO" readable_font "HELLO" (code128_request "HELLO") tt _
           eq_refl eq_refl eq_refl eq_refl ltac:(discriminate)).
Defined.

Lemma request_reads_font_at_most_twice_witness :
  font_reads (trace (POST example_request_json example_parse example_options
                       drawing_library example_addCenterText "8809560223071"
                       unreadable_font).2)
  <= font_reads (trace unreadable_font) + 2
  /\ font_reads (trace (POST example_request_json example_parse example_options
                          drawing_library example_addCenterText "8809560223071"
                          unreadable_font).2) = 2.
Proof.
  split; [| vm_compute; reflexivity].
  exact (proj1 (proj2 (request_reads_font_at_most_twice example_request_json example_parse
                         example_options drawing_library example_addCenterText
                         "8809560223071" unreadable_font))).
Defined.

Lemma response_independent_of_history_witness :
  cachedFontBase64 cached_font = Some "AAEAAA=="
  /\ cachedFontBase64 (getFontBase64 readable_font).2 = Some "AAEAAA=="
  /\ (POST example_request_json example_parse example_options drawing_library
        example_addCenterText "8809560223071" cached_font).1
     = (POST example_request_json example_parse example_options drawing_library
          example_addCenterText "8809560223071" (getFontBase64 readable_font).2).1.
Proof.
  split; [reflexivity |]. split; [reflexivity |].
  exact (response_independent_of_history example_request_json example_parse
           example_options drawing_library example_addCenterText "8809560223071"
           cached_font (getFontBase64 readable_font).2 "AAEAAA=="
           eq_refl eq_refl eq_refl).
Defined.

(** ** The selection *)

Lemma with_isSelected_same (b : BarcodeItem) : with_isSelected b (Item.isSelected b) = b.
Proof. now destruct b. Qed.

(** X17. Toggling the selection of an id twice gives the list back, also
    when several items share the id. *)
Theorem handleToggleSelect_twice (id : string) (barcodes : list BarcodeItem) :
  handleToggleSelect id (handleToggleSelect id barcodes) = barcodes.
Proof.
  unfold handleToggleSelect. rewrite <- list_fmap_compose.
  rewrite <- (list_fmap_id barcodes) at 2.
  apply list_fmap_ext. intros i b _. cbn [compose].
  destruct (decide (Item.id b = id)) as [Hid | Hid].
  - cbn [with_isSelected Item.id Item.isSelected].
    destruct (decide (Item.id b = id)); [| contradiction].
    destruct b; cbn. now rewrite negb_involutive.
  - destruct (decide (Item.id b = id)); [contradiction | reflexivity].
Qed.

Lemma every_selected_false (barcodes : list BarcodeItem) (b : BarcodeItem) :
  b ∈ barcodes -> truthy_opt (Item.svgData b) = false ->
  forallb (fun b => Item.isSelected b && truthy_opt (Item.svgData b)) barcodes = false.
Proof.
  intros Hin Hb. induction Hin as [b l | b c l Hin IH]; cbn [forallb].
  - now rewrite Hb, andb_false_r.
  - now rewrite IH, andb_false_r.
Qed.

Lemma every_selected_generated (barcodes : list BarcodeItem) :
  Forall (fun b => truthy_opt (Item.svgData b) = true) barcodes ->
  forallb (fun b => Item.isSelected b && truthy_opt (Item.svgData b)) barcodes
  = forallb Item.isSelected barcodes.
Proof.
  induction 1 as [| b l Hb _ IH]; [reflexivity |].
  cbn [forallb]. now rewrite Hb, andb_true_r, IH.
Qed.

(** X18. handleSelectAll never selects an item without an image. While
    some item of the list has no image it selects exactly the items that
    have one, however often it is called, so that it never clears the
    selection; when every item has an image it selects all of them unless
    all were selected, and then it deselects all. *)
Theorem handleSelectAll_selection (barcodes : list BarcodeItem) :
  (forall b, b ∈ handleSelectAll barcodes -> Item.isSelected b = true ->
             truthy_opt (Item.svgData b) = true)
  /\ ((exists b, b ∈ barcodes /\ truthy_opt (Item.svgData b) = false) ->
      handleSelectAll barcodes
      = (fun b => with_isSelected b (truthy_opt (Item.svgData b))) <$> barcodes
      /\ handleSelectAll (handleSelectAll barcodes) = handleSelectAll barcodes)
  /\ (Forall (fun b => truthy_opt (Item.svgData b) = true) barcodes ->
      handleSelectAll barcodes
      = (fun b => with_isSelected b (negb (forallb Item.isSelected barcodes))) <$> barcodes).
Proof.
  assert (Hmixed : forall l, (exists b, b ∈ l /\ truthy_opt (Item.svgData b) = false) ->
            handleSelectAll l
            = (fun b => with_isSelected b (truthy_opt (Item.svgData b))) <$> l).
  { intros l (b & Hin & Hb). unfold handleSelectAll.
    rewrite (every_selected_false l b Hin Hb). apply list_fmap_ext. intros i c _.
    cbn. now destruct (truthy_opt (Item.svgData c)). }
  split; [| split].
  - intros b Hin Hsel. unfold handleSelectAll in Hin.
    apply list_elem_of_fmap in Hin as (c & -> & _).
    cbn [with_isSelected Item.isSelected Item.svgData] in *.
    destruct (truthy_opt (Item.svgData c)); [reflexivity | discriminate].
  - intros (b & Hin & Hb). split; [apply Hmixed; eauto |].
    rewrite (Hmixed barcodes) at 1 by eauto.
    rewrite Hmixed.
    + rewrite (Hmixed barcodes) by eauto. rewrite <- list_fmap_compose.
      apply list_fmap_ext. intros i c _. cbn. reflexivity.
    + exists (with_isSelected b (truthy_opt (Item.svgData b))). split; [| exact Hb].
      apply list_elem_of_fmap. exists b. split; [reflexivity | exact Hin].
  - intros Hall. unfold handleSelectAll. rewrite (every_selected_generated _ Hall).
    apply Forall_fmap_ext_1. eapply Forall_impl; [exact Hall |].
    intros b Hb. cbn beta in *. now rewrite Hb.
Qed.

Lemma handleSelectAll_selection_witness :
  (exists b, b ∈ generated_item "2" code128 "A" "<svg>A</svg>" :: initial_barcodes
             /\ truthy_opt (Item.svgData b) = false)
  /\ handleSelectAll (handleSelectAll
       (generated_item "2" code128 "A" "<svg>A</svg>" :: initial_barcodes))
     = handleSelectAll (generated_item "2" code128 "A" "<svg>A</svg>" :: initial_barcodes)
  /\ Item.isSelected <$> handleSelectAll
       (generated_item "2" code128 "A" "<svg>A</svg>" :: initial_barcodes)
     = [true; false].
Proof.
  assert (H : exists b, b ∈ generated_item "2" code128 "A" "<svg>A</svg>" :: initial_barcodes
                        /\ truthy_opt (Item.svgData b) = false).
  { eexists. split; [right; left | reflexivity]. }
  split; [exact H |]. split; [| reflexivity].
  exact (proj2 (proj1 (proj2 (handleSelectAll_selection
           (generated_item "2" code128 "A" "<svg>A</svg>" :: initial_barcodes))) H)).
Defined.

(** ** generateBarcode and the buttons *)

(** X19. generateBarcode resolves either to an image and no error, or to
    an error and no image. An image is the text of an ok response, it is
    not empty and not blank, the validation accepted the contents, and the
    processed contents beside it are the validated contents, or the
    contents of the item when the validation gave none. *)
Theorem generateBarcode_image_or_error
    (validateBarcodeInput : string -> Symbology -> Validation) (settings : BarcodeSettings)
    (fetch_preview : PreviewBody -> fetched) (item : BarcodeItem) :
  let validation := validateBarcodeInput (Item.contents item) (Item.symbology item) in
  let finalContents := or_else (validated_contents validation) (Item.contents item) in
  let r := generateBarcode validateBarcodeInput settings fetch_preview item in
  (exists svgText,
      r = {| Item.result_svgData := Some svgText; Item.result_error := None;
             Item.result_processedContents := Some finalContents |}
      /\ truthy svgText = true /\ blank svgText = false
      /\ valid validation = true
      /\ fetch_preview {| body_contents := finalContents;
                          body_symbology := Item.symbology item;
                          body_settings := settings |} = ResponseOk (Ok svgText))
  \/ (exists error, r = generated_error error).
Proof.
  intros validation finalContents r. subst r. unfold generateBarcode.
  fold validation. fold finalContents.
  destruct (valid validation) eqn:Hvalid; cbn [negb]; [| right; eauto].
  destruct (fetch_preview _) as [err | [[| error] | e] | [svgText | e]] eqn:Hfetch;
    try (right; eauto; fail).
  destruct (truthy svgText) eqn:Ht; cbn [negb orb]; [| right; eauto].
  destruct (blank svgText) eqn:Hb; [right; eauto |].
  left. exists svgText. repeat split; (reflexivity || assumption).
Qed.

Lemma made_by_generateBarcode_svgData
    (validateBarcodeInput : string -> Symbology -> Validation) (r : Item.Generated) :
  made_by_generateBarcode validateBarcodeInput r ->
  truthy_opt (Item.result_svgData r)
  = match Item.result_svgData r with
    | Some s => truthy s && negb (blank s)
    | None => false
    end.
Proof.
  intros (settings & fetch_preview & item & ->). unfold generateBarcode.
  destruct (valid _); cbn [negb]; [| reflexivity].
  destruct (fetch_preview _) as [err | [[| error] | e] | [svgText | e]]; try reflexivity.
  destruct (truthy svgText) eqn:Ht; cbn [negb orb]; [| reflexivity].
  destruct (blank svgText) eqn:Hb; [reflexivity |].
  cbn. now rewrite Ht, Hb.
Qed.

(** The items whose image, when they have one, is not blank. *)
Lemma image_not_blank_same (b c : BarcodeItem) :
  Item.svgData c = Item.svgData b ->
  truthy_opt (Item.svgData b) = has_svgData b ->
  truthy_opt (Item.svgData c) = has_svgData c.
Proof. unfold has_svgData. now intros ->. Qed.

Lemma step_images_not_blank (validateBarcodeInput : string -> Symbology -> Validation)
    (barcodes : list BarcodeItem) (a : action) :
  page_action validateBarcodeInput a ->
  Forall (fun b => truthy_opt (Item.svgData b) = has_svgData b) barcodes ->
  Forall (fun b => truthy_opt (Item.svgData b) = has_svgData b) (step barcodes a).
Proof.
  intros Ha Hinv.
  assert (Hmap : forall f : BarcodeItem -> BarcodeItem,
            (forall b, truthy_opt (Item.svgData b) = has_svgData b ->
                       truthy_opt (Item.svgData (f b)) = has_svgData (f b)) ->
            Forall (fun b => truthy_opt (Item.svgData b) = has_svgData b) (f <$> barcodes)).
  { intros f Hf. apply Forall_fmap. eapply Forall_impl; [exact Hinv |]. exact Hf. }
  assert (Hgen : forall b r, made_by_generateBarcode validateBarcodeInput r ->
            truthy_opt (Item.svgData (with_generated b r)) = has_svgData (with_generated b r)).
  { intros b r Hr. unfold has_svgData. cbn [with_generated Item.svgData].
    exact (made_by_generateBarcode_svgData validateBarcodeInput r Hr). }
  destruct a as [now | id | id updates | id | | id r | results]; cbn [step page_action] in *.
  - unfold handleAddBarcode. destruct (decide (MAX_BARCODES <= length barcodes)); [exact Hinv |].
    apply Forall_app. split; [exact Hinv |]. now repeat constructor.
  - unfold handleDeleteBarcode. destruct (decide (length barcodes <= 1)); [exact Hinv |].
    apply Forall_forall. intros b Hb. apply list_elem_of_filter in Hb as [_ Hb].
    rewrite Forall_forall in Hinv. now apply Hinv.
  - apply Hmap. intros b Hb. destruct (decide (Item.id b = id)); [| exact Hb].
    apply (image_not_blank_same b); [| exact Hb].
    cbn [spread Item.svgData]. now rewrite Ha.
  - apply Hmap. intros b Hb. destruct (decide (Item.id b = id)); [| exact Hb].
    now apply (image_not_blank_same b).
  - apply Hmap. intros b Hb. now apply (image_not_blank_same b).
  - unfold handleGenerateOne. destruct (list_find _ barcodes); [| exact Hinv].
    apply Hmap. intros b Hb. destruct (decide (Item.id b = id)); [| exact Hb].
    now apply Hgen.
  - apply Hmap. intros b Hb.
    destruct (list_find (fun r => r.1 = Item.id b) results) as [[i [id r]] |] eqn:Hfind.
    + apply Hgen. apply list_find_Some in Hfind as (Hi & _ & _).
      rewrite Forall_forall in Ha. apply (Ha (id, r)).
      now apply list_elem_of_lookup_2 in Hi.
    + reflexivity.
Qed.

Lemma filter_length_agree (P Q : BarcodeItem -> Prop)
    `{forall b, Decision (P b)} `{forall b, Decision (Q b)} (l : list BarcodeItem) :
  Forall (fun b => P b <-> Q b) l -> filter P l = filter Q l.
Proof.
  induction 1 as [| b l Hb _ IH]; [reflexivity |].
  rewrite !filter_cons, IH.
  destruct (decide (P b)), (decide (Q b)); tauto.
Qed.

(** ** The files of the archive *)

Lemma substring_0_length (n : nat) (s : string) :
  String.length (String.substring 0 n s) = Nat.min n (String.length s).
Proof.
  revert s. induction n as [| n IH]; intros [| c s]; cbn; try reflexivity.
  now rewrite IH.
Qed.

Lemma lastIndexOf_lt (c : ascii) (s : string) (i : nat) :
  lastIndexOf c s = Some i -> i < String.length s.
Proof.
  revert i. induction s as [| a s IH]; intros i H; [discriminate H |].
  cbn in H. destruct (lastIndexOf c s) as [j |].
  - inversion H; subst. cbn. pose proof (IH j eq_refl). lia.
  - destruct (bool_decide (a = c)); [| discriminate H]. inversion H; subst. cbn. lia.
Qed.

Lemma ends_with_cons (c a : ascii) (s : string) :
  s ≠ EmptyString -> ends_with c (String a s) = ends_with c s.
Proof. intros Hs. destruct s; [contradiction | reflexivity]. Qed.

Lemma ends_with_snoc (c : ascii) (s : string) :
  ends_with c (s +:+ String c EmptyString) = true.
Proof.
  induction s as [| a s IH].
  - cbn. now apply bool_decide_eq_true.
  - rewrite append_cons, ends_with_cons; [exact IH |].
    intros E. apply (f_equal String.length) in E. rewrite length_append in E.
    cbn in E. lia.
Qed.

Lemma forceTrailingSlash_ends (path : string) :
  ends_with "/" (forceTrailingSlash path) = true.
Proof.
  unfold forceTrailingSlash. destruct (ends_with "/" path) eqn:E; [exact E |].
  apply ends_with_snoc.
Qed.

(** The parent of a folder is shorter than the name the folder was asked
    for. *)
Lemma parentFolder_shorter (name : string) :
  truthy (parentFolder (forceTrailingSlash name)) = true ->
  String.length (parentFolder (forceTrailingSlash name)) < String.length name.
Proof.
  unfold parentFolder. rewrite forceTrailingSlash_ends.
  assert (Hstrip : String.length
                     (String.substring 0 (String.length (forceTrailingSlash name) - 1)
                        (forceTrailingSlash name)) <= String.length name).
  { rewrite substring_0_length. unfold forceTrailingSlash.
    destruct (ends_with "/" name); [lia |]. rewrite length_append. cbn. lia. }
  destruct (lastIndexOf "/" _) as [i |] eqn:Hi; [| discriminate].
  apply lastIndexOf_lt in Hi.
  destruct (decide (0 < i)); [| discriminate]. intros _.
  rewrite substring_0_length. lia.
Qed.

(** The length of the name is enough fuel: more of it changes nothing. *)
Lemma folderAdd_fuel (fuel : nat) (name : string) (folders : gset string) :
  String.length name <= fuel ->
  folderAdd fuel name folders = folderAdd (String.length name) name folders.
Proof.
  assert (H : forall fuel1 fuel2 name, String.length name <= fuel1 ->
            String.length name <= fuel2 ->
            folderAdd fuel1 name folders = folderAdd fuel2 name folders).
  { clear fuel name. induction fuel1 as [| fuel1 IH]; intros fuel2 name H1 H2.
    - destruct name; [| cbn in H1; lia].
      destruct fuel2; [reflexivity |]. cbn. reflexivity.
    - destruct fuel2 as [| fuel2].
      + destruct name; [| cbn in H2; lia]. cbn. reflexivity.
      + cbn [folderAdd].
        destruct (decide (forceTrailingSlash name ∈ folders)); [reflexivity |].
        destruct (truthy (parentFolder (forceTrailingSlash name))) eqn:Hp; [| reflexivity].
        pose proof (parentFolder_shorter name Hp).
        rewrite (IH fuel2) by lia. reflexivity. }
  intros Hfuel. apply H; [exact Hfuel | lia].
Qed.

Lemma has_char_ends_with (c : ascii) (s : string) :
  has_char c s = false -> ends_with c s = false.
Proof.
  induction s as [| a s IH]; intros H; [reflexivity |].
  cbn [has_char] in H. apply orb_false_iff in H as [Ha Hs].
  destruct s; [exact Ha | exact (IH Hs)].
Qed.

Lemma has_char_lastIndexOf (c : ascii) (s : string) :
  has_char c s = false -> lastIndexOf c s = None.
Proof.
  induction s as [| a s IH]; intros H; [reflexivity |].
  cbn [has_char] in H. apply orb_false_iff in H as [Ha Hs].
  cbn. now rewrite (IH Hs), Ha.
Qed.

(** A name without a slash is in no folder. *)
Lemma file_folders_plain (name : string) (folders : gset string) :
  has_char "/" name = false -> file_folders name folders = folders.
Proof.
  intros H. unfold file_folders, parentFolder.
  now rewrite (has_char_ends_with _ _ H), (has_char_lastIndexOf _ _ H).
Qed.

Lemma zip_step_adds (vars : zip_vars) (item : BarcodeItem) :
  has_svgData item = true ->
  exists name,
    added (zip_step vars item) = added vars ++ [name]
    /\ zip_files (zip_step vars item) = <[name := image item]> (zip_files vars)
    /\ zip_folders (zip_step vars item) = file_folders name (zip_folders vars).
Proof.
  intros Hhas. unfold zip_step, image. rewrite Hhas. unfold has_svgData in Hhas.
  destruct (Item.svgData item) as [data |]; [| discriminate].
  destruct (filenameCount vars !! _); eexists; repeat split; reflexivity.
Qed.

Lemma list_to_map_snoc_union (l : list (string * string)) (name data : string)
    (m : gmap string string) :
  list_to_map (l ++ [(name, data)]) ∪ m = list_to_map l ∪ <[name := data]> m.
Proof.
  induction l as [| [n d] l IH]; cbn [app list_to_map foldr].
  - rewrite <- insert_union_l. now rewrite !(left_id ∅ (∪)).
  - cbn. rewrite <- !insert_union_l. now rewrite IH.
Qed.

Lemma zip_fold_files (vars : zip_vars) (items : list BarcodeItem) :
  Forall (fun b => has_svgData b = true) items ->
  exists names,
    added (foldl zip_step vars items) = added vars ++ names
    /\ length names = length items
    /\ zip_files (foldl zip_step vars items)
       = list_to_map (reverse (zip names (image <$> items))) ∪ zip_files vars
    /\ zip_folders (foldl zip_step vars items)
       = foldl (fun folders name => file_folders name folders) (zip_folders vars) names.
Proof.
  intros Hall. revert vars. induction Hall as [| item items Hitem _ IH]; intros vars.
  - exists []. cbn. rewrite app_nil_r. repeat split. now rewrite (left_id ∅ (∪)).
  - cbn [foldl].
    destruct (zip_step_adds vars item Hitem) as (name & Hadded & Hfiles & Hfolders).
    destruct (IH (zip_step vars item)) as (names & Ha & Hlen & Hf & Hd).
    exists (name :: names). split; [| split; [| split]].
    + rewrite Ha, Hadded. now rewrite <- app_assoc.
    + cbn. now rewrite Hlen.
    + rewrite Hf, Hfiles. cbn [fmap list_fmap zip zip_with]. rewrite reverse_cons.
      now rewrite list_to_map_snoc_union.
    + rewrite Hd, Hfolders. reflexivity.
Qed.

Lemma zip_loop_files (items : list BarcodeItem) :
  Forall (fun b => has_svgData b = true) items ->
  length (added (zip_loop items)) = length items
  /\ zip_files (zip_loop items)
     = list_to_map (reverse (zip (added (zip_loop items)) (image <$> items))).
Proof.
  intros Hall. unfold zip_loop.
  destruct (zip_fold_files (ZipVars ∅ ∅ ∅ []) items Hall) as (names & Ha & Hlen & Hf & _).
  cbn [added zip_files app] in *. rewrite Ha, Hf. split; [exact Hlen |].
  now rewrite (right_id ∅ (∪)).
Qed.

Lemma zip_loop_folders (items : list BarcodeItem) :
  Forall (fun b => has_svgData b = true) items ->
  zip_folders (zip_loop items)
  = foldl (fun folders name => file_folders name folders) ∅ (added (zip_loop items)).
Proof.
  intros Hall. unfold zip_loop.
  destruct (zip_fold_files (ZipVars ∅ ∅ ∅ []) items Hall) as (names & Ha & _ & _ & Hd).
  cbn [added zip_folders app] in *. now rewrite Ha, Hd.
Qed.

Lemma ends_with_app (c : ascii) (s t : string) :
  t ≠ EmptyString -> ends_with c (s +:+ t) = ends_with c t.
Proof.
  intros Ht. induction s as [| a s IH]; [reflexivity |].
  rewrite append_cons, ends_with_cons; [exact IH |].
  intros E. apply Ht. destruct s; [exact E | rewrite append_cons in E; discriminate E].
Qed.

Lemma folderAdd_ends (fuel : nat) (name : string) (folders : gset string) (x : string) :
  x ∈ folderAdd fuel name folders -> x ∈ folders \/ ends_with "/" x = true.
Proof.
  revert name. induction fuel as [| fuel IH]; intros name Hx; cbn [folderAdd] in Hx;
    (destruct (decide (forceTrailingSlash name ∈ folders)); [now left |]);
    apply elem_of_union in Hx as [Hx | Hx];
    try (apply elem_of_singleton in Hx as ->; right; apply forceTrailingSlash_ends).
  - now left.
  - destruct (truthy (parentFolder (forceTrailingSlash name))); [now apply IH in Hx | now left].
Qed.

Lemma itemsToDownload_have_svgData (selectedOnly : bool) (barcodes : list BarcodeItem) :
  Forall (fun b => has_svgData b = true) (itemsToDownload selectedOnly barcodes).
Proof.
  apply Forall_forall. intros b Hb. unfold itemsToDownload in Hb.
  destruct selectedOnly; apply list_elem_of_filter in Hb as [Hb _]; [| exact Hb].
  now apply andb_true_iff in Hb as [_ Hb].
Qed.

Lemma zip_loop_not_empty (items : list BarcodeItem) :
  Forall (fun b => has_svgData b = true) items -> items ≠ [] ->
  size (zip_files (zip_loop items)) ≠ 0.
Proof.
  intros Hall Hne. destruct (zip_loop_files items Hall) as [Hlen ->].
  destruct items as [| item items]; [contradiction |].
  destruct (added (zip_loop (item :: items))) as [| name names]; [discriminate Hlen |].
  cbn [fmap list_fmap zip zip_with]. rewrite reverse_cons.
  intros Hsize. apply map_size_empty_iff in Hsize.
  assert (Hsome : is_Some (list_to_map (M := gmap string string)
                    (reverse (zip names (image <$> items)) ++ [(name, image item)]) !! name)).
  { apply not_eq_None_Some. intros Hnone.
    apply (not_elem_of_list_to_map_2 _ _ Hnone).
    rewrite fmap_app. apply elem_of_app. right. left. }
  rewrite Hsize in Hsome. rewrite lookup_empty in Hsome. now destruct Hsome.
Qed.

(** handleDownloadZip alerts only when no item qualifies. *)
Lemma handleDownloadZip_none (selectedOnly : bool) (barcodes : list BarcodeItem) :
  handleDownloadZip selectedOnly barcodes = None ->
  itemsToDownload selectedOnly barcodes = [].
Proof.
  pose proof (itemsToDownload_have_svgData selectedOnly barcodes) as Hall.
  unfold handleDownloadZip. cbn zeta.
  destruct (itemsToDownload selectedOnly barcodes) as [| item items]; [reflexivity |].
  pose proof (zip_loop_not_empty (item :: items) Hall ltac:(discriminate)) as Hsize.
  destruct (decide (length (item :: items) = 0)) as [Hlen | _]; [discriminate Hlen |].
  destruct (decide (fileCount (zip_loop (item :: items)) = 0)) as [Hcount | _];
    [unfold fileCount in Hcount; lia |].
  discriminate.
Qed.

(** With an item that qualifies handleDownloadZip downloads the archive of
    its loop. *)
Lemma handleDownloadZip_some (selectedOnly : bool) (barcodes : list BarcodeItem) :
  itemsToDownload selectedOnly barcodes ≠ [] ->
  handleDownloadZip selectedOnly barcodes
  = Some (zip_files (zip_loop (itemsToDownload selectedOnly barcodes))).
Proof.
  intros Hne.
  destruct (handleDownloadZip selectedOnly barcodes) as [files |] eqn:Hzip.
  - unfold handleDownloadZip in Hzip. cbn zeta in Hzip.
    destruct (decide (length (itemsToDownload selectedOnly barcodes) = 0));
      [discriminate Hzip |].
    destruct (decide (fileCount (zip_loop (itemsToDownload selectedOnly barcodes)) = 0));
      [discriminate Hzip | now symmetry].
  - now apply handleDownloadZip_none in Hzip.
Qed.

(** X21. handleDownloadZip downloads nothing exactly when no item of the
    list qualifies (has an image that is not blank and, for the selection,
    is selected); otherwise it downloads the archive that its loop fills,
    which has a file. The second alert, for an archive without files, is
    never shown. *)
Theorem handleDownloadZip_downloads (selectedOnly : bool) (barcodes : list BarcodeItem) :
  (handleDownloadZip selectedOnly barcodes = None <->
   itemsToDownload selectedOnly barcodes = [])
  /\ (itemsToDownload selectedOnly barcodes ≠ [] ->
      handleDownloadZip selectedOnly barcodes
      = Some (zip_files (zip_loop (itemsToDownload selectedOnly barcodes)))
      /\ size (zip_files (zip_loop (itemsToDownload selectedOnly barcodes))) ≠ 0).
Proof.
  pose proof (itemsToDownload_have_svgData selectedOnly barcodes) as Hall.
  unfold handleDownloadZip. cbn zeta.
  destruct (itemsToDownload selectedOnly barcodes) as [| item items] eqn:Hitems.
  - cbn. split; [split; reflexivity | intros H; contradiction].
  - pose proof (zip_loop_not_empty (item :: items) Hall ltac:(discriminate)) as Hsize.
    destruct (decide (length (item :: items) = 0)) as [Hlen | _]; [discriminate Hlen |].
    destruct (decide (fileCount (zip_loop (item :: items)) = 0)) as [Hcount | _];
      [unfold fileCount in Hcount; lia |].
    split; [split; discriminate | intros _; split; [reflexivity | exact Hsize]].
Qed.

Lemma handleDownloadZip_downloads_witness :
  itemsToDownload false colliding_items ≠ []
  /\ handleDownloadZip false colliding_items
     = Some (zip_files (zip_loop (itemsToDownload false colliding_items))).
Proof.
  split; [discriminate |].
  exact (proj1 (proj2 (handleDownloadZip_downloads false colliding_items)
                  ltac:(discriminate))).
Defined.

(** X22. Of items that all have an image the loop logs one filename each.
    The file entries of the archive are the map from the logged filenames
    to the images, an item replacing the file of an earlier item with the
    same filename: every file entry holds the image of an item that was
    given its name, and every logged name is a file entry. The folder
    entries of the archive are those that zip.file makes for the logged
    filenames, one after the other; a filename without a slash makes
    none. *)
Theorem zip_archive_holds_images (items : list BarcodeItem) :
  Forall (fun b => has_svgData b = true) items ->
  length (added (zip_loop items)) = length items
  /\ zip_files (zip_loop items)
     = list_to_map (reverse (zip (added (zip_loop items)) (image <$> items)))
  /\ zip_folders (zip_loop items)
     = foldl (fun folders name => file_folders name folders) ∅ (added (zip_loop items))
  /\ (forall name folders, has_char "/" name = false -> file_folders name folders = folders)
  /\ (forall name data, zip_files (zip_loop items) !! name = Some data ->
        exists i item, items !! i = Some item /\ added (zip_loop items) !! i = Some name
                       /\ Item.svgData item = Some data)
  /\ (forall name, name ∈ added (zip_loop items) ->
        is_Some (zip_files (zip_loop items) !! name)).
Proof.
  intros Hall. destruct (zip_loop_files items Hall) as [Hlen Hfiles].
  split; [exact Hlen |]. split; [exact Hfiles |].
  split; [exact (zip_loop_folders items Hall) |].
  split; [exact file_folders_plain |]. split.
  - intros name data Hlookup. rewrite Hfiles in Hlookup.
    apply elem_of_list_to_map_2 in Hlookup. rewrite elem_of_reverse in Hlookup.
    apply list_elem_of_lookup in Hlookup as [i Hi].
    apply lookup_zip_with_Some in Hi as (n & d & Heq & Hn & Hd).
    inversion Heq; subst n d. rewrite list_lookup_fmap in Hd.
    destruct (items !! i) as [item |] eqn:Hitem; [| discriminate].
    exists i, item. split; [exact Hitem |]. split; [exact Hn |].
    cbn in Hd. inversion Hd as [Himage]. unfold image.
    rewrite Forall_forall in Hall.
    pose proof (Hall item (list_elem_of_lookup_2 _ _ _ Hitem)) as Hhas.
    unfold has_svgData in Hhas. destruct (Item.svgData item); [reflexivity | discriminate].
  - intros name Hin. rewrite Hfiles. apply not_eq_None_Some. intros Hnone.
    apply (not_elem_of_list_to_map_2 _ _ Hnone).
    rewrite fmap_reverse, elem_of_reverse.
    rewrite fst_zip; [exact Hin |]. rewrite length_fmap. lia.
Qed.

Lemma zip_archive_holds_images_witness :
  Forall (fun b => has_svgData b = true) [generated_item "1" code128 "A/B" "<svg>A</svg>"]
  /\ added (zip_loop [generated_item "1" code128 "A/B" "<svg>A</svg>"])
     = ["code128_A/B.svg"]
  /\ zip_folders (zip_loop [generated_item "1" code128 "A/B" "<svg>A</svg>"])
     = foldl (fun folders name => file_folders name folders) ∅
         (added (zip_loop [generated_item "1" code128 "A/B" "<svg>A</svg>"]))
  /\ file_folders "code128_A/B.svg" ∅ = {[ "code128_A/" ]}
  /\ fileCount (zip_loop [generated_item "1" code128 "A/B" "<svg>A</svg>"]) = 2.
Proof.
  assert (H : Forall (fun b => has_svgData b = true)
                [generated_item "1" code128 "A/B" "<svg>A</svg>"])
    by (repeat constructor).
  split; [exact H |]. split; [vm_compute; reflexivity |].
  split; [exact (proj1 (proj2 (proj2 (zip_archive_holds_images _ H)))) |].
  split; vm_compute; reflexivity.
Defined.

(** ** Filenames of contents without an underscore *)

Lemma split_plain (c : ascii) (s s' r r' : string) :
  has_char c s = false -> has_char c s' = false ->
  s +:+ String c r = s' +:+ String c r' -> s = s' /\ r = r'.
Proof.
  intros Hs Hs' E.
  pose proof (split_at_first_char c s r Hs) as H1.
  pose proof (split_at_first_char c s' r' Hs') as H2.
  rewrite E in H1. rewrite H1 in H2. now inversion H2.
Qed.

Lemma symbology_text_plain (s : Symbology) : has_char "_" (symbology_text s) = false.
Proof. now destruct s. Qed.

Lemma symbology_text_inj (s s' : Symbology) : symbology_text s = symbology_text s' -> s = s'.
Proof. destruct s, s'; (reflexivity || discriminate). Qed.

(** Two numbered names of base names without an underscore in the
    contents are equal only for the same base name and number. *)
Lemma numbered_name_inj (s1 s2 : Symbology) (x1 x2 : string) (k1 k2 : nat) :
  has_char "_" x1 = false -> has_char "_" x2 = false ->
  numbered_name (symbology_text s1 +:+ "_" +:+ x1) k1
  = numbered_name (symbology_text s2 +:+ "_" +:+ x2) k2 ->
  symbology_text s1 +:+ "_" +:+ x1 = symbology_text s2 +:+ "_" +:+ x2 /\ k1 = k2.
Proof.
  intros H1 H2 E.
  assert (Hcut : forall t u : string, t +:+ "_" +:+ u = t +:+ String "_" u) by reflexivity.
  assert (Hnum : forall k, has_char "_" (pretty (S k)) = false)
    by (intros k; now apply pretty_nat_plain).
  destruct k1 as [| k1], k2 as [| k2]; unfold numbered_name in E.
  - apply append_inj_r in E. now split.
  - exfalso. rewrite <- !append_assoc in E. apply append_inj_r in E.
    rewrite !append_assoc, !Hcut in E.
    apply split_plain in E as [_ E]; try apply symbology_text_plain.
    apply (f_equal (has_char "_")) in E. rewrite has_char_app in E. cbn [has_char] in E.
    rewrite H1, H2 in E. cbn in E. discriminate E.
  - exfalso. rewrite <- !append_assoc in E. apply append_inj_r in E.
    rewrite !append_assoc, !Hcut in E.
    apply split_plain in E as [_ E]; try apply symbology_text_plain.
    apply (f_equal (has_char "_")) in E. rewrite has_char_app in E. cbn [has_char] in E.
    rewrite H1, H2 in E. cbn in E. discriminate E.
  - rewrite <- !append_assoc in E. apply append_inj_r in E.
    rewrite !append_assoc, !Hcut in E.
    apply split_plain in E as [Es E]; try apply symbology_text_plain.
    apply split_plain in E as [Ex Ek]; try assumption.
    apply (inj pretty) in Ek. rewrite Es, Ex. now split.
Qed.

Lemma occurrences_cons (name base : string) (seen : list string) :
  Spec.occurrences name seen <= Spec.occurrences name (base :: seen)
  /\ Spec.occurrences base (base :: seen) = S (Spec.occurrences base seen).
Proof.
  unfold Spec.occurrences. split.
  - rewrite filter_cons. destruct (decide (base = name)); cbn; lia.
  - now rewrite filter_cons_True.
Qed.

Lemma filenames_numbered (seen : list string) (items : list BarcodeItem) (name : string) :
  name ∈ Spec.filenames seen items ->
  exists item k, item ∈ items /\ name = numbered_name (Spec.base_name item) k
                 /\ Spec.occurrences (Spec.base_name item) seen <= k.
Proof.
  revert seen. induction items as [| item items IH]; intros seen Hin; cbn in Hin.
  - now apply elem_of_nil in Hin.
  - destruct (has_svgData item).
    + apply elem_of_cons in Hin as [-> | Hin].
      * exists item, (Spec.occurrences (Spec.base_name item) seen).
        split; [left |]. split; [| lia].
        now destruct (Spec.occurrences (Spec.base_name item) seen).
      * destruct (IH _ Hin) as (it & k & Hit & Hname & Hk).
        exists it, k. split; [now right |]. split; [exact Hname |].
        pose proof (proj1 (occurrences_cons (Spec.base_name it) (Spec.base_name item) seen)).
        lia.
    + destruct (IH _ Hin) as (it & k & Hit & Hname & Hk).
      exists it, k. split; [now right |]. now split.
Qed.

Lemma filenames_distinct (seen : list string) (items : list BarcodeItem) :
  Forall (fun b => has_char "_" (or_else (Item.processedContents b) (Item.contents b)) = false)
    items ->
  NoDup (Spec.filenames seen items).
Proof.
  intros Hall. revert seen. induction Hall as [| item items Hitem Hall IH]; intros seen.
  - cbn. apply NoDup_nil_2.
  - cbn [Spec.filenames]. destruct (has_svgData item); [| apply IH].
    apply NoDup_cons. split; [| apply IH].
    intros Hin. apply filenames_numbered in Hin as (it & k & Hit & Hname & Hk).
    rewrite Forall_forall in Hall. pose proof (Hall it Hit) as Hplain.
    assert (Hhead : numbered_name (Spec.base_name item)
                      (Spec.occurrences (Spec.base_name item) seen)
                    = numbered_name (Spec.base_name it) k).
    { rewrite <- Hname. now destruct (Spec.occurrences (Spec.base_name item) seen). }
    unfold Spec.base_name in Hhead at 1 3.
    apply numbered_name_inj in Hhead as [Hbase Hnum]; try assumption.
    fold (Spec.base_name item) in Hbase. fold (Spec.base_name it) in Hbase.
    rewrite <- Hbase in Hk.
    rewrite (proj2 (occurrences_cons (Spec.base_name item) (Spec.base_name item) seen)) in Hk.
    lia.
Qed.

(** The name of a folder entry ends in a slash and the name of a file
    entry in .svg: no key of [zip.files] is both. *)
Lemma zip_entries_disjoint (items : list BarcodeItem) (name : string) :
  Forall (fun b => has_svgData b = true) items ->
  name ∈ zip_folders (zip_loop items) -> zip_files (zip_loop items) !! name = None.
Proof.
  intros Hall Hin.
  assert (Hslash : ends_with "/" name = true).
  { rewrite (zip_loop_folders items Hall) in Hin.
    assert (H : forall names (folders : gset string),
              (forall x, x ∈ folders -> ends_with "/" x = true) ->
              forall x, x ∈ foldl (fun folders name => file_folders name folders) folders names ->
                        ends_with "/" x = true).
    { induction names as [| n names IH]; intros folders Hf x Hx; [now apply Hf |].
      cbn [foldl] in Hx. apply (IH (file_folders n folders)); [| exact Hx].
      intros y Hy. unfold file_folders in Hy.
      destruct (truthy (parentFolder n)); [| now apply Hf].
      apply folderAdd_ends in Hy as [Hy | Hy]; [now apply Hf | exact Hy]. }
    apply (H (added (zip_loop items)) ∅); [| exact Hin]. intros x Hx. now apply elem_of_empty in Hx. }
  destruct (zip_files (zip_loop items) !! name) as [data |] eqn:Hfile; [| reflexivity].
  exfalso. destruct (zip_loop_files items Hall) as [_ Hfiles].
  rewrite Hfiles in Hfile. apply elem_of_list_to_map_2 in Hfile.
  rewrite elem_of_reverse in Hfile. apply elem_of_zip_l in Hfile.
  rewrite zip_loop_filenames in Hfile.
  apply filenames_numbered in Hfile as (item & k & _ & -> & _).
  assert (Hsvg : ends_with "/" (numbered_name (Spec.base_name item) k) = false).
  { unfold numbered_name. destruct k; rewrite <- ?append_assoc;
      now rewrite ends_with_app by discriminate. }
  congruence.
Qed.

Lemma numbered_name_plain (item : BarcodeItem) (k : nat) :
  has_char "/" (or_else (Item.processedContents item) (Item.contents item)) = false ->
  has_char "/" (numbered_name (Spec.base_name item) k) = false.
Proof.
  intros H. unfold numbered_name, Spec.base_name.
  assert (Hsym : has_char "/" (symbology_text (Item.symbology item)) = false)
    by (now destruct (Item.symbology item)).
  destruct k as [| k]; rewrite !has_char_app, Hsym, H;
    rewrite ?(pretty_nat_plain "/" (S k) eq_refl); reflexivity.
Qed.

(** X23. When no item's processed contents (or contents, when it has no
    processed contents) holds an underscore, the filenames of the loop are
    distinct: the archive has one file entry per item, under the filename
    logged for it and with its image. When none holds a slash either, the
    archive has no folder entry, so that the number of its entries, which
    the handler counts, is the number of the items. *)
Theorem zip_one_file_per_item (items : list BarcodeItem) :
  Forall (fun b => has_svgData b = true) items ->
  Forall (fun b => has_char "_" (or_else (Item.processedContents b) (Item.contents b)) = false)
    items ->
  NoDup (added (zip_loop items))
  /\ size (zip_files (zip_loop items)) = length items
  /\ (forall i item, items !! i = Some item ->
       exists name, added (zip_loop items) !! i = Some name
                    /\ zip_files (zip_loop items) !! name = Item.svgData item)
  /\ (Forall (fun b => has_char "/" (or_else (Item.processedContents b) (Item.contents b))
                        = false) items ->
      zip_folders (zip_loop items) = ∅ /\ fileCount (zip_loop items) = length items).
Proof.
  intros Hhas Hplain.
  assert (Hnd : NoDup (added (zip_loop items)))
    by (rewrite zip_loop_filenames; now apply filenames_distinct).
  destruct (zip_loop_files items Hhas) as [Hlen Hfiles].
  assert (Hkeys : NoDup (reverse (zip (added (zip_loop items)) (image <$> items))).*1).
  { rewrite fmap_reverse, reverse_Permutation.
    rewrite fst_zip; [exact Hnd |]. rewrite length_fmap. lia. }
  assert (Hsize : size (zip_files (zip_loop items)) = length items).
  { rewrite Hfiles, (map_size_list_to_map _ Hkeys).
    rewrite length_reverse, length_zip_with, length_fmap. lia. }
  split; [exact Hnd |]. split; [exact Hsize |]. split.
  - intros i item Hitem.
    destruct (lookup_lt_is_Some_2 (added (zip_loop items)) i) as [name Hname].
    { rewrite Hlen. now apply lookup_lt_Some in Hitem. }
    exists name. split; [exact Hname |].
    rewrite Forall_forall in Hhas.
    pose proof (Hhas item (list_elem_of_lookup_2 _ _ _ Hitem)) as Hdata.
    unfold has_svgData in Hdata.
    destruct (Item.svgData item) as [data |] eqn:Hsvg; [| discriminate].
    rewrite Hfiles. apply (elem_of_list_to_map_1 _ _ _ Hkeys).
    rewrite elem_of_reverse. apply (list_elem_of_lookup_2 _ i).
    apply lookup_zip_with_Some. exists name, data. split; [reflexivity |].
    split; [exact Hname |]. rewrite list_lookup_fmap, Hitem. cbn. unfold image.
    now rewrite Hsvg.
  - intros Hslash.
    assert (Hnone : zip_folders (zip_loop items) = ∅).
    { rewrite (zip_loop_folders items Hhas).
      assert (Hnames : Forall (fun name => has_char "/" name = false)
                         (added (zip_loop items))).
      { apply Forall_forall. intros name Hin. rewrite zip_loop_filenames in Hin.
        apply filenames_numbered in Hin as (item & k & Hitem & -> & _).
        apply numbered_name_plain. rewrite Forall_forall in Hslash. now apply Hslash. }
      generalize dependent (added (zip_loop items)). intros names _ _ _ _ Hnames.
      induction Hnames as [| name names Hname _ IH]; [reflexivity |].
      cbn [foldl]. now rewrite (file_folders_plain name ∅ Hname). }
    split; [exact Hnone |]. unfold fileCount. rewrite Hnone, Hsize, size_empty. lia.
Qed.

Lemma zip_one_file_per_item_witness :
  Forall (fun b => has_svgData b = true)
    [ generated_item "1" code128 "A" "<svg>first</svg>";
      generated_item "2" code128 "A" "<svg>second</svg>" ]
  /\ Forall (fun b => has_char "_" (or_else (Item.processedContents b) (Item.contents b))
                      = false)
       [ generated_item "1" code128 "A" "<svg>first</svg>";
         generated_item "2" code128 "A" "<svg>second</svg>" ]
  /\ added (zip_loop [ generated_item "1" code128 "A" "<svg>first</svg>";
                       generated_item "2" code128 "A" "<svg>second</svg>" ])
     = ["code128_A.svg"; "code128_A_1.svg"]
  /\ size (zip_files (zip_loop [ generated_item "1" code128 "A" "<svg>first</svg>";
                                 generated_item "2" code128 "A" "<svg>second</svg>" ]))
     = length [ generated_item "1" code128 "A" "<svg>first</svg>";
                generated_item "2" code128 "A" "<svg>second</svg>" ].
Proof.
  assert (H1 : Forall (fun b => has_svgData b = true)
    [ generated_item "1" code128 "A" "<svg>first</svg>";
      generated_item "2" code128 "A" "<svg>second</svg>" ]) by (repeat constructor).
  assert (H2 : Forall (fun b => has_char "_" (or_else (Item.processedContents b)
                                               (Item.contents b)) = false)
    [ generated_item "1" code128 "A" "<svg>first</svg>";
      generated_item "2" code128 "A" "<svg>second</svg>" ]) by (repeat constructor).
  split; [exact H1 |]. split; [exact H2 |]. split; [vm_compute; reflexivity |].
  exact (proj1 (proj2 (zip_one_file_per_item _ H1 H2))).
Defined.

(** ** Edits, generation of all items and the single download *)

Lemma zip_step_same (vars : zip_vars) (b c : BarcodeItem) :
  Item.svgData c = Item.svgData b -> Spec.base_name c = Spec.base_name b ->
  zip_step vars c = zip_step vars b.
Proof.
  intros Hs Hb. unfold Spec.base_name in Hb. unfold zip_step, has_svgData.
  now rewrite Hs, Hb.
Qed.

(** A change of the items that keeps image, selection and base name
    keeps the archive. *)
Lemma handleDownloadZip_same (f : BarcodeItem -> BarcodeItem) (selectedOnly : bool)
    (barcodes : list BarcodeItem) :
  Forall (fun b => Item.svgData (f b) = Item.svgData b
                   /\ Item.isSelected (f b) = Item.isSelected b
                   /\ Spec.base_name (f b) = Spec.base_name b) barcodes ->
  handleDownloadZip selectedOnly (f <$> barcodes) = handleDownloadZip selectedOnly barcodes.
Proof.
  intros Hall.
  assert (Hitems : itemsToDownload selectedOnly (f <$> barcodes)
                   = f <$> itemsToDownload selectedOnly barcodes).
  { unfold itemsToDownload.
    destruct selectedOnly; induction Hall as [| b l (Hs & Hsel & _) _ IH];
      try reflexivity;
      assert (Hhas : has_svgData (f b) = has_svgData b)
        by (unfold has_svgData; now rewrite Hs);
      rewrite fmap_cons, !filter_cons, Hhas, ?Hsel, IH;
      destruct (decide _); reflexivity. }
  assert (Hkept : Forall (fun b => Item.svgData (f b) = Item.svgData b
                            /\ Spec.base_name (f b) = Spec.base_name b)
                    (itemsToDownload selectedOnly barcodes)).
  { apply Forall_forall. intros b Hb. rewrite Forall_forall in Hall.
    assert (Hin : b ∈ barcodes).
    { unfold itemsToDownload in Hb. destruct selectedOnly;
        now apply list_elem_of_filter in Hb as [_ Hb]. }
    destruct (Hall b Hin) as (Hs & _ & Hn). now split. }
  assert (Hloop : zip_loop (f <$> itemsToDownload selectedOnly barcodes)
                  = zip_loop (itemsToDownload selectedOnly barcodes)).
  { unfold zip_loop. generalize (ZipVars ∅ ∅ ∅ []).
    generalize dependent (itemsToDownload selectedOnly barcodes). intros items _ Hkept.
    induction Hkept as [| b l [Hs Hn] _ IH]; intros vars; [reflexivity |].
    rewrite fmap_cons. cbn [foldl]. rewrite (zip_step_same vars b (f b) Hs Hn). apply IH. }
  unfold handleDownloadZip. cbn zeta. now rewrite Hitems, length_fmap, Hloop.
Qed.

(** X24. Editing the contents of an item leaves its image and its
    processed contents as they are: when the items with the edited id have
    processed contents, both archives and every single download are the
    same after the edit as before, so that they hold the image and the
    filename of the contents that were generated, not of the contents that
    the list shows. *)
Theorem contents_edit_keeps_downloads (selectedOnly : bool) (id contents : string)
    (barcodes : list BarcodeItem) :
  Forall (fun b => Item.id b = id -> truthy_opt (Item.processedContents b) = true) barcodes ->
  handleDownloadZip selectedOnly (handleUpdateBarcode id (contents_update contents) barcodes)
  = handleDownloadZip selectedOnly barcodes
  /\ handleDownloadSVG <$> handleUpdateBarcode id (contents_update contents) barcodes
     = handleDownloadSVG <$> barcodes.
Proof.
  intros Hall.
  assert (Hname : forall b, truthy_opt (Item.processedContents b) = true ->
            or_else (Item.processedContents (spread b (contents_update contents)))
              (Item.contents (spread b (contents_update contents)))
            = or_else (Item.processedContents b) (Item.contents b)).
  { intros b Hb. cbn. unfold or_else. destruct (Item.processedContents b) as [p |];
      [| discriminate Hb]. cbn in Hb. now rewrite Hb. }
  split.
  - unfold handleUpdateBarcode. apply handleDownloadZip_same.
    eapply Forall_impl; [exact Hall |]. intros b Hb. cbn beta in *.
    destruct (decide (Item.id b = id)) as [Hid | _]; [| now repeat split].
    split; [reflexivity |]. split; [reflexivity |].
    unfold Spec.base_name. now rewrite (Hname b (Hb Hid)).
  - unfold handleUpdateBarcode. rewrite <- list_fmap_compose. apply Forall_fmap_ext_1.
    eapply Forall_impl; [exact Hall |]. intros b Hb. cbn beta in *. cbn [compose].
    destruct (decide (Item.id b = id)) as [Hid | _]; [| reflexivity].
    unfold handleDownloadSVG. rewrite (Hname b (Hb Hid)). reflexivity.
Qed.

Lemma contents_edit_keeps_downloads_witness :
  Forall (fun b => Item.id b = "2" -> truthy_opt (Item.processedContents b) = true)
    colliding_items
  /\ handleDownloadZip false (handleUpdateBarcode "2" (contents_update "B") colliding_items)
     = handleDownloadZip false colliding_items
  /\ Item.contents <$> handleUpdateBarcode "2" (contents_update "B") colliding_items
     = ["A"; "B"; "A_1"].
Proof.
  assert (H : Forall (fun b => Item.id b = "2" -> truthy_opt (Item.processedContents b) = true)
                colliding_items) by (repeat constructor).
  split; [exact H |]. split; [| reflexivity].
  exact (proj1 (contents_edit_keeps_downloads false "2" "B" colliding_items H)).
Defined.

(** X25. When the ids of the list differ from each other, generating all
    gives every item the result that generateBarcode resolved to for that
    very item. *)
Theorem handleGenerateAll_own_results (generate : BarcodeItem -> Item.Generated)
    (barcodes : list BarcodeItem) :
  NoDup (Item.id <$> barcodes) ->
  handleGenerateAll ((fun item => (Item.id item, generate item)) <$> barcodes) barcodes
  = (fun b => with_generated b (generate b)) <$> barcodes.
Proof.
  intros Hnd. unfold handleGenerateAll. apply list_fmap_ext. intros i b Hi.
  assert (Hfind : list_find (fun r : string * Item.Generated => r.1 = Item.id b)
                    ((fun item => (Item.id item, generate item)) <$> barcodes)
                  = Some (i, (Item.id b, generate b))).
  { apply list_find_Some. split; [now rewrite list_lookup_fmap, Hi |].
    split; [reflexivity |].
    intros j r Hj Hlt Hr. rewrite list_lookup_fmap in Hj.
    destruct (barcodes !! j) as [c |] eqn:Hc; [| discriminate Hj].
    cbn in Hj. inversion Hj; subst r. cbn in Hr.
    assert (Hij : j = i); [| lia].
    apply (NoDup_lookup _ j i (Item.id b) Hnd); rewrite list_lookup_fmap.
    - rewrite Hc. cbn. now rewrite Hr.
    - now rewrite Hi. }
  now rewrite Hfind.
Qed.

Lemma handleGenerateAll_own_results_witness :
  NoDup (Item.id <$> colliding_items)
  /\ handleGenerateAll
       ((fun item => (Item.id item,
                      generateBarcode example_validate example_settings example_fetch item))
          <$> colliding_items) colliding_items
     = (fun b => with_generated b
                   (generateBarcode example_validate example_settings example_fetch b))
         <$> colliding_items.
Proof.
  assert (H : NoDup (Item.id <$> colliding_items)).
  { apply (bool_decide_unpack _). vm_compute. exact I. }
  split; [exact H |].
  exact (handleGenerateAll_own_results
           (generateBarcode example_validate example_settings example_fetch)
           colliding_items H).
Defined.

(** X26. The single download gives nothing exactly when the item has no
    image or an empty one. An item with an image that is not blank gets in
    an archive of its own one file entry, with the filename and the
    contents of its single download; the folder entries beside it are
    those that zip.file makes for that filename. *)
Theorem handleDownloadSVG_as_archive (item : BarcodeItem) :
  (handleDownloadSVG item = None <-> truthy_opt (Item.svgData item) = false)
  /\ (has_svgData item = true ->
      exists name data,
        handleDownloadSVG item = Some (name, data)
        /\ handleDownloadZip false [item] = Some {[ name := data ]}
        /\ zip_folders (zip_loop [item]) = file_folders name ∅).
Proof.
  split.
  - unfold handleDownloadSVG. destruct (Item.svgData item) as [s |]; cbn; [| tauto].
    destruct (truthy s); split; (discriminate || reflexivity).
  - intros Hhas. pose proof Hhas as Hdata. unfold has_svgData in Hdata.
    destruct (Item.svgData item) as [data |] eqn:Hsvg; [| discriminate].
    apply andb_true_iff in Hdata as [Ht _].
    assert (Hloop : zip_loop [item]
                    = ZipVars {[ Spec.base_name item +:+ ".svg" := 0 ]}
                        {[ Spec.base_name item +:+ ".svg" := data ]}
                        (file_folders (Spec.base_name item +:+ ".svg") ∅)
                        [Spec.base_name item +:+ ".svg"]).
    { unfold zip_loop. cbn [foldl]. unfold zip_step. rewrite Hsvg, Hhas.
      fold (Spec.base_name item). cbn [filenameCount zip_files zip_folders added].
      rewrite lookup_empty. cbn [zip_files]. now rewrite !insert_empty. }
    exists (Spec.base_name item +:+ ".svg"), data. split; [| split].
    + unfold handleDownloadSVG, Spec.base_name. rewrite Hsvg, Ht.
      now rewrite !append_assoc.
    + assert (Hitems : itemsToDownload false [item] = [item]).
      { unfold itemsToDownload. rewrite filter_cons_True by exact Hhas.
        now rewrite filter_nil. }
      rewrite (handleDownloadZip_some false [item]) by (rewrite Hitems; discriminate).
      now rewrite Hitems, Hloop.
    + now rewrite Hloop.
Qed.

Lemma handleDownloadSVG_as_archive_witness :
  has_svgData (generated_item "1" code128 "A/B" "<svg>first</svg>") = true
  /\ exists name data,
       handleDownloadSVG (generated_item "1" code128 "A/B" "<svg>first</svg>")
       = Some (name, data)
       /\ handleDownloadZip false [generated_item "1" code128 "A/B" "<svg>first</svg>"]
          = Some {[ name := data ]}
       /\ zip_folders (zip_loop [generated_item "1" code128 "A/B" "<svg>first</svg>"])
          = file_folders name ∅.
Proof.
  split; [reflexivity |].
  exact (proj2 (handleDownloadSVG_as_archive
                  (generated_item "1" code128 "A/B" "<svg>first</svg>")) eq_refl).
Defined.

(** ** The length of the batch list and the naming scheme *)

(** X27. Whatever is done to the list, it never holds more than fifty
    items; and while every added item gets an id that no item has and no
    edit sets an id, the ids stay distinct and the list keeps at least one
    item. *)
Theorem batch_list_length_bounds (actions : list action) :
  length (run actions) <= MAX_BARCODES
  /\ (all_keep_ids_distinct initial_barcodes actions ->
      1 <= length (run actions) /\ NoDup (Item.id <$> run actions)).
Proof.
  split; [apply run_length_le |]. unfold run.
  assert (H : forall l, all_keep_ids_distinct l actions ->
                NoDup (Item.id <$> l) -> 1 <= length l ->
                1 <= length (foldl step l actions)
                /\ NoDup (Item.id <$> foldl step l actions)).
  { induction actions as [| a actions IH]; intros l Hl Hnd Hlen; [now split |].
    destruct Hl as [Ha Hrest]. cbn [foldl].
    destruct (step_keeps_one l a Ha Hnd Hlen) as [Hnd' Hlen'].
    now apply IH. }
  intros Hall. apply H; [exact Hall | | cbn; lia].
  cbn. apply NoDup_singleton.
Qed.

Lemma batch_list_length_bounds_witness :
  all_keep_ids_distinct initial_barcodes [AddBarcode 1700000000000; DeleteBarcode "1"]
  /\ 1 <= length (run [AddBarcode 1700000000000; DeleteBarcode "1"])
  /\ Item.id <$> run [AddBarcode 1700000000000; DeleteBarcode "1"] = ["1700000000000"].
Proof.
  assert (H : all_keep_ids_distinct initial_barcodes
                [AddBarcode 1700000000000; DeleteBarcode "1"]).
  { cbn. split; [| tauto]. apply (bool_decide_unpack _). vm_compute. exact I. }
  split; [exact H |]. split; [| vm_compute; reflexivity].
  exact (proj1 (proj2 (batch_list_length_bounds
                         [AddBarcode 1700000000000; DeleteBarcode "1"]) H)).
Defined.

(** X28. The filenames that the loop of handleDownloadZip logs follow the
    scheme of its comments: an item without an image that is not blank
    gets none, the first item with a base name gets the base name, and the
    k-th later item with that base name gets it with the suffix _k. *)
Theorem zip_names_follow_the_scheme (items : list BarcodeItem) :
  added (zip_loop items) = Spec.filenames [] items
  /\ forall seen item rest,
       Spec.filenames seen (item :: rest)
       = if has_svgData item
         then numbered_name (Spec.base_name item)
                (Spec.occurrences (Spec.base_name item) seen)
              :: Spec.filenames (Spec.base_name item :: seen) rest
         else Spec.filenames seen rest.
Proof.
  split; [apply zip_loop_filenames |]. intros seen item rest. cbn [Spec.filenames].
  destruct (has_svgData item); [| reflexivity].
  now destruct (Spec.occurrences (Spec.base_name item) seen).
Qed.

(** ** The counts on the buttons *)

(** X20. On the page the images of the list come from generateBarcode, so
    that an item that has an image has one that is not blank: the count on
    each ZIP button is the number of items that handleDownloadZip takes,
    and a button that is enabled downloads an archive. *)
Theorem zip_buttons_count_the_downloads
    (validateBarcodeInput : string -> Symbology -> Validation) (actions : list action) :
  Forall (page_action validateBarcodeInput) actions ->
  validCount (run actions) = length (itemsToDownload false (run actions))
  /\ selectedCount (run actions) = length (itemsToDownload true (run actions))
  /\ Forall (fun b => truthy_opt (Item.svgData b) = true -> has_svgData b = true)
       (run actions)
  /\ (validCount (run actions) ≠ 0 -> handleDownloadZip false (run actions) ≠ None)
  /\ (selectedCount (run actions) ≠ 0 -> handleDownloadZip true (run actions) ≠ None).
Proof.
  intros Hall.
  assert (Hinv : Forall (fun b => truthy_opt (Item.svgData b) = has_svgData b) (run actions)).
  { unfold run.
    assert (H : forall l, Forall (fun b => truthy_opt (Item.svgData b) = has_svgData b) l ->
              Forall (fun b => truthy_opt (Item.svgData b) = has_svgData b)
                (foldl step l actions)).
    { induction Hall as [| a actions Ha _ IH]; intros l Hl; [exact Hl |].
      cbn [foldl]. apply IH. now apply (step_images_not_blank validateBarcodeInput). }
    apply H. now repeat constructor. }
  assert (Hvalid : validCount (run actions) = length (itemsToDownload false (run actions))).
  { unfold validCount, itemsToDownload. f_equal. apply filter_length_agree.
    eapply Forall_impl; [exact Hinv |]. intros b Hb. cbn beta in *. now rewrite Hb. }
  assert (Hsel : selectedCount (run actions) = length (itemsToDownload true (run actions))).
  { unfold selectedCount, itemsToDownload. f_equal. apply filter_length_agree.
    eapply Forall_impl; [exact Hinv |]. intros b Hb. cbn beta in *. now rewrite Hb. }
  split; [exact Hvalid |]. split; [exact Hsel |]. split; [| split].
  - eapply Forall_impl; [exact Hinv |]. intros b Hb Ht. cbn beta in *. congruence.
  - intros Hcount Hnone.
    apply handleDownloadZip_none in Hnone.
    rewrite Hvalid, Hnone in Hcount. now apply Hcount.
  - intros Hcount Hnone.
    apply handleDownloadZip_none in Hnone.
    rewrite Hsel, Hnone in Hcount. now apply Hcount.
Qed.

Lemma zip_buttons_count_the_downloads_witness :
  Forall (page_action example_validate)
    [ GenerateOne "1"
        (generateBarcode example_validate example_settings example_fetch
           (generated_item "1" ean13 "8809560223070" " ")) ]
  /\ validCount (run [ GenerateOne "1"
        (generateBarcode example_validate example_settings example_fetch
           (generated_item "1" ean13 "8809560223070" " ")) ])
     = length (itemsToDownload false (run [ GenerateOne "1"
        (generateBarcode example_validate example_settings example_fetch
           (generated_item "1" ean13 "8809560223070" " ")) ]))
  /\ validCount (run [ GenerateOne "1"
        (generateBarcode example_validate example_settings example_fetch
           (generated_item "1" ean13 "8809560223070" " ")) ]) = 1.
Proof.
  assert (H : Forall (page_action example_validate)
    [ GenerateOne "1"
        (generateBarcode example_validate example_settings example_fetch
           (generated_item "1" ean13 "8809560223070" " ")) ]).
  { constructor; [| constructor]. cbn [page_action]. eexists _, _, _. reflexivity. }
  split; [exact H |]. split; [| reflexivity].
  exact (proj1 (zip_buttons_count_the_downloads example_validate _ H)).
Defined.
